(** * Verification of the comment-job worker core

    Shallow embedding of the job execution core of the server:

    - [RateGovernor]: [checkRateLimit], [waitWithBackoff] and
      [handleRateLimitError] of [workers/commentWorker.js];
    - [PostFilters]: [isExcludedPost], [rankPosts] and [filterPosts] of
      [utils/postFilters.js], over a store of JavaScript arrays;
    - [Workers]: the queue handlers of [workers/commentWorker.js],
      [workers/linkedPostRefinementWorker.js] and
      [workers/enhancedLinkedInWorker.js] over the job, post and session
      report collections;
    - [CookieLoader]: the loaders of [utils/cookieLoader.js];
    - [ActionExecutor]: [postCommentOnPost] of [workers/commentWorker.js];
    - [PostRanking]: the other filters of [utils/postFilters.js];
    - [AIConfig]: [updateAIConfig] of
      [workers/linkedPostRefinementWorker.js];
    - [CommentQueue]: the listeners of [queues/commentQueue.js] and the
      route [POST /start-comment-job] of [routes/comment.js].

    JavaScript numbers that hold counters, timestamps (milliseconds) and
    engagement figures are integers of [Z]; [maxComments], which the route
    accepts as any number from 1 to 20, is a rational of [Q]; strings are
    byte strings.  The documents are those of the Mongoose models:
    [models/CommentJob.js] for a job, the schema with the compound index
    ([postUrl], [userId]) for a post.  The calls to the database are taken
    to succeed, except [Post.insertMany], which throws on a document the
    schema rejects and on a duplicate key; what the browser, the scraper
    and the comment generator do is a parameter of a run. *)

From Stdlib Require Import ZArith QArith Qround Lqa List String Ascii Bool Lia
  Permutation Sorted.
From stdpp Require Import base option gmap strings pretty.

Import ListNotations.
Local Open Scope string_scope.
Local Open Scope Z_scope.

(** ** Results of fallible code *)

(** A thrown [Error]: its [message] and, for database errors, its [code]. *)
Record Error : Type := mkError { message : string; code : option Z }.

(** [new Error(msg)]. *)
Definition Err (msg : string) : Error := {| message := msg; code := None |}.

(** An [async] function either returns a value or throws. *)
Inductive Outcome (A : Type) : Type :=
| Return (a : A)
| Throw (e : Error).
Arguments Return {A} a.
Arguments Throw {A} e.

Definition returned {A} (o : Outcome A) : bool :=
  match o with Return _ => true | Throw _ => false end.

(** ** Numbers *)

(** [x < y] on numbers that need not be integers. *)
Definition Qltb (x y : Q) : bool := negb (Qle_bool y x).

(** ** Strings *)

(** [String.prototype.includes]: [includes needle hay] is [hay.includes(needle)]. *)
Fixpoint includes (needle hay : string) : bool :=
  String.prefix needle hay
  || match hay with
     | EmptyString => false
     | String _ rest => includes needle rest
     end.

Definition lower_ascii (c : ascii) : ascii :=
  let n := nat_of_ascii c in
  if (andb (Nat.leb 65 n) (Nat.leb n 90)) then ascii_of_nat (n + 32) else c.

(** [String.prototype.toLowerCase] on the ASCII letters. *)
Fixpoint toLowerCase (s : string) : string :=
  match s with
  | EmptyString => EmptyString
  | String c rest => String (lower_ascii c) (toLowerCase rest)
  end.

(** ** RateGovernor: [workers/commentWorker.js], lines 20-108 *)

Module RateGovernor.

Definition MAX_REQUESTS_PER_MINUTE : Z := 5.
Definition MAX_REQUESTS_PER_HOUR : Z := 50.

(** One budget window of [requestCount]. *)
Record Window : Type := mkWindow { count : Z; resetTime : Z }.

(** The module-level [requestCount] object. *)
Record RequestCount : Type := mkRequestCount { minute : Window; hour : Window }.

(** [requestCount] as initialised when the module is loaded at time [t0]. *)
Definition initial (t0 : Z) : RequestCount :=
  {| minute := {| count := 0; resetTime := t0 + 60000 |};
     hour := {| count := 0; resetTime := t0 + 3600000 |} |}.

(** The two window resets at the top of [checkRateLimit]. *)
Definition refresh (now : Z) (rc : RequestCount) : RequestCount :=
  {| minute := if now >? resetTime (minute rc)
               then {| count := 0; resetTime := now + 60000 |}
               else minute rc;
     hour := if now >? resetTime (hour rc)
             then {| count := 0; resetTime := now + 3600000 |}
             else hour rc |}.

Definition bump (w : Window) : Window :=
  {| count := count w + 1; resetTime := resetTime w |}.

(** [checkRateLimit()]: [now] is the value of [Date.now()], the result is
    the returned wait time and the new value of [requestCount]. *)
Definition checkRateLimit (now : Z) (rc : RequestCount) : Z * RequestCount :=
  let rc1 := refresh now rc in
  if count (minute rc1) >=? MAX_REQUESTS_PER_MINUTE then
    (resetTime (minute rc1) - now, rc1)
  else if count (hour rc1) >=? MAX_REQUESTS_PER_HOUR then
    (resetTime (hour rc1) - now, rc1)
  else
    (0, {| minute := bump (minute rc1); hour := bump (hour rc1) |}).

(** The state reached from [rc] by a sequence of calls at the given times. *)
Fixpoint run (times : list Z) (rc : RequestCount) : RequestCount :=
  match times with
  | [] => rc
  | now :: rest => run rest (snd (checkRateLimit now rc))
  end.

(** Both counters are within their caps. *)
Definition within_caps (rc : RequestCount) : Prop :=
  0 <= count (minute rc) <= MAX_REQUESTS_PER_MINUTE
  /\ 0 <= count (hour rc) <= MAX_REQUESTS_PER_HOUR.

(** [waitWithBackoff(baseDelay, attempt)]: the delay it sleeps for. *)
Definition waitWithBackoff (baseDelay attempt : Z) : Z :=
  Z.min (baseDelay * 2 ^ attempt) 60000.

(** The test at the top of [handleRateLimitError]. *)
Definition isRateLimitMessage (message : string) : bool :=
  includes "429" message || includes "Too Many Requests" message.

(** What [handleRateLimitError] does to the outside world. *)
Inductive Event : Type :=
| Sleep (ms : Z)
| Reload (ok : bool).

(** The [for] loop of [handleRateLimitError]: [attempt] is the loop
    variable, [todo] the number of iterations left
    ([maxRetries - attempt]), and [reload attempt] tells whether
    [page.reload] succeeds in that iteration. *)
Fixpoint retryLoop (reload : nat -> bool) (maxRetries attempt todo : nat)
  : Outcome bool * list Event :=
  match todo with
  | O => (Return false, [])
  | S todo' =>
      let waitTime := (Z.of_nat attempt + 1) * 30000 in
      if reload attempt then
        (Return true, [Sleep waitTime; Reload true])
      else if Nat.eqb attempt (maxRetries - 1) then
        (Throw (Err ("Rate limit recovery failed after " ++ pretty maxRetries ++ " attempts")%string),
         [Sleep waitTime; Reload false])
      else
        let '(r, evs) := retryLoop reload maxRetries (S attempt) todo' in
        (r, Sleep waitTime :: Reload false :: evs)
  end.

(** [handleRateLimitError(page, error, operation, maxRetries)]. *)
Definition handleRateLimitError (reload : nat -> bool) (message : string)
    (maxRetries : nat) : Outcome bool * list Event :=
  if isRateLimitMessage message then
    retryLoop reload maxRetries 0 maxRetries
  else (Return false, []).

(** The sleeps of a trace, in order. *)
Definition sleeps (evs : list Event) : list Z :=
  flat_map (fun e => match e with Sleep ms => [ms] | Reload _ => [] end) evs.

Definition reloads (evs : list Event) : list bool :=
  flat_map (fun e => match e with Sleep _ => [] | Reload ok => [ok] end) evs.

(** The trace of [n] attempts starting at [attempt], the last one with
    reload result [last]. *)
Fixpoint attempts (attempt n : nat) (last : bool) : list Event :=
  match n with
  | O => []
  | S n' =>
      Sleep ((Z.of_nat attempt + 1) * 30000)
      :: Reload (match n' with O => last | S _ => false end)
      :: attempts (S attempt) n' last
  end.

End RateGovernor.

(** ** Filter/RankEngine: [utils/postFilters.js] *)

Module PostFilters.

(** A scraped post.  [commentWorker.js] stores the body under [text],
    [linkedPostRefinementWorker.js] under [content]; a field that is
    [None] is [undefined].  The workers set no [timestamp] (milliseconds);
    [filterAndRankPosts] reads one. *)
Record Post : Type := mkPost {
  text : option string;
  content : option string;
  reactions : Z;
  comments : Z;
  postUrl : option string;
  keyword : string;
  timestamp : option Z;
}.

(** The [options] object of a job; [None] is an absent property. *)
Record Options : Type := mkOptions {
  minReactions : option Z;
  excludeJobPosts : option bool;
  messageTone : option string;
  wantEmoji : option bool;
  wantHashtags : option bool;
}.

Definition STOP_WORDS : list string :=
  [ "hiring"; "we're looking for"; "job opportunity"; "new position at";
    "looking for"; "join our team"; "work anniversary";
    "started a new position"; "say congrats"; "congratulations";
    "happy work anniversary"; "celebrating" ].

(** [isExcludedPost(postText)]. *)
Definition isExcludedPost (postText : string) : bool :=
  existsb (fun word => includes word (toLowerCase postText)) STOP_WORDS.

(** [a || b] on possibly undefined strings: the empty string is falsy. *)
Definition or_string (a b : option string) : option string :=
  match a with
  | Some EmptyString | None => b
  | Some s => Some s
  end.

(** [x || 0] on numbers. *)
Definition or_zero (x : Z) : Z := if x =? 0 then 0 else x.

(** The comparator's score inside [filterPosts]. *)
Definition score (p : Post) : Z := or_zero (reactions p) + or_zero (comments p).

(** The comparator's score inside [rankPosts]. *)
Definition rankScore (p : Post) : Z := reactions p + comments p.

(** [Array.prototype.sort] with the comparator
    [(a, b) => key(b) - key(a)].  The sort is stable: [insert x l] puts
    [x], which preceded the elements of [l], in front of the first
    element the comparator does not order before it. *)
Section Sort.
Context {A : Type} (key : A -> Z).

Definition compare (a b : A) : Z := key b - key a.

Fixpoint insert (x : A) (l : list A) : list A :=
  match l with
  | [] => [x]
  | y :: rest =>
      if compare x y <=? 0 then x :: y :: rest else y :: insert x rest
  end.

Fixpoint sort (l : list A) : list A :=
  match l with
  | [] => []
  | x :: rest => insert x (sort rest)
  end.

(** Descending by [key]. *)
Definition descending (l : list A) : Prop :=
  StronglySorted (fun a b => key b <= key a) l.

(** [ranked] is the stable descending arrangement of [l]: ordered by
    [key], largest first, and within each key value in the order of
    [l]. *)
Definition stable_ranking (l ranked : list A) : Prop :=
  descending ranked
  /\ forall k, List.filter (fun a => key a =? k) ranked
               = List.filter (fun a => key a =? k) l.
End Sort.

(** [Array.prototype.filter] with a callback that may throw. *)
Fixpoint filterOutcome {A} (f : A -> Outcome bool) (l : list A)
  : Outcome (list A) :=
  match l with
  | [] => Return []
  | x :: rest =>
      match f x with
      | Throw e => Throw e
      | Return keep =>
          match filterOutcome f rest with
          | Throw e => Throw e
          | Return rest' => Return (if keep then x :: rest' else rest')
          end
      end
  end.

(** [post.text || post.content]. *)
Definition body (p : Post) : option string := or_string (text p) (content p).

(** The callback of the job-post filter: [isExcludedPost(undefined)]
    throws a [TypeError]. *)
Definition notJobPost (p : Post) : Outcome bool :=
  match body p with
  | Some s => Return (negb (isExcludedPost s))
  | None => Throw (Err "Cannot read properties of undefined (reading 'toLowerCase')")
  end.

Definition longEnough (p : Post) : bool :=
  (30 <=? Z.of_nat (String.length (default "" (or_string (body p) (Some "")))))%Z.

Definition minReactionsOf (o : Options) : Z := default 10 (minReactions o).
Definition excludeJobPostsOf (o : Options) : bool := default true (excludeJobPosts o).

(** The value computed by [filterPosts(posts, options)]. *)
Definition filterPostsList (posts : list Post) (options : Options)
  : Outcome (list Post) :=
  let engaged := List.filter (fun p => reactions p >=? minReactionsOf options) posts in
  match (if excludeJobPostsOf options
         then filterOutcome notJobPost engaged
         else Return engaged) with
  | Throw e => Throw e
  | Return kept =>
      Return (sort score (List.filter longEnough kept))
  end.

(** A post passes the three filters of [filterPosts]. *)
Definition survives (options : Options) (p : Post) : bool :=
  (reactions p >=? minReactionsOf options)
  && (if excludeJobPostsOf options
      then match body p with
           | Some s => negb (isExcludedPost s)
           | None => false
           end
      else true)
  && longEnough p.

(** *** Arrays as objects *)

(** The arrays of the program live in a store, a [gmap nat (list Post)],
    and are passed by reference, a key of the store. *)

(** A new array holding [v]. *)
Definition alloc (v : list Post) (h : gmap nat (list Post)) : nat * gmap nat (list Post) :=
  let r := fresh (dom h) in (r, <[r := v]> h).

(** [filterPosts(posts, options)] on the store: [[...posts]] and every
    [.filter] make a new array, [.sort] works in place on the last one. *)
Definition filterPosts (posts : nat) (options : Options) (h : gmap nat (list Post))
  : Outcome nat * gmap nat (list Post) :=
  match h !! posts with
  | None => (Throw (Err "posts is not iterable"), h)
  | Some l =>
      let '(r0, h0) := alloc l h in
      let engaged := List.filter (fun p => reactions p >=? minReactionsOf options) l in
      let '(r1, h1) := alloc engaged h0 in
      match (if excludeJobPostsOf options
             then match filterOutcome notJobPost engaged with
                  | Throw e => (Throw e, h1)
                  | Return kept => let '(r2, h2) := alloc kept h1 in (Return kept, h2)
                  end
             else (Return engaged, h1)) with
      | (Throw e, h2) => (Throw e, h2)
      | (Return kept, h2) =>
          let '(r3, h3) := alloc (List.filter longEnough kept) h2 in
          (Return r3, <[r3 := sort score (List.filter longEnough kept)]> h3)
      end
  end.

(** [rankPosts(posts)]: sorts the array it is given and returns it. *)
Definition rankPosts (posts : nat) (h : gmap nat (list Post)) : Outcome nat * gmap nat (list Post) :=
  match h !! posts with
  | None => (Throw (Err "Cannot read properties of undefined (reading 'sort')"), h)
  | Some l => (Return posts, <[posts := sort rankScore l]> h)
  end.

(** The integer an index argument stands for: the number without its
    fraction. *)
Definition toInteger (x : Q) : Z :=
  if Qle_bool 0 x then Qfloor x else Qceiling x.

(** [Array.prototype.slice(0, end)]. *)
Definition slice0 {A} (l : list A) (end_ : Q) : list A :=
  let len := Z.of_nat (List.length l) in
  let relativeEnd := toInteger end_ in
  let k := if relativeEnd <? 0 then Z.max (len + relativeEnd) 0
           else Z.min relativeEnd len in
  firstn (Z.to_nat k) l.

(** The posts visited by the act loop of [commentWorker.js]:
    [for (let i = 0; i < Math.min(filteredPosts.length, maxComments); i++)].
    The indices below a bound that is not an integer are those below the
    next integer. *)
Definition actLoopPosts {A} (filteredPosts : list A) (maxComments : Q) : list A :=
  firstn (Z.to_nat (Z.min (Z.of_nat (List.length filteredPosts)) (Qceiling maxComments)))
         filteredPosts.

(** [postsForCommenting] of [linkedPostRefinementWorker.js]:
    the posts not yet commented, ranked, cut at [maxComments]. *)
Definition availablePosts (scrapedPosts : list Post) (commentedPostUrls : list string)
  : list Post :=
  List.filter
    (fun p => negb (match postUrl p with
                    | Some u => existsb (String.eqb u) commentedPostUrls
                    | None => false
                    end))
    scrapedPosts.

Definition postsForCommenting (scrapedPosts : list Post)
    (commentedPostUrls : list string) (maxComments : Q) : list Post :=
  slice0 (sort rankScore (availablePosts scrapedPosts commentedPostUrls)) maxComments.

End PostFilters.

(** ** JobProcessor: the queue handlers *)

Module Workers.
Import PostFilters.

(** *** Documents *)

(** The [status] of a job.  [models/CommentJob.js] lists the first four;
    [permanently_failed] is written by [linkedPostRefinementWorker.js]. *)
Inductive Status : Type :=
| waiting | active | completed | failed | permanently_failed.

Definition Status_eqb (a b : Status) : bool :=
  match a, b with
  | waiting, waiting | active, active | completed, completed
  | failed, failed | permanently_failed, permanently_failed => true
  | _, _ => false
  end.

(** The [enum] of [commentJobSchema.status]. *)
Definition schemaStatusEnum : list Status := [waiting; active; completed; failed].

Record Progress : Type := mkProgress {
  currentStep : option string;
  stepProgress : option Z;
}.

Record ReportSummary : Type := mkReportSummary {
  sum_totalPostsScraped : Z;
  sum_filteredPosts : Z;
  sum_commentsPosted : Z;
  sum_failed : Z;
}.

Record JobResult : Type := mkJobResult {
  res_success : bool;
  res_commentedCount : Z;
  res_totalPostsScraped : Z;
  res_sessionReport : ReportSummary;
}.

(** A [CommentJob] document, with the paths of [commentJobSchema] that
    the handlers read or write. *)
Record CommentJob : Type := mkCommentJob {
  status : Status;
  startedAt : option Z;
  completedAt : option Z;
  result : option JobResult;
  error : option string;
  progress : Progress;
}.

(** [existingJob.failedAttempts]: [commentJobSchema] has no path
    [failedAttempts], so a document read through the model has no such
    property, whatever the collection holds. *)
Definition failedAttempts (j : CommentJob) : option Z := None.

Record ErrorEntry : Type := mkErrorEntry {
  err_message : string;
  err_step : string;
  err_timestamp : Z;
}.

(** A [SessionReport] document ([successRate] and [performance], which
    are floating-point measurements, are left out). *)
Record SessionReport : Type := mkSessionReport {
  rep_jobId : string;
  rep_userId : string;
  rep_totalPostsScraped : Z;
  rep_filteredPosts : Z;
  rep_commentsPosted : Z;
  rep_failed : Z;
  rep_duration : Z;
  rep_startTime : Z;
  rep_endTime : Z;
  rep_keywords : list string;
  rep_errors : list ErrorEntry;
}.

(** A [Post] document. *)
Record PostDoc : Type := mkPostDoc {
  doc_postUrl : option string;
  doc_userId : option string;
  doc_jobId : option string;
  doc_content : option string;
  doc_reactions : Z;
  doc_comments : Z;
  doc_isCommented : bool;
  doc_commentedText : option string;
  doc_commentedAt : option Z;
}.

(** [puppeteer.launch] returned a browser; [browser.close] was called. *)
Inductive BrowserEvent : Type := Launched | CloseCalled.

(** Everything outside the handler that it can change: the three
    collections, the queue's progress value of the delivered job, and the
    browser processes it started and closed. *)
Record World : Type := mkWorld {
  jobs : gmap string CommentJob;
  reports : list SessionReport;
  posts : list PostDoc;
  queueProgress : option Z;
  browserLog : list BrowserEvent;
}.

(** [job.data]. *)
Record JobData : Type := mkJobData {
  jobId : string;
  userId : string;
  keywords : list string;
  maxComments : Q;
  options : Options;
}.

(** The object a handler returns. *)
Record JobReturn : Type := mkJobReturn {
  success : bool;
  ret_message : option string;
  ret_reason : option string;
  ret_commentedCount : option Z;
  ret_totalPostsScraped : option Z;
  ret_sessionReport : option nat;
}.

(** The collaborators of a run: the clock, the credential store, the
    browser, the scraper, the commenter and the submission of a comment. *)
Record Env : Type := mkEnv {
  now : Z;
  endTime : Z;
  hasValidLinkedInCookies : bool;
  loadLinkedInCookies : Outcome (list string);
  launch : Outcome unit;
  openPage : Outcome unit;
  loggedIn : bool;
  scrape : Outcome (list Post * Z);
  generateAIComment : Post -> Outcome string;
  postCommentOnPost : Post -> string -> Outcome unit;
  submitComment : Post -> string -> Outcome bool;
  closeBrowser : Outcome unit;
}.

(** *** The handler monad *)

(** The variables of a handler that its [catch] and [finally] blocks
    look at. *)
Record Locals : Type := mkLocals {
  browser : bool;
  cleanup : bool;
}.

Definition State : Type := World * Locals.

(** Effects on the world persist when the code throws. *)
Definition M (A : Type) : Type := State -> Outcome A * State.

Definition ret {A} (a : A) : M A := fun s => (Return a, s).
Definition throw {A} (e : Error) : M A := fun s => (Throw e, s).
Definition lift {A} (o : Outcome A) : M A := fun s => (o, s).

Definition bind {A B} (m : M A) (k : A -> M B) : M B :=
  fun s => match m s with
           | (Return a, s') => k a s'
           | (Throw e, s') => (Throw e, s')
           end.

(** [try { m } catch (e) { h e }]. *)
Definition try_catch {A} (m : M A) (h : Error -> M A) : M A :=
  fun s => match m s with
           | (Return a, s') => (Return a, s')
           | (Throw e, s') => h e s'
           end.

(** [try { m } finally { fin }]. *)
Definition try_finally {A} (m : M A) (fin : M unit) : M A :=
  fun s => match m s with
           | (r, s') =>
               match fin s' with
               | (Return _, s'') => (r, s'')
               | (Throw e, s'') => (Throw e, s'')
               end
           end.

Notation "'let!' x ':=' m 'in' k" := (bind m (fun x => k))
  (at level 10, x pattern, k at level 200).
Notation "m '>>' k" := (bind m (fun _ => k))
  (at level 100, right associativity).

Definition assert (b : bool) (msg : string) : M unit :=
  if b then ret tt else throw (Err msg).

Definition getWorld : M World := fun s => (Return (fst s), s).
Definition modifyWorld (f : World -> World) : M unit :=
  fun s => (Return tt, (f (fst s), snd s)).
Definition getLocals : M Locals := fun s => (Return (snd s), s).
Definition modifyLocals (f : Locals -> Locals) : M unit :=
  fun s => (Return tt, (fst s, f (snd s))).

(** *** The collections *)

(** [CommentJob.findById(id)]. *)
Definition findById (id : string) : M (option CommentJob) :=
  let! w := getWorld in ret (jobs w !! id).

(** [CommentJob.findByIdAndUpdate(id, update)]: no document, no change. *)
Definition findByIdAndUpdate (id : string) (update : CommentJob -> CommentJob) : M unit :=
  modifyWorld (fun w =>
    {| jobs := alter update id (jobs w); reports := reports w; posts := posts w;
       queueProgress := queueProgress w; browserLog := browserLog w |}).

(** [job.updateProgress(n)]. *)
Definition updateProgress (n : Z) : M unit :=
  modifyWorld (fun w =>
    {| jobs := jobs w; reports := reports w; posts := posts w;
       queueProgress := Some n; browserLog := browserLog w |}).

(** [SessionReport.create(doc)]; the result stands for the new [_id]. *)
Definition createReport (r : SessionReport) : M nat :=
  let! w := getWorld in
  modifyWorld (fun w =>
    {| jobs := jobs w; reports := reports w ++ [r]; posts := posts w;
       queueProgress := queueProgress w; browserLog := browserLog w |}) >>
  ret (List.length (reports w)).

Definition setPosts (ps : list PostDoc) : M unit :=
  modifyWorld (fun w =>
    {| jobs := jobs w; reports := reports w; posts := ps;
       queueProgress := queueProgress w; browserLog := browserLog w |}).

Definition logBrowser (e : BrowserEvent) : M unit :=
  modifyWorld (fun w =>
    {| jobs := jobs w; reports := reports w; posts := posts w;
       queueProgress := queueProgress w; browserLog := browserLog w ++ [e] |}).

Definition option_string_eqb (a b : option string) : bool :=
  match a, b with
  | Some x, Some y => String.eqb x y
  | None, None => true
  | _, _ => false
  end.

(** Two documents collide on the unique index [{ postUrl: 1, userId: 1 }]. *)
Definition sameKey (a b : PostDoc) : bool :=
  option_string_eqb (doc_postUrl a) (doc_postUrl b)
  && option_string_eqb (doc_userId a) (doc_userId b).

Definition duplicateKey : Error :=
  {| message := "E11000 duplicate key error"; code := Some 11000 |}.

(** [required: true]: the path holds a value, and not the empty string. *)
Definition present (value : option string) : bool :=
  match value with
  | Some (String _ _) => true
  | Some EmptyString | None => false
  end.

(** The required paths of [postSchema] that [d] lacks, in the order of
    the schema: [postUrl], [userId], [content]. *)
Definition missingPaths (d : PostDoc) : list string :=
  ((if present (doc_postUrl d) then [] else ["postUrl"])
   ++ (if present (doc_userId d) then [] else ["userId"])
   ++ (if present (doc_content d) then [] else ["content"]))%list.

(** The document passes the validation of [postSchema]. *)
Definition validPost (d : PostDoc) : bool :=
  match missingPaths d with [] => true | _ :: _ => false end.

(** The [ValidationError] of Mongoose for [d]. *)
Definition validationError (d : PostDoc) : Error :=
  Err ("Post validation failed: "
       ++ String.concat ", "
            (List.map (fun path => path ++ ": Path `" ++ path ++ "` is required.")
                      (missingPaths d)))%string.

(** The ordered write of the database: the first duplicate stops the
    batch and is thrown. *)
Fixpoint writeOrdered (docs coll : list PostDoc) : Outcome unit * list PostDoc :=
  match docs with
  | [] => (Return tt, coll)
  | d :: rest =>
      if existsb (sameKey d) coll then (Throw duplicateKey, coll)
      else writeOrdered rest (coll ++ [d])
  end.

(** [Post.insertMany(docs)]: Mongoose validates the documents first and,
    the insert being ordered, throws the error of the first document the
    schema rejects before anything is written; a batch of valid documents
    goes to the database in order. *)
Definition insertOrdered (docs coll : list PostDoc) : Outcome unit * list PostDoc :=
  match List.find (fun d => negb (validPost d)) docs with
  | Some d => (Throw (validationError d), coll)
  | None => writeOrdered docs coll
  end.

(** The unordered write of the database: every document is tried; the
    result is the number inserted and the collection. *)
Fixpoint writeUnordered (docs coll : list PostDoc) : Z * list PostDoc :=
  match docs with
  | [] => (0, coll)
  | d :: rest =>
      if existsb (sameKey d) coll then writeUnordered rest coll
      else let '(n, coll') := writeUnordered rest (coll ++ [d]) in (n + 1, coll')
  end.

(** [Post.insertMany(docs, { ordered: false })]: Mongoose leaves out the
    documents the schema rejects and sends the others. *)
Definition insertUnordered (docs coll : list PostDoc) : Z * list PostDoc :=
  writeUnordered (List.filter validPost docs) coll.

(** [Post.insertMany]; the unordered insert throws the duplicate-key
    error after the batch when a document it sent was a duplicate. *)
Definition insertMany (ordered : bool) (docs : list PostDoc) : M Z :=
  let! w := getWorld in
  if ordered then
    let '(r, coll) := insertOrdered docs (posts w) in
    setPosts coll >>
    match r with
    | Return _ => ret (Z.of_nat (List.length docs))
    | Throw e => throw e
    end
  else
    let '(n, coll) := insertUnordered docs (posts w) in
    setPosts coll >>
    if n =? Z.of_nat (List.length (List.filter validPost docs)) then ret n
    else throw duplicateKey.

(** [Post.findOneAndUpdate(filter, update)]: the first match is updated. *)
Fixpoint updateFirst (matches : PostDoc -> bool) (update : PostDoc -> PostDoc)
    (coll : list PostDoc) : list PostDoc :=
  match coll with
  | [] => []
  | d :: rest =>
      if matches d then update d :: rest else d :: updateFirst matches update rest
  end.

Definition findOneAndUpdate (matches : PostDoc -> bool) (update : PostDoc -> PostDoc)
  : M unit :=
  let! w := getWorld in setPosts (updateFirst matches update (posts w)).

(** [Post.find(filter).distinct('postUrl')]. *)
Fixpoint distinct (urls : list string) : list string :=
  match urls with
  | [] => []
  | u :: rest =>
      let ds := distinct rest in
      if existsb (String.eqb u) ds then ds else u :: ds
  end.

Definition findDistinctUrls (matches : PostDoc -> bool) : M (list string) :=
  let! w := getWorld in
  ret (distinct (omap doc_postUrl (List.filter matches (posts w)))).


(** *** Updates of the job document *)

Definition setStep (step : string) (n : Z) (j : CommentJob) : CommentJob :=
  {| status := status j; startedAt := startedAt j; completedAt := completedAt j;
     result := result j; error := error j;
     progress := {| currentStep := Some step; stepProgress := Some n |} |}.

(** [{ status: 'active', startedAt: new Date(),
       'progress.currentStep': 'Starting', 'progress.stepProgress': 10 }] *)
Definition setActive (t : Z) (j : CommentJob) : CommentJob :=
  {| status := active; startedAt := Some t; completedAt := completedAt j;
     result := result j; error := error j;
     progress := {| currentStep := Some "Starting"; stepProgress := Some 10 |} |}.

(** The update at the end of a successful run. *)
Definition setCompleted (t : Z) (r : JobResult) (j : CommentJob) : CommentJob :=
  {| status := completed; startedAt := startedAt j; completedAt := Some t;
     result := Some r; error := error j;
     progress := {| currentStep := Some "Completed"; stepProgress := Some 100 |} |}.

(** The update in the [catch] block; [attempts] is the [failedAttempts]
    of the update when it has one.  The schema is strict and has no such
    path, so the value is dropped from the update and never stored. *)
Definition setFailed (t : Z) (msg : string) (attempts : option Z) (j : CommentJob)
  : CommentJob :=
  {| status := failed; startedAt := startedAt j; completedAt := Some t;
     result := result j; error := Some msg;
     progress := {| currentStep := Some "Failed"; stepProgress := Some 0 |} |}.

(** [{ status: 'permanently_failed', error: 'Job failed too many times',
       completedAt: new Date() }] *)
Definition setPermanentlyFailed (t : Z) (j : CommentJob) : CommentJob :=
  {| status := permanently_failed; startedAt := startedAt j; completedAt := Some t;
     result := result j; error := Some "Job failed too many times";
     progress := progress j |}.

Definition step (d : JobData) (n : Z) (name : string) : M unit :=
  updateProgress n >> findByIdAndUpdate (jobId d) (setStep name n).

(** The session report of a failed run. *)
Definition errorReport (d : JobData) (duration startTime endTime : Z) (e : Error)
  : SessionReport :=
  {| rep_jobId := jobId d; rep_userId := userId d;
     rep_totalPostsScraped := 0; rep_filteredPosts := 0;
     rep_commentsPosted := 0; rep_failed := 1;
     rep_duration := duration; rep_startTime := startTime; rep_endTime := endTime;
     rep_keywords := keywords d;
     rep_errors := [ {| err_message := message e; err_step := "Job execution";
                        err_timestamp := endTime |} ] |}.

Definition rejected (msg reason : option string) : JobReturn :=
  {| success := false; ret_message := msg; ret_reason := reason;
     ret_commentedCount := None; ret_totalPostsScraped := None;
     ret_sessionReport := None |}.

Definition finished (commentedCount totalPostsScraped : Z) (report : nat) : JobReturn :=
  {| success := true; ret_message := None; ret_reason := None;
     ret_commentedCount := Some commentedCount;
     ret_totalPostsScraped := Some totalPostsScraped;
     ret_sessionReport := Some report |}.

(** [browser = await puppeteer.launch(...)]. *)
Definition launchBrowser (env : Env) : M unit :=
  lift (launch env) >>
  logBrowser Launched >>
  modifyLocals (fun l => {| browser := true; cleanup := cleanup l |}).

(** [await browser.close()]. *)
Definition browserClose (env : Env) : M unit :=
  logBrowser CloseCalled >> lift (closeBrowser env).

(** *** [workers/commentWorker.js] *)

Module CommentWorker.

(** One element of [postsToSave]; [post.text.match] throws on a post
    without [text]. *)
Definition postToSave (d : JobData) (post : Post) : Outcome PostDoc :=
  match text post with
  | None => Throw (Err "Cannot read properties of undefined (reading 'match')")
  | Some t =>
      Return {| doc_postUrl := postUrl post; doc_userId := None;
                doc_jobId := Some (jobId d); doc_content := Some t;
                doc_reactions := reactions post; doc_comments := comments post;
                doc_isCommented := false; doc_commentedText := None;
                doc_commentedAt := None |}
  end.

Fixpoint mapOutcome {A B} (f : A -> Outcome B) (l : list A) : Outcome (list B) :=
  match l with
  | [] => Return []
  | x :: rest =>
      match f x with
      | Throw e => Throw e
      | Return y =>
          match mapOutcome f rest with
          | Throw e => Throw e
          | Return ys => Return (y :: ys)
          end
      end
  end.

Definition markCommented (comment : string) (t : Z) (doc : PostDoc) : PostDoc :=
  {| doc_postUrl := doc_postUrl doc; doc_userId := doc_userId doc;
     doc_jobId := doc_jobId doc; doc_content := doc_content doc;
     doc_reactions := doc_reactions doc; doc_comments := doc_comments doc;
     doc_isCommented := true; doc_commentedText := Some comment;
     doc_commentedAt := Some t |}.

(** The body of the [try] inside the act loop. *)
Definition actOn (env : Env) (post : Post) : M unit :=
  let! comment := lift (generateAIComment env post) in
  lift (postCommentOnPost env post comment) >>
  findOneAndUpdate (fun doc => option_string_eqb (doc_postUrl doc) (postUrl post))
                   (markCommented comment (endTime env)).

(** Drafting the comment for [post], or submitting it, throws. *)
Definition actFails (env : Env) (post : Post) : bool :=
  match generateAIComment env post with
  | Throw _ => true
  | Return comment => negb (returned (postCommentOnPost env post comment))
  end.

(** The act loop over the posts it visits; the state of the loop is
    [(commentedCount, failedCount)]. *)
Fixpoint actLoop (env : Env) (selected : list Post) (commentedCount failedCount : Z)
  : M (Z * Z) :=
  match selected with
  | [] => ret (commentedCount, failedCount)
  | post :: rest =>
      let! ok := try_catch (actOn env post >> ret true) (fun _ => ret false) in
      if ok : bool then actLoop env rest (commentedCount + 1) failedCount
      else actLoop env rest commentedCount (failedCount + 1)
  end.

(** The rest of the [try] block, from the act loop to the [return]
    (lines 1085-1214). *)
Definition actAndFinish (env : Env) (d : JobData) (filteredPosts : list Post)
    (totalPostsScraped : Z) : M JobReturn :=
  step d 70 "Generating Comments" >>
  let! counts := actLoop env (actLoopPosts filteredPosts (maxComments d)) 0 0 in
  let commentedCount := fst counts in
  let failedCount := snd counts in
  step d 90 "Finalizing" >>
  let summary :=
    {| sum_totalPostsScraped := totalPostsScraped;
       sum_filteredPosts := Z.of_nat (List.length filteredPosts);
       sum_commentsPosted := commentedCount;
       sum_failed := failedCount |} in
  let! report := createReport
    {| rep_jobId := jobId d; rep_userId := userId d;
       rep_totalPostsScraped := totalPostsScraped;
       rep_filteredPosts := Z.of_nat (List.length filteredPosts);
       rep_commentsPosted := commentedCount; rep_failed := failedCount;
       rep_duration := endTime env - now env;
       rep_startTime := now env; rep_endTime := endTime env;
       rep_keywords := keywords d; rep_errors := [] |} in
  findByIdAndUpdate (jobId d)
    (setCompleted (endTime env)
       {| res_success := true; res_commentedCount := commentedCount;
          res_totalPostsScraped := totalPostsScraped;
          res_sessionReport := summary |}) >>
  updateProgress 100 >>
  try_catch
    (let! l := getLocals in if browser l then browserClose env else ret tt)
    (fun _ => ret tt) >>
  ret (finished commentedCount totalPostsScraped report).

(** The [try] block of the handler. *)
Definition tryBlock (env : Env) (d : JobData) : M JobReturn :=
  (* [let browser = null] belongs to this block *)
  findByIdAndUpdate (jobId d) (setActive (now env)) >>
  assert (hasValidLinkedInCookies env) "User does not have valid LinkedIn cookies" >>
  step d 20 "Loading Cookies" >>
  let! cookies := lift (loadLinkedInCookies env) in
  step d 30 "Launching Browser" >>
  launchBrowser env >>
  lift (openPage env) >>
  assert (existsb (String.eqb "li_at") cookies) "Missing li_at cookie" >>
  assert (loggedIn env) "LinkedIn cookies are invalid or expired. Please update cookies." >>
  step d 40 "Scraping Posts" >>
  let! scraped := lift (scrape env) in
  let scrapedPosts := fst scraped in
  let totalPostsScraped := snd scraped in
  step d 60 "Filtering Posts" >>
  let! filteredPosts := lift (filterPostsList scrapedPosts (options d)) in
  let! postsToSave := lift (mapOutcome (postToSave d) scrapedPosts) in
  insertMany true postsToSave >>
  actAndFinish env d filteredPosts totalPostsScraped.

(** The variable [browser] is declared with [let] inside the [try]
    block, so the name is not bound in the [catch] block: evaluating it
    there throws a [ReferenceError]. *)
Definition browserInCatchBlock : Outcome bool :=
  Throw (Err "browser is not defined").

(** The [catch] block; the inner [try]/[catch] around the clean-up
    swallows what the clean-up throws. *)
Definition catchBlock (env : Env) (d : JobData) (e : Error) : M JobReturn :=
  findByIdAndUpdate (jobId d) (setFailed (endTime env) (message e) None) >>
  createReport (errorReport d (endTime env - now env) (now env) (endTime env) e) >>
  try_catch
    (let! b := lift browserInCatchBlock in
     if b : bool then browserClose env else ret tt)
    (fun _ => ret tt) >>
  throw e.

(** The handler passed to [new Worker('comment-jobs', ...)]. *)
Definition handlerM (env : Env) (d : JobData) : M JobReturn :=
  let! existingJob := findById (jobId d) in
  match existingJob with
  | Some j =>
      if Status_eqb (status j) active
      then ret (rejected (Some "Job already being processed") None)
      else try_catch (tryBlock env d) (catchBlock env d)
  | None => try_catch (tryBlock env d) (catchBlock env d)
  end.

Definition handler (env : Env) (d : JobData) (w : World) : Outcome JobReturn * World :=
  let '(r, (w', _)) := handlerM env d (w, {| browser := false; cleanup := false |}) in
  (r, w').

End CommentWorker.

(** *** [workers/linkedPostRefinementWorker.js] *)

Module LinkedPostRefinementWorker.

Definition COMMENT_TEXT : string := "Really great thought".

(** [5 * 60 * 1000] *)
Definition minRestartInterval : Z := 5 * 60 * 1000.

(** [existingJob.failedAttempts || 0] *)
Definition failedAttemptsOf (j : CommentJob) : Z :=
  or_zero (default 0 (failedAttempts j)).

Definition postToInsert (d : JobData) (post : Post) : PostDoc :=
  {| doc_postUrl := postUrl post; doc_userId := Some (userId d);
     doc_jobId := Some (jobId d); doc_content := content post;
     doc_reactions := reactions post; doc_comments := comments post;
     doc_isCommented := false; doc_commentedText := None;
     doc_commentedAt := None |}.

(** [generateAdvancedAIComment] falls back to [COMMENT_TEXT]. *)
Definition generateAdvancedAIComment (env : Env) (post : Post) : string :=
  match generateAIComment env post with
  | Return c => c
  | Throw _ => COMMENT_TEXT
  end.

Definition markCommented (t : Z) (doc : PostDoc) : PostDoc :=
  {| doc_postUrl := doc_postUrl doc; doc_userId := doc_userId doc;
     doc_jobId := doc_jobId doc; doc_content := doc_content doc;
     doc_reactions := doc_reactions doc; doc_comments := doc_comments doc;
     doc_isCommented := true; doc_commentedText := doc_commentedText doc;
     doc_commentedAt := Some t |}.

(** The filter [{ postUrl, jobId, userId }]. *)
Definition ofJobAndUser (d : JobData) (doc : PostDoc) : bool :=
  option_string_eqb (doc_jobId doc) (Some (jobId d))
  && option_string_eqb (doc_userId doc) (Some (userId d)).

(** The body of the [try] inside the act loop; the result tells whether
    [commentedCount] was incremented. *)
Definition actOn (env : Env) (d : JobData) (post : Post) : M bool :=
  match or_string (postUrl post) None with
  | None => ret false
  | Some url =>
      match content post with
      | None => throw (Err "Cannot read properties of undefined (reading 'substring')")
      | Some _ =>
          let aiComment := generateAdvancedAIComment env post in
          let! found := lift (submitComment env post aiComment) in
          if found : bool then
            findOneAndUpdate
              (fun doc => option_string_eqb (doc_postUrl doc) (Some url)
                          && ofJobAndUser d doc)
              (markCommented (endTime env)) >>
            ret true
          else ret false
      end
  end.

(** The act step on [post] throws: the post has a URL, and its [content]
    is missing or the submission throws. *)
Definition actFails (env : Env) (post : Post) : bool :=
  match or_string (postUrl post) None, content post with
  | None, _ => false
  | Some _, None => true
  | Some _, Some _ =>
      negb (returned (submitComment env post (generateAdvancedAIComment env post)))
  end.

Fixpoint actLoop (env : Env) (d : JobData) (selected : list Post) (commentedCount : Z)
  : M Z :=
  match selected with
  | [] => ret commentedCount
  | post :: rest =>
      let! counted := try_catch (actOn env d post) (fun _ => ret false) in
      actLoop env d rest (if counted : bool then commentedCount + 1 else commentedCount)
  end.

(** The closure [cleanup], once assigned. *)
Definition runCleanup (env : Env) : M unit :=
  try_catch
    (let! l := getLocals in if browser l then browserClose env else ret tt)
    (fun _ => ret tt).

(** [if (cleanup && typeof cleanup === 'function') await cleanup()]
    inside its own [try]/[catch]. *)
Definition cleanupIfSet (env : Env) : M unit :=
  try_catch
    (let! l := getLocals in if cleanup l then runCleanup env else ret tt)
    (fun _ => ret tt).

(** The scraped posts: those with a URL that is not among
    [existingPostUrls]. *)
Definition keepNew (existingPostUrls : list string) (found : list Post) : list Post :=
  List.filter
    (fun p => match or_string (postUrl p) None with
              | Some u => negb (existsb (String.eqb u) existingPostUrls)
              | None => false
              end)
    found.

Definition tryBlock (env : Env) (d : JobData) : M JobReturn :=
  step d 20 "Loading Configuration" >>
  step d 30 "Launching Browser" >>
  launchBrowser env >>
  lift (openPage env) >>
  modifyLocals (fun l => {| browser := browser l; cleanup := true |}) >>
  assert (loggedIn env) "LinkedIn cookies are invalid or expired. Please update cookies." >>
  step d 40 "Scraping Posts" >>
  let! existingPostUrls := findDistinctUrls (ofJobAndUser d) in
  let! scraped := lift (scrape env) in
  let scrapedPosts := keepNew existingPostUrls (fst scraped) in
  let total := Z.of_nat (List.length scrapedPosts) in
  step d 60 "Processing Posts" >>
  (if 0 <? total then
     try_catch (insertMany false (List.map (postToInsert d) scrapedPosts) >> ret tt)
               (fun e => if bool_decide (code e = Some 11000) then ret tt else throw e)
   else ret tt) >>
  let! commentedPostUrls :=
    findDistinctUrls (fun doc => ofJobAndUser d doc && doc_isCommented doc) in
  let selected := postsForCommenting scrapedPosts commentedPostUrls (maxComments d) in
  let! commentedCount := actLoop env d selected 0 in
  step d 90 "Finalizing" >>
  let nSelected := Z.of_nat (List.length selected) in
  let summary :=
    {| sum_totalPostsScraped := total; sum_filteredPosts := nSelected;
       sum_commentsPosted := commentedCount;
       sum_failed := nSelected - commentedCount |} in
  let! report := createReport
    {| rep_jobId := jobId d; rep_userId := userId d;
       rep_totalPostsScraped := total; rep_filteredPosts := nSelected;
       rep_commentsPosted := commentedCount;
       rep_failed := nSelected - commentedCount;
       rep_duration := endTime env - now env;
       rep_startTime := now env; rep_endTime := endTime env;
       rep_keywords := keywords d; rep_errors := [] |} in
  findByIdAndUpdate (jobId d)
    (setCompleted (endTime env)
       {| res_success := true; res_commentedCount := commentedCount;
          res_totalPostsScraped := total; res_sessionReport := summary |}) >>
  updateProgress 100 >>
  cleanupIfSet env >>
  ret (finished commentedCount total report).

Definition catchBlock (env : Env) (d : JobData) (existingJob : option CommentJob)
    (e : Error) : M JobReturn :=
  cleanupIfSet env >>
  let attempts := or_zero (default 0 (existingJob ≫= failedAttempts)) + 1 in
  findByIdAndUpdate (jobId d) (setFailed (endTime env) (message e) (Some attempts)) >>
  createReport (errorReport d 0 (endTime env) (endTime env) e) >>
  throw e.

(** The part of the handler after the three guards. *)
Definition process (env : Env) (d : JobData) (existingJob : option CommentJob)
  : M JobReturn :=
  findByIdAndUpdate (jobId d) (setActive (now env)) >>
  try_catch (tryBlock env d) (catchBlock env d existingJob).

(** The cooldown guard applies. *)
Definition completedRecently (env : Env) (j : CommentJob) : bool :=
  match status j, completedAt j with
  | completed, Some t => now env - t <? minRestartInterval
  | _, _ => false
  end.

(** The attempt-budget guard applies. *)
Definition failedTooOften (j : CommentJob) : bool :=
  Status_eqb (status j) failed && (failedAttemptsOf j >=? 3).

Definition handlerM (env : Env) (d : JobData) : M JobReturn :=
  let! existingJob := findById (jobId d) in
  match existingJob with
  | Some j =>
      if Status_eqb (status j) active then
        ret (rejected None (Some "Job already being processed"))
      else if completedRecently env j then
        ret (rejected None (Some "Job completed recently"))
      else if failedTooOften j then
        findByIdAndUpdate (jobId d) (setPermanentlyFailed (now env)) >>
        ret (rejected None (Some "Too many failed attempts"))
      else process env d existingJob
  | None => process env d existingJob
  end.

Definition handler (env : Env) (d : JobData) (w : World) : Outcome JobReturn * World :=
  let '(r, (w', _)) := handlerM env d (w, {| browser := false; cleanup := false |}) in
  (r, w').

End LinkedPostRefinementWorker.

(** *** [workers/enhancedLinkedInWorker.js] *)

Module EnhancedLinkedInWorker.

(** [{ status: 'active', startedAt: new Date() }] *)
Definition setActive (t : Z) (j : CommentJob) : CommentJob :=
  {| status := active; startedAt := Some t; completedAt := completedAt j;
     result := result j; error := error j; progress := progress j |}.

(** [{ status: 'failed', error: error.message, completedAt: new Date() }] *)
Definition setFailed (t : Z) (msg : string) (j : CommentJob) : CommentJob :=
  {| status := failed; startedAt := startedAt j; completedAt := Some t;
     result := result j; error := Some msg; progress := progress j |}.

(** [loginWithCookies(page, userId)]. *)
Definition loginWithCookies (env : Env) : M unit :=
  let! cookies := lift (loadLinkedInCookies env) in
  assert (negb (Nat.eqb (List.length cookies) 0)) "No cookies found for user" >>
  assert (loggedIn env) "Session validation failed after refresh".

Definition succeeded : JobReturn :=
  {| success := true; ret_message := None; ret_reason := None;
     ret_commentedCount := None; ret_totalPostsScraped := None;
     ret_sessionReport := None |}.

(** [processJob(job)]: [try] / [catch] / [finally]. *)
Definition processJobM (env : Env) (d : JobData) : M JobReturn :=
  try_finally
    (try_catch
       (findByIdAndUpdate (jobId d) (setActive (now env)) >>
        launchBrowser env >>
        lift (openPage env) >>
        loginWithCookies env >>
        ret succeeded)
       (fun e =>
          findByIdAndUpdate (jobId d) (setFailed (endTime env) (message e)) >>
          throw e))
    (let! l := getLocals in if browser l then browserClose env else ret tt).

Definition processJob (env : Env) (d : JobData) (w : World) : Outcome JobReturn * World :=
  let '(r, (w', _)) := processJobM env d (w, {| browser := false; cleanup := false |}) in
  (r, w').

End EnhancedLinkedInWorker.

(** Every browser that was launched had [close] called on it afterwards. *)
Fixpoint released (log : list BrowserEvent) (open : nat) : bool :=
  match log with
  | [] => Nat.eqb open 0
  | Launched :: rest => released rest (S open)
  | CloseCalled :: rest => released rest (Nat.pred open)
  end.

End Workers.

(** ** Credentials: [utils/cookieLoader.js] *)

Module CookieLoader.

(** A cookie of [user.cookies] ([CookieSchema] of [models/User.js]);
    [domain] and [expiresAt] default to [null]. *)
Record Cookie : Type := mkCookie {
  name : string;
  value : string;
  domain : option string;
  path : string;
  expiresAt : option Z;
  updatedAt : Z;
  deviceId : string;
  isActive : bool;
}.

(** A cookie in the format handed to [page.setCookie]. *)
Record PuppeteerCookie : Type := mkPuppeteerCookie {
  pc_name : string;
  pc_value : string;
  pc_domain : string;
  pc_path : string;
  pc_httpOnly : bool;
  pc_secure : bool;
}.

(** [cookie.name === 'li_at' && cookie.domain &&
     cookie.domain.includes('linkedin.com')] *)
Definition isLiAt (c : Cookie) : bool :=
  String.eqb (name c) "li_at"
  && match domain c with
     | Some d => includes "linkedin.com" d
     | None => false
     end.

(** The expiry filter: a cookie without [expiresAt] never expires. *)
Definition notExpired (currentTime : Z) (c : Cookie) : bool :=
  match expiresAt c with
  | None => true
  | Some t => t >? currentTime
  end.

(** The [forEach] that keeps the most recently updated cookie; of two
    cookies updated at the same time the earlier one in the array stays. *)
Definition mostRecent (cookies : list Cookie) : option Cookie :=
  fold_left
    (fun best c =>
       match best with
       | None => Some c
       | Some b => if updatedAt c >? updatedAt b then Some c else Some b
       end)
    cookies None.

Definition toPuppeteer (c : Cookie) : PuppeteerCookie :=
  {| pc_name := name c; pc_value := value c; pc_domain := ".www.linkedin.com";
     pc_path := "/"; pc_httpOnly := true; pc_secure := true |}.

Definition userNotFound (userId : string) : Error :=
  Err ("User not found: " ++ userId)%string.

(** [loadCookiesFromDBByDevice(userId, deviceId)] over the user
    collection [users] (user id to cookies) at time [currentTime];
    [deviceId = None] is [null]. *)
Definition loadCookiesFromDBByDevice (users : gmap string (list Cookie)) (currentTime : Z)
    (userId : string) (device : option string) : Outcome (list PuppeteerCookie) :=
  match users !! userId with
  | None => Throw (userNotFound userId)
  | Some cookies =>
      let liAtCookies := List.filter isLiAt cookies in
      let ofDevice :=
        match device with
        | None | Some EmptyString => liAtCookies
        | Some dev => List.filter (fun c => String.eqb (deviceId c) dev) liAtCookies
        end in
      let activeCookies := List.filter (notExpired currentTime) ofDevice in
      match mostRecent activeCookies with
      | None => Return []
      | Some c => Return [toPuppeteer c]
      end
  end.

(** [loadCookiesFromDB(userId)]. *)
Definition loadCookiesFromDB (users : gmap string (list Cookie)) (currentTime : Z)
    (userId : string) : Outcome (list PuppeteerCookie) :=
  match users !! userId with
  | None => Throw (userNotFound userId)
  | Some cookies =>
      let liAtCookies := List.filter isLiAt cookies in
      let activeCookies := List.filter (notExpired currentTime) liAtCookies in
      match mostRecent activeCookies with
      | None => Return []
      | Some c => Return [toPuppeteer c]
      end
  end.

(** [loadLinkedInCookies(userId)]. *)
Definition loadLinkedInCookies := loadCookiesFromDB.

(** [hasValidLinkedInCookies(userId)]: whatever the loader throws is
    caught and answered with [false]. *)
Definition hasValidLinkedInCookies (users : gmap string (list Cookie)) (currentTime : Z)
    (userId : string) : bool :=
  match loadCookiesFromDB users currentTime userId with
  | Return cookies => Nat.ltb 0 (List.length cookies)
  | Throw _ => false
  end.

(** [cookies.find((c) => c.name === 'li_at')] of [commentWorker.js]. *)
Definition findLiAt (cookies : list PuppeteerCookie) : option PuppeteerCookie :=
  List.find (fun c => String.eqb (pc_name c) "li_at") cookies.

End CookieLoader.

(** ** ActionExecutor: [postCommentOnPost] of [workers/commentWorker.js] *)

Module ActionExecutor.
Import RateGovernor.

(** What the page does when [postCommentOnPost] drives it: the
    navigation, the search for a comment button and the click on it, the
    editor (wait, focus, typing), the search for the submit button and the
    click on it, and the reloads of the recovery. *)
Record Page : Type := mkPage {
  goto : Outcome unit;
  openEditor : Outcome bool;
  typeComment : Outcome unit;
  submit : Outcome bool;
  reload : nat -> bool;
}.

(** The [try] block after the rate-limit check. *)
Definition submitComment (page : Page) : Outcome bool :=
  match goto page with
  | Throw e => Throw e
  | Return _ =>
      match openEditor page with
      | Throw e => Throw e
      | Return false => Throw (Err "Comment button not found")
      | Return true =>
          match typeComment page with
          | Throw e => Throw e
          | Return _ =>
              match submit page with
              | Throw e => Throw e
              | Return true => Return true
              | Return false => Throw (Err "Submit button not found")
              end
          end
      end
  end.

(** [postCommentOnPost(page, postUrl, text)] at time [now] with the
    counters [rc]: the result, what it slept and reloaded, and the
    counters afterwards. *)
Definition postCommentOnPost (page : Page) (now : Z) (rc : RequestCount)
  : Outcome bool * list Event * RequestCount :=
  let '(waitTime, rc') := checkRateLimit now rc in
  let waited := if waitTime >? 0 then [Sleep waitTime] else [] in
  match submitComment page with
  | Return b => (Return b, waited, rc')
  | Throw error =>
      let '(isRateLimit, evs) := handleRateLimitError (reload page) (message error) 3 in
      (match isRateLimit with
       | Throw e => Throw e
       | Return true => Throw (Err "Rate limit encountered while posting comment")
       | Return false => Throw error
       end, (waited ++ evs)%list, rc')
  end.

(** The number of calls of [checkRateLimit], made at the given times,
    that return 0. *)
Fixpoint zeroWaits (times : list Z) (rc : RequestCount) : nat :=
  match times with
  | [] => 0%nat
  | now :: rest =>
      ((if (fst (checkRateLimit now rc) =? 0)%Z then 1 else 0)
       + zeroWaits rest (snd (checkRateLimit now rc)))%nat
  end.

(** The time slept in a trace. *)
Definition totalSleep (evs : list Event) : Z :=
  fold_right Z.add 0 (sleeps evs).

End ActionExecutor.

(** ** The other filters of [utils/postFilters.js] *)

Module PostRanking.
Import PostFilters.

(** The options [filterAndRankPosts] reads; [None] is an absent
    property. *)
Record RankOptions : Type := mkRankOptions {
  ro_minReactions : option Z;
  ro_minContentLength : option Z;
  ro_maxAgeDays : option Z;
}.

(** [filterByEngagement(posts, minReactions)]. *)
Definition filterByEngagement (posts : list Post) (minReactions : Z) : list Post :=
  List.filter (fun p => reactions p >=? minReactions) posts.

(** The callback of [filterByContentQuality]: it reads [post.content],
    and throws on a post without it. *)
Definition goodQuality (p : Post) : Outcome bool :=
  match content p with
  | None => Throw (Err "Cannot read properties of undefined (reading 'toLowerCase')")
  | Some c =>
      Return (if isExcludedPost c then false
              else if Z.of_nat (String.length c) <? 50 then false
              else true)
  end.

(** [filterByContentQuality(posts)]. *)
Definition filterByContentQuality (posts : list Post) : Outcome (list Post) :=
  filterOutcome goodQuality posts.

(** The callback of the length filter of [filterAndRankPosts]. *)
Definition hasLength (minContentLength : Z) (p : Post) : Outcome bool :=
  match content p with
  | None => Throw (Err "Cannot read properties of undefined (reading 'length')")
  | Some c => Return (Z.of_nat (String.length c) >=? minContentLength)
  end.

Definition minReactionsOf (o : RankOptions) : Z := default 5 (ro_minReactions o).
Definition minContentLengthOf (o : RankOptions) : Z := default 50 (ro_minContentLength o).
Definition maxAgeDaysOf (o : RankOptions) : Z := default 30 (ro_maxAgeDays o).

(** The callback of the age filter: a post without [timestamp] (or with
    the timestamp 0) is kept, another one when it is not older than
    [cutoff], the time of [cutoffDate]. *)
Definition withinAge (cutoff : Z) (p : Post) : bool :=
  match timestamp p with
  | None => true
  | Some t => if t =? 0 then true else t >=? cutoff
  end.

(** The value computed by [filterAndRankPosts(posts, options)].
    [cutoffDate days] is the time of [cutoffDate] after
    [cutoffDate.setDate(cutoffDate.getDate() - days)]: the same local
    time of day, [days] days before the call. *)
Definition filterAndRankPostsList (cutoffDate : Z -> Z) (posts : list Post)
    (options : RankOptions) : Outcome (list Post) :=
  let engaged := filterByEngagement posts (minReactionsOf options) in
  match filterByContentQuality engaged with
  | Throw e => Throw e
  | Return good =>
      match filterOutcome (hasLength (minContentLengthOf options)) good with
      | Throw e => Throw e
      | Return long =>
          let recent :=
            if maxAgeDaysOf options =? 0 then long
            else List.filter (withinAge (cutoffDate (maxAgeDaysOf options))) long in
          Return (sort rankScore recent)
      end
  end.

(** [filterAndRankPosts(posts, options)] on the store of arrays: the
    copy and every filter make a new array, and [rankPosts] sorts the last
    of them in place. *)
Definition filterAndRankPosts (cutoffDate : Z -> Z) (posts : nat) (options : RankOptions)
    (h : gmap nat (list Post)) : Outcome nat * gmap nat (list Post) :=
  match h !! posts with
  | None => (Throw (Err "posts is not iterable"), h)
  | Some l =>
      let '(r0, h0) := alloc l h in
      let engaged := filterByEngagement l (minReactionsOf options) in
      let '(r1, h1) := alloc engaged h0 in
      match filterByContentQuality engaged with
      | Throw e => (Throw e, h1)
      | Return good =>
          let '(r2, h2) := alloc good h1 in
          match filterOutcome (hasLength (minContentLengthOf options)) good with
          | Throw e => (Throw e, h2)
          | Return long =>
              let '(r3, h3) := alloc long h2 in
              if maxAgeDaysOf options =? 0 then rankPosts r3 h3
              else let '(r4, h4) :=
                     alloc (List.filter (withinAge (cutoffDate (maxAgeDaysOf options))) long)
                           h3 in
                   rankPosts r4 h4
          end
      end
  end.


(** [getPostEngagementScore(post)]. *)
Definition getPostEngagementScore (p : Post) : Z := reactions p * 1 + comments p * 2.

(** [hasHighEngagement(post)] and [hasLowEngagement(post)]. *)
Definition hasHighEngagement (p : Post) : bool :=
  (reactions p >? 50) || (comments p >? 10).
Definition hasLowEngagement (p : Post) : bool :=
  (reactions p <? 10) && (comments p <? 3).

End PostRanking.

(** ** The AI configuration of [workers/linkedPostRefinementWorker.js] *)

Module AIConfig.

(** The object [AI_CONFIG]. *)
Record Config : Type := mkConfig {
  wantEmoji : bool;
  wantHashtags : bool;
  messageTone : string;
  maxLength : Z;
}.

(** The argument of [updateAIConfig]; [None] is a property that is
    absent or [undefined], which the function does not tell apart; a
    property that is defined has a value of the type of its field. *)
Record Update : Type := mkUpdate {
  u_wantEmoji : option bool;
  u_wantHashtags : option bool;
  u_messageTone : option string;
  u_maxLength : option Z;
}.

(** [AI_CONFIG] as the module is loaded. *)
Definition initial : Config :=
  {| wantEmoji := false; wantHashtags := false; messageTone := "professional";
     maxLength := 25 |}.

(** [updateAIConfig(newConfig)]: the new value of [AI_CONFIG]. *)
Definition updateAIConfig (newConfig : Update) (cfg : Config) : Config :=
  {| wantEmoji := default (wantEmoji cfg) (u_wantEmoji newConfig);
     wantHashtags := default (wantHashtags cfg) (u_wantHashtags newConfig);
     messageTone := default (messageTone cfg) (u_messageTone newConfig);
     maxLength := default (maxLength cfg) (u_maxLength newConfig) |}.

(** The four instruction lines both comment generators put in the prompt. *)
Definition instructions (cfg : Config) : list string :=
  [ if wantEmoji cfg then "Include 1-2 relevant emojis" else "Do not include any emojis";
    if wantHashtags cfg then "Include 2-3 relevant hashtags" else "Do not include hashtags";
    ("Use a " ++ messageTone cfg ++ " tone")%string;
    ("Keep the comment to maximum " ++ pretty (maxLength cfg) ++ " words")%string ].

(** [AI_CONFIG] after the calls [updateAIConfig(u)] for the [u] of
    [updates], in order. *)
Definition updateAll (updates : list Update) (cfg : Config) : Config :=
  fold_left (fun c u => updateAIConfig u c) updates cfg.

End AIConfig.

(** ** The queue and the route that feeds it:
       [queues/commentQueue.js], [routes/comment.js] *)

Module CommentQueue.
Import PostFilters Workers.

(** The update of the queue's ['active'] listener. *)
Definition onActive (t : Z) (j : CommentJob) : CommentJob :=
  {| status := active; startedAt := Some t; completedAt := completedAt j;
     result := result j; error := error j;
     progress := {| currentStep := Some "Processing"; stepProgress := Some 0 |} |}.

(** The update of the queue's ['completed'] listener. *)
Definition onCompleted (t : Z) (j : CommentJob) : CommentJob :=
  {| status := completed; startedAt := startedAt j; completedAt := Some t;
     result := result j; error := error j;
     progress := {| currentStep := Some "Completed"; stepProgress := Some 100 |} |}.

(** The update of the queue's ['failed'] listener: it leaves
    [progress.stepProgress] as it is. *)
Definition onFailed (t : Z) (msg : string) (j : CommentJob) : CommentJob :=
  {| status := failed; startedAt := startedAt j; completedAt := Some t;
     result := result j; error := Some msg;
     progress := {| currentStep := Some "Failed";
                    stepProgress := stepProgress (progress j) |} |}.

(** A listener applied to the job collection of the world. *)
Definition listen (id : string) (update : CommentJob -> CommentJob) (w : World) : World :=
  {| jobs := alter update id (jobs w); reports := reports w; posts := posts w;
     queueProgress := queueProgress w; browserLog := browserLog w |}.

(** The body of [POST /api/start-comment-job]; [None] is an absent
    property, and for [keywords] also a value that is not an array. *)
Record StartRequest : Type := mkStartRequest {
  req_userId : string;
  req_keywords : option (list string);
  req_maxComments : option Q;
  req_options : option Options;
}.

(** The response: the HTTP status, and the error text or the message. *)
Record Response : Type := mkResponse {
  httpStatus : Z;
  ok : bool;
  text : string;
}.

(** What the route works on: the job collection and the jobs in the
    queue, oldest first. *)
Record Backend : Type := mkBackend {
  jobDocs : gmap string CommentJob;
  queued : list JobData;
}.

Definition emptyOptions : Options :=
  {| minReactions := None; excludeJobPosts := None; messageTone := None;
     wantEmoji := None; wantHashtags := None |}.

(** The document [CommentJob.create] stores: [status: 'waiting'], the
    other fields of the model absent. *)
Definition newJob : CommentJob :=
  {| status := waiting; startedAt := None; completedAt := None; result := None;
     error := None; progress := {| currentStep := None; stepProgress := None |} |}.

(** The [enum] of [options.messageTone] in [models/CommentJob.js];
    [CommentJob.create] rejects a document with another tone. *)
Definition messageTones : list string :=
  ["professional"; "casual"; "enthusiastic"; "thoughtful"; "friendly"].

Definition validTone (o : Options) : bool :=
  match messageTone o with
  | None => true
  | Some t => existsb (String.eqb t) messageTones
  end.

(** [addCommentJob(jobData)]: the queue keeps one job per [jobId]. *)
Definition addCommentJob (data : JobData) (queue : list JobData) : list JobData :=
  if existsb (fun q => String.eqb (jobId q) (jobId data)) queue then queue
  else (queue ++ [data])%list.

(** The route, after [authenticateToken]: the middleware
    [requireLinkedInCookies] ([hasCookies] is the answer of
    [hasValidLinkedInCookies]), then the handler.  [newId] is the [_id]
    the database gives the new document and [enqueue] tells whether the
    queue accepts the job. *)
Definition startCommentJob (hasCookies : bool) (newId : string) (enqueue : Outcome unit)
    (req : StartRequest) (b : Backend) : Response * Backend :=
  if negb hasCookies then
    ({| httpStatus := 400; ok := false;
        text := "LinkedIn cookies required. Please capture cookies first." |}, b)
  else
    let maxComments := default 5%Q (req_maxComments req) in
    let options := default emptyOptions (req_options req) in
    match req_keywords req with
    | None | Some [] =>
        ({| httpStatus := 400; ok := false;
            text := "Keywords array is required and must not be empty" |}, b)
    | Some keywords =>
        if Qltb maxComments 1 || Qltb 20 maxComments then
          ({| httpStatus := 400; ok := false;
              text := "maxComments must be between 1 and 20" |}, b)
        else if negb (validTone options) then
          ({| httpStatus := 500; ok := false; text := "Failed to start comment job" |}, b)
        else
          let created := <[newId := newJob]> (jobDocs b) in
          match enqueue with
          | Throw e =>
              ({| httpStatus := 500; ok := false; text := "Failed to start comment job" |},
               {| jobDocs := created; queued := queued b |})
          | Return _ =>
              let data :=
                {| jobId := newId; userId := req_userId req; keywords := keywords;
                   maxComments := maxComments; options := options |} in
              ({| httpStatus := 201; ok := true;
                  text := "Comment job started successfully" |},
               {| jobDocs := alter (setStep "Queued" 0) newId created;
                  queued := addCommentJob data (queued b) |})
          end
    end.

End CommentQueue.

(** * Example inputs *)

Module Examples.
Import RateGovernor.

(** [requestCount] after five granted requests in the first minute. *)
Definition fiveRequests : RequestCount := run [1; 2; 3; 4; 5] (initial 0).

(** A page whose reload always fails. *)
Definition neverReloads (attempt : nat) : bool := false.

(** A page whose reload succeeds at the second attempt. *)
Definition reloadsSecond (attempt : nat) : bool := Nat.eqb attempt 1.

Import PostFilters.

Definition post (body : string) (r c : Z) (url : string) : Post :=
  {| text := Some body; content := None; reactions := r; comments := c;
     postUrl := Some url; keyword := "AI"; timestamp := None |}.

Definition startup : Post :=
  post "Scaling a startup from zero to one hundred people" 40 2 "https://www.linkedin.com/posts/1".
Definition hiring : Post :=
  post "We are hiring engineers for our new platform team" 90 10 "https://www.linkedin.com/posts/2".
Definition agents : Post :=
  post "Lessons learned building AI agents in production" 30 12 "https://www.linkedin.com/posts/3".
Definition short : Post :=
  post "Short post" 100 0 "https://www.linkedin.com/posts/4".
Definition quiet : Post :=
  post "How we cut our cloud bill in half in three months" 3 0 "https://www.linkedin.com/posts/5".
Definition retrospective : Post :=
  post "Ten years of open source maintenance, a retrospective" 50 5 "https://www.linkedin.com/posts/6".

(** Six posts in discovery order; [startup] and [agents] have the same
    score. *)
Definition scraped : list Post := [startup; hiring; agents; short; quiet; retrospective].

(** What a scrape for a job of two comments can find: at most three
    posts, each with a URL, five reactions or more and no stop word. *)
Definition found : list Post := [startup; agents; retrospective].

Definition defaults : Options :=
  {| minReactions := None; excludeJobPosts := None; messageTone := None;
     wantEmoji := None; wantHashtags := None |}.

(** A store with the scraped posts in array 0. *)
Definition arrays : gmap nat (list Post) := {[ 0%nat := scraped ]}.

Import Workers.

Definition data : JobData :=
  {| jobId := "64f0c0ffee0000000000000a"; userId := "64f0c0ffee00000000000001";
     keywords := ["AI"; "Startup"]; maxComments := 2%Q; options := defaults |}.

(** A job document in state [s], completed at [done], with the error
    text [err]. *)
Definition job (s : Status) (done : option Z) (err : option string) : CommentJob :=
  {| status := s; startedAt := Some 100000; completedAt := done; result := None;
     error := err;
     progress := {| currentStep := None; stepProgress := None |} |}.

(** A world whose job collection holds [j] for the job of [data]. *)
Definition world (j : CommentJob) (rs : list SessionReport) (ps : list PostDoc) : World :=
  {| jobs := {[ jobId data := j ]}; reports := rs; posts := ps;
     queueProgress := None; browserLog := [] |}.

(** The report of an earlier, successful run. *)
Definition earlierReport : SessionReport :=
  {| rep_jobId := jobId data; rep_userId := userId data;
     rep_totalPostsScraped := 3; rep_filteredPosts := 2; rep_commentsPosted := 2;
     rep_failed := 0; rep_duration := 600000; rep_startTime := 300000;
     rep_endTime := 900000; rep_keywords := keywords data; rep_errors := [] |}.

(** A run in which every collaborator does its work, and the scrape
    finds nothing: the run starts at 960 s and ends at 1560 s. *)
Definition nothingFound : Env :=
  {| now := 960000; endTime := 1560000;
     hasValidLinkedInCookies := true;
     loadLinkedInCookies := Return ["li_at"];
     launch := Return tt; openPage := Return tt; loggedIn := true;
     scrape := Return ([], 0);
     generateAIComment := fun _ => Return "Thanks for sharing this.";
     postCommentOnPost := fun _ _ => Return tt;
     submitComment := fun _ _ => Return true;
     closeBrowser := Return tt |}.

(** A run in which every collaborator does its work and the scrape finds
    three posts. *)
Definition allGood : Env :=
  {| now := 960000; endTime := 1560000;
     hasValidLinkedInCookies := true;
     loadLinkedInCookies := Return ["li_at"];
     launch := Return tt; openPage := Return tt; loggedIn := true;
     scrape := Return (found, 3);
     generateAIComment := fun _ => Return "Thanks for sharing this.";
     postCommentOnPost := fun _ _ => Return tt;
     submitComment := fun _ _ => Return true;
     closeBrowser := Return tt |}.

(** The session has expired: the login check fails after the browser was
    launched. *)
Definition expiredSession : Env :=
  {| now := 960000; endTime := 1560000;
     hasValidLinkedInCookies := true;
     loadLinkedInCookies := Return ["li_at"];
     launch := Return tt; openPage := Return tt; loggedIn := false;
     scrape := Return (found, 3);
     generateAIComment := fun _ => Return "Thanks for sharing this.";
     postCommentOnPost := fun _ _ => Return tt;
     submitComment := fun _ _ => Return true;
     closeBrowser := Return tt |}.

(** The comment button is missing on every post. *)
Definition noCommentButton : Env :=
  {| now := 960000; endTime := 1560000;
     hasValidLinkedInCookies := true;
     loadLinkedInCookies := Return ["li_at"];
     launch := Return tt; openPage := Return tt; loggedIn := true;
     scrape := Return (found, 3);
     generateAIComment := fun _ => Return "Thanks for sharing this.";
     postCommentOnPost := fun _ _ => Throw (Err "Comment button not found");
     submitComment := fun _ _ => Throw (Err "Waiting for selector failed");
     closeBrowser := Return tt |}.

(** The new page cannot be opened after the browser was launched. *)
Definition pageCrash : Env :=
  {| now := 960000; endTime := 1560000;
     hasValidLinkedInCookies := true;
     loadLinkedInCookies := Return ["li_at"];
     launch := Return tt; openPage := Throw (Err "Target closed"); loggedIn := true;
     scrape := Return (found, 3);
     generateAIComment := fun _ => Return "Thanks for sharing this.";
     postCommentOnPost := fun _ _ => Return tt;
     submitComment := fun _ _ => Return true;
     closeBrowser := Return tt |}.

End Examples.

(** * Example inputs for the collaborators *)

Module MoreExamples.
Import PostFilters Workers.

(** A page that answers the navigation with HTTP 429 and reloads at the
    second attempt. *)
Definition throttledPage : ActionExecutor.Page :=
  {| ActionExecutor.goto := Throw (Err "net::ERR_HTTP_RESPONSE_CODE_FAILURE 429");
     ActionExecutor.openEditor := Return true;
     ActionExecutor.typeComment := Return tt;
     ActionExecutor.submit := Return true;
     ActionExecutor.reload := fun attempt => Nat.eqb attempt 1 |}.

(** A page on which the comment goes through. *)
Definition workingPage : ActionExecutor.Page :=
  {| ActionExecutor.goto := Return tt;
     ActionExecutor.openEditor := Return true;
     ActionExecutor.typeComment := Return tt;
     ActionExecutor.submit := Return true;
     ActionExecutor.reload := fun _ => true |}.

Definition cookie (n : string) (d : option string) (expires : option Z) (updated : Z)
    (device : string) : CookieLoader.Cookie :=
  {| CookieLoader.name := n; CookieLoader.value := ("value-" ++ device)%string;
     CookieLoader.domain := d; CookieLoader.path := "/";
     CookieLoader.expiresAt := expires; CookieLoader.updatedAt := updated;
     CookieLoader.deviceId := device; CookieLoader.isActive := true |}.

(** The cookies of one user at time 1000: an old session cookie, one that
    has expired, a cookie of another name, the newest valid one, and one
    of another site. *)
Definition cookies : list CookieLoader.Cookie :=
  [ cookie "li_at" (Some ".linkedin.com") None 100 "laptop";
    cookie "li_at" (Some ".www.linkedin.com") (Some 500) 300 "tablet";
    cookie "JSESSIONID" (Some ".www.linkedin.com") None 400 "laptop";
    cookie "li_at" (Some ".www.linkedin.com") (Some 90000) 200 "phone";
    cookie "li_at" (Some ".example.com") None 900 "phone" ].

Definition users : gmap string (list CookieLoader.Cookie) :=
  {[ userId Examples.data := cookies ]}.

(** A request the route accepts, and the state it meets. *)
Definition request : CommentQueue.StartRequest :=
  {| CommentQueue.req_userId := userId Examples.data;
     CommentQueue.req_keywords := Some ["AI"; "Startup"];
     CommentQueue.req_maxComments := Some 20%Q;
     CommentQueue.req_options := None |}.

Definition backend : CommentQueue.Backend :=
  {| CommentQueue.jobDocs := ∅; CommentQueue.queued := [] |}.

(** Posts as [linkedPostRefinementWorker.js] scrapes them. *)
Definition article (body : string) (r c : Z) (url : string) : Post :=
  {| text := None; content := Some body; reactions := r; comments := c;
     postUrl := Some url; keyword := "AI"; timestamp := None |}.

Definition articles : list Post :=
  [ article "Scaling a startup from zero to one hundred people, what we learned" 40 2
      "https://www.linkedin.com/posts/1";
    article "We are hiring engineers for our new platform team in three offices" 90 10
      "https://www.linkedin.com/posts/2";
    article "Lessons learned building AI agents in production over two years" 30 12
      "https://www.linkedin.com/posts/3";
    article "Short post" 100 0 "https://www.linkedin.com/posts/4";
    article "Ten years of open source maintenance, a retrospective on burnout" 50 5
      "https://www.linkedin.com/posts/6" ].

(** What a scrape of [linkedPostRefinementWorker.js] for a job of two
    comments can find: at most three posts, each with a URL, five
    reactions or more and no stop word. *)
Definition discovered : list Post :=
  [ article "Scaling a startup from zero to one hundred people, what we learned" 40 2
      "https://www.linkedin.com/posts/1";
    article "Lessons learned building AI agents in production over two years" 30 12
      "https://www.linkedin.com/posts/3";
    article "Ten years of open source maintenance, a retrospective on burnout" 50 5
      "https://www.linkedin.com/posts/6" ].


(** Posts with the time they were published: [undated] has none,
    [recent] is ten days and [old] sixty days before the time
    2000000000000. *)
Definition undated : Post :=
  article "Scaling a startup from zero to one hundred people, what we learned" 40 2
    "https://www.linkedin.com/posts/1".
Definition recent : Post :=
  {| text := None;
     content := Some "Lessons learned building AI agents in production over two years";
     reactions := 30; comments := 12; postUrl := Some "https://www.linkedin.com/posts/3";
     keyword := "AI"; timestamp := Some 1999136000000 |}.
Definition old : Post :=
  {| text := None;
     content := Some "Ten years of open source maintenance, a retrospective on burnout";
     reactions := 50; comments := 5; postUrl := Some "https://www.linkedin.com/posts/6";
     keyword := "AI"; timestamp := Some 1994816000000 |}.
Definition dated : list Post := [undated; recent; old].

Definition rankDefaults : PostRanking.RankOptions :=
  {| PostRanking.ro_minReactions := None; PostRanking.ro_minContentLength := None;
     PostRanking.ro_maxAgeDays := None |}.

(** A run in which the scrape returns [discovered]. *)
Definition articlesFound : Env :=
  {| now := 960000; endTime := 1560000;
     hasValidLinkedInCookies := true;
     loadLinkedInCookies := Return ["li_at"];
     launch := Return tt; openPage := Return tt; loggedIn := true;
     scrape := Return (discovered, 3);
     generateAIComment := fun _ => Return "Thanks for sharing this.";
     postCommentOnPost := fun _ _ => Return tt;
     submitComment := fun _ _ => Return true;
     closeBrowser := Return tt |}.


(** The loader of [enhancedLinkedInWorker.js]: its [loadCookiesFromDB]
    reads [liAtCookies], which it does not declare. *)
Definition undeclaredName : Env :=
  {| now := 960000; endTime := 1560000;
     hasValidLinkedInCookies := true;
     loadLinkedInCookies := Throw (Err "liAtCookies is not defined");
     launch := Return tt; openPage := Return tt; loggedIn := true;
     scrape := Return (discovered, 3);
     generateAIComment := fun _ => Return "Thanks for sharing this.";
     postCommentOnPost := fun _ _ => Return tt;
     submitComment := fun _ _ => Return true;
     closeBrowser := Return tt |}.

End MoreExamples.

(** * Properties *)

(** ** RateGovernor *)

Section RateGovernorProperties.
Import RateGovernor.

Lemma refresh_within_caps now rc :
  within_caps rc -> within_caps (refresh now rc).
Proof.
  unfold within_caps, refresh, MAX_REQUESTS_PER_MINUTE, MAX_REQUESTS_PER_HOUR.
  intros [Hm Hh]; cbn.
  destruct (now >? resetTime (minute rc)), (now >? resetTime (hour rc)); cbn; lia.
Qed.

(** A call keeps both counters within their caps. *)
Lemma checkRateLimit_within_caps now rc :
  within_caps rc -> within_caps (snd (checkRateLimit now rc)).
Proof.
  intros H. apply (refresh_within_caps now) in H.
  unfold checkRateLimit. cbv zeta.
  generalize dependent (refresh now rc). intros rc1 H.
  destruct (count (minute rc1) >=? MAX_REQUESTS_PER_MINUTE) eqn:Em; [exact H|].
  destruct (count (hour rc1) >=? MAX_REQUESTS_PER_HOUR) eqn:Eh; [exact H|].
  unfold within_caps, MAX_REQUESTS_PER_MINUTE, MAX_REQUESTS_PER_HOUR in *; cbn. lia.
Qed.

Lemma run_within_caps times rc :
  within_caps rc -> within_caps (run times rc).
Proof.
  revert rc. induction times as [|now rest IH]; intros rc H; cbn; [exact H|].
  apply IH, checkRateLimit_within_caps, H.
Qed.

(** X2: from start-up on, no sequence of calls takes a counter above its cap. *)
Lemma counters_never_exceed_caps t0 times :
  count (minute (run times (initial t0))) <= 5
  /\ count (hour (run times (initial t0))) <= 50.
Proof.
  assert (H : within_caps (run times (initial t0))).
  { apply run_within_caps. unfold within_caps, initial; cbn.
    unfold MAX_REQUESTS_PER_MINUTE, MAX_REQUESTS_PER_HOUR. lia. }
  destruct H as [[_ Hm] [_ Hh]]. split; assumption.
Qed.

(** A call either finds a cap reached, returns the time to that window's
    reset and increments nothing, or returns 0 and increments both
    counters by one. *)
Lemma checkRateLimit_cases now rc :
  let rc1 := refresh now rc in
  let '(wait, rc') := checkRateLimit now rc in
  (count (minute rc1) >= 5 /\ wait = resetTime (minute rc1) - now /\ rc' = rc1)
  \/ (count (minute rc1) < 5 /\ count (hour rc1) >= 50
      /\ wait = resetTime (hour rc1) - now /\ rc' = rc1)
  \/ (count (minute rc1) < 5 /\ count (hour rc1) < 50 /\ wait = 0
      /\ count (minute rc') = count (minute rc1) + 1
      /\ count (hour rc') = count (hour rc1) + 1).
Proof.
  unfold checkRateLimit, MAX_REQUESTS_PER_MINUTE, MAX_REQUESTS_PER_HOUR. cbv zeta.
  generalize (refresh now rc). intros rc1.
  destruct (count (minute rc1) >=? 5) eqn:Em.
  - left. repeat split; try reflexivity; lia.
  - destruct (count (hour rc1) >=? 50) eqn:Eh.
    + right; left. repeat split; try reflexivity; lia.
    + right; right. cbn. repeat split; try reflexivity; lia.
Qed.

(** The wait returned when a cap is reached is never negative. *)
Lemma checkRateLimit_wait_nonneg now rc :
  0 <= fst (checkRateLimit now rc).
Proof.
  unfold checkRateLimit, refresh; cbn.
  destruct (now >? resetTime (minute rc)) eqn:E1,
           (now >? resetTime (hour rc)) eqn:E2; cbn;
    repeat match goal with
           | |- context [if ?b then _ else _] => destruct b eqn:?
           end; cbn; lia.
Qed.

(** C10, at the input where the code departs from the claim: after five
    granted requests the per-minute cap is reached; a call made exactly
    at the window's reset time returns a wait of 0, the value that tells
    the caller to go ahead, and leaves both counters as they were. *)
Theorem checkRateLimit_zero_wait_at_reset :
  count (minute Examples.fiveRequests) = MAX_REQUESTS_PER_MINUTE
  /\ resetTime (minute Examples.fiveRequests) = 60000
  /\ checkRateLimit 60000 Examples.fiveRequests = (0, Examples.fiveRequests).
Proof. repeat split. Qed.

Lemma retryLoop_spec reload maxRetries :
  forall todo attempt,
    (1 <= todo)%nat -> (attempt + todo = maxRetries)%nat ->
    exists n,
      (1 <= n <= todo)%nat
      /\ snd (retryLoop reload maxRetries attempt todo)
         = attempts attempt n (returned (fst (retryLoop reload maxRetries attempt todo)))
      /\ (forall k, (k < n - 1)%nat -> reload (attempt + k)%nat = false)
      /\ ((reload (attempt + n - 1)%nat = true
           /\ fst (retryLoop reload maxRetries attempt todo) = Return true)
          \/ (n = todo /\ reload (attempt + n - 1)%nat = false
              /\ fst (retryLoop reload maxRetries attempt todo)
                 = Throw (Err ("Rate limit recovery failed after "
                               ++ pretty maxRetries ++ " attempts")%string))).
Proof.
  induction todo as [|todo IH]; intros attempt Htodo Hsum; [lia|].
  cbn [retryLoop].
  destruct (reload attempt) eqn:Hr.
  - exists 1%nat. cbn [fst snd attempts returned].
    replace (attempt + 1 - 1)%nat with attempt by lia.
    split; [lia|]. split; [reflexivity|]. split; [intros k Hk; lia|].
    left. split; [exact Hr | reflexivity].
  - destruct (Nat.eqb attempt (maxRetries - 1)) eqn:Hlast.
    + apply Nat.eqb_eq in Hlast. assert (todo = 0%nat) by lia. subst todo.
      exists 1%nat. cbn [fst snd attempts returned].
      replace (attempt + 1 - 1)%nat with attempt by lia.
      split; [lia|]. split; [reflexivity|]. split; [intros k Hk; lia|].
      right. split; [reflexivity|]. split; [exact Hr | reflexivity].
    + apply Nat.eqb_neq in Hlast.
      destruct (IH (S attempt)) as (n & Hn & Htrace & Hfail & Hend); [lia|lia|].
      destruct (retryLoop reload maxRetries (S attempt) todo) as [r evs] eqn:Hloop.
      cbn [fst snd] in *.
      exists (S n).
      split; [lia|].
      split; [cbn [attempts]; destruct n as [|n']; [lia|]; now rewrite Htrace|].
      split.
      * intros k Hk. destruct k as [|k'].
        -- now rewrite Nat.add_0_r.
        -- replace (attempt + S k')%nat with (S attempt + k')%nat by lia.
           apply Hfail. lia.
      * replace (attempt + S n - 1)%nat with (S attempt + n - 1)%nat by lia.
        destruct Hend as [[Hok Hret] | (Hn' & Hno & Hthrow)].
        -- left. split; assumption.
        -- right. split; [lia|]. split; assumption.
Qed.

Lemma sleeps_attempts attempt n last :
  sleeps (attempts attempt n last)
  = List.map (fun a => (Z.of_nat a + 1) * 30000) (seq attempt n).
Proof.
  revert attempt. induction n as [|n IH]; intros attempt; cbn; [reflexivity|].
  now rewrite IH.
Qed.

Lemma reloads_attempts attempt n last :
  List.length (reloads (attempts attempt n last)) = n.
Proof.
  revert attempt. induction n as [|n IH]; intros attempt; cbn; [reflexivity|].
  now rewrite IH.
Qed.

(** For every budget, the recovery sleeps [(attempt + 1) * 30000] ms
    before the reload of each attempt (30 s, 60 s, 90 s, ...), reloads the
    page once per attempt, stops with [true] at the first reload that
    succeeds, makes at most [maxRetries] attempts, and throws the terminal
    error when the last one fails. *)
Lemma handleRateLimitError_linear_backoff reload message maxRetries :
  isRateLimitMessage message = true ->
  (1 <= maxRetries)%nat ->
  exists n,
    (1 <= n <= maxRetries)%nat
    /\ snd (handleRateLimitError reload message maxRetries)
       = attempts 0 n (returned (fst (handleRateLimitError reload message maxRetries)))
    /\ sleeps (snd (handleRateLimitError reload message maxRetries))
       = List.map (fun a => (Z.of_nat a + 1) * 30000) (seq 0 n)
    /\ List.length (reloads (snd (handleRateLimitError reload message maxRetries))) = n
    /\ (forall k, (k < n - 1)%nat -> reload k = false)
    /\ ((reload (n - 1)%nat = true
         /\ fst (handleRateLimitError reload message maxRetries) = Return true)
        \/ (n = maxRetries /\ reload (n - 1)%nat = false
            /\ fst (handleRateLimitError reload message maxRetries)
               = Throw (Err ("Rate limit recovery failed after "
                             ++ pretty maxRetries ++ " attempts")%string))).
Proof.
  intros Hmsg Hmax. unfold handleRateLimitError. rewrite Hmsg.
  destruct (retryLoop_spec reload maxRetries maxRetries 0%nat)
    as (n & Hn & Htrace & Hfail & Hend); [lia|lia|].
  exists n. split; [exact Hn|]. split; [exact Htrace|].
  split; [rewrite Htrace; apply sleeps_attempts|].
  split; [rewrite Htrace; apply reloads_attempts|].
  split; [exact Hfail|]. exact Hend.
Qed.

(** C7: with the retry budget of three that every caller uses, a
    throttling signal makes the recovery wait
    [min (30000 * 2 ^ attempt) 90000] ms before the reload of each
    attempt (30 s, 60 s, 90 s), reload the page once per attempt, stop
    with [true] at the first reload that succeeds, make at most three
    attempts, and throw the terminal error "Rate limit recovery failed
    after 3 attempts" when the third reload fails too. *)
Theorem handleRateLimitError_capped_doubling (reload : nat -> bool) (message : string) :
  isRateLimitMessage message = true ->
  exists n,
    (1 <= n <= 3)%nat
    /\ snd (handleRateLimitError reload message 3)
       = flat_map (fun attempt =>
                     [Sleep (Z.min (30000 * 2 ^ Z.of_nat attempt) 90000);
                      Reload (reload attempt)])
                  (seq 0 n)
    /\ (forall k, (k < n - 1)%nat -> reload k = false)
    /\ ((reload (n - 1)%nat = true
         /\ fst (handleRateLimitError reload message 3) = Return true)
        \/ (n = 3%nat /\ reload 2%nat = false
            /\ fst (handleRateLimitError reload message 3)
               = Throw (Err "Rate limit recovery failed after 3 attempts"))).
Proof.
  intros Hmsg. unfold handleRateLimitError. rewrite Hmsg.
  cbn [retryLoop Nat.eqb Nat.sub].
  destruct (reload 0%nat) eqn:H0.
  { exists 1%nat. cbn [fst snd seq flat_map app Nat.sub]. rewrite H0.
    split; [lia|]. split; [reflexivity|]. split; [intros k Hk; lia|].
    left. split; reflexivity. }
  destruct (reload 1%nat) eqn:H1.
  { exists 2%nat. cbn [fst snd seq flat_map app Nat.sub]. rewrite H0, H1.
    split; [lia|]. split; [reflexivity|].
    split; [intros k Hk; assert (k = 0%nat) as -> by lia; exact H0|].
    left. split; reflexivity. }
  destruct (reload 2%nat) eqn:H2.
  { exists 3%nat. cbn [fst snd seq flat_map app Nat.sub]. rewrite H0, H1, H2.
    split; [lia|]. split; [reflexivity|].
    split; [intros k Hk; destruct k as [|[|k]]; [exact H0 | exact H1 | lia]|].
    left. split; reflexivity. }
  exists 3%nat. cbn [fst snd seq flat_map app Nat.sub]. rewrite H0, H1, H2.
  split; [lia|]. split; [reflexivity|].
  split; [intros k Hk; destruct k as [|[|k]]; [exact H0 | exact H1 | lia]|].
  right. split; [reflexivity|]. split; reflexivity.
Qed.

Lemma handleRateLimitError_capped_doubling_witness :
  isRateLimitMessage "net::ERR_HTTP_RESPONSE_CODE_FAILURE 429" = true
  /\ snd (handleRateLimitError Examples.neverReloads
            "net::ERR_HTTP_RESPONSE_CODE_FAILURE 429" 3)
     = [Sleep 30000; Reload false; Sleep 60000; Reload false; Sleep 90000; Reload false]
  /\ exists n,
       (1 <= n <= 3)%nat
       /\ snd (handleRateLimitError Examples.neverReloads
                 "net::ERR_HTTP_RESPONSE_CODE_FAILURE 429" 3)
          = flat_map (fun attempt =>
                        [Sleep (Z.min (30000 * 2 ^ Z.of_nat attempt) 90000);
                         Reload (Examples.neverReloads attempt)])
                     (seq 0 n).
Proof.
  assert (Hmsg : isRateLimitMessage "net::ERR_HTTP_RESPONSE_CODE_FAILURE 429" = true)
    by reflexivity.
  split; [exact Hmsg|]. split; [reflexivity|].
  destruct (handleRateLimitError_capped_doubling Examples.neverReloads
              "net::ERR_HTTP_RESPONSE_CODE_FAILURE 429" Hmsg) as (n & Hn & Htrace & _).
  exists n. split; [exact Hn | exact Htrace].
Defined.

End RateGovernorProperties.

(** ** Filter/RankEngine *)

Section SortProperties.
Import PostFilters.
Context {A : Type} (key : A -> Z).

Lemma insert_Forall (P : A -> Prop) x l :
  P x -> Forall P l -> Forall P (insert key x l).
Proof.
  intros Hx Hl. induction Hl as [|y rest Hy Hrest IH]; cbn.
  - constructor; [exact Hx | constructor].
  - destruct (compare key x y <=? 0).
    + constructor; [exact Hx|]. constructor; assumption.
    + constructor; assumption.
Qed.

Lemma sort_Forall (P : A -> Prop) l :
  Forall P l -> Forall P (sort key l).
Proof.
  induction 1 as [|x rest Hx Hrest IH]; cbn; [constructor|].
  apply insert_Forall; assumption.
Qed.

Lemma insert_descending x l :
  descending key l -> descending key (insert key x l).
Proof.
  unfold descending.
  induction 1 as [|y rest Hsorted IH Hall]; cbn.
  - constructor; constructor.
  - destruct (compare key x y <=? 0) eqn:Hc; unfold compare in Hc.
    + constructor.
      * constructor; assumption.
      * constructor; [lia|].
        eapply List.Forall_impl; [|exact Hall]. cbn. intros z Hz. lia.
    + constructor; [exact IH|].
      apply insert_Forall; [lia | exact Hall].
Qed.

(** The result of [sort] is in descending order of [key]. *)
Lemma sort_descending l : descending key (sort key l).
Proof.
  induction l as [|x rest IH]; cbn; [constructor|].
  apply insert_descending, IH.
Qed.

Lemma insert_class k x l :
  List.filter (fun a => key a =? k) (insert key x l)
  = List.filter (fun a => key a =? k) (x :: l).
Proof.
  induction l as [|y rest IH]; [reflexivity|]. cbn [insert].
  destruct (compare key x y <=? 0) eqn:Hc; [reflexivity|].
  unfold compare in Hc. cbn [List.filter] in *. rewrite IH.
  destruct (key x =? k) eqn:Hx, (key y =? k) eqn:Hy; try reflexivity. lia.
Qed.

(** [sort] is stable: the posts of one score keep their order. *)
Lemma sort_stable l k :
  List.filter (fun a => key a =? k) (sort key l)
  = List.filter (fun a => key a =? k) l.
Proof.
  induction l as [|x rest IH]; [reflexivity|]. cbn [sort].
  rewrite insert_class. cbn. now rewrite IH.
Qed.

Lemma insert_perm x l : Permutation (insert key x l) (x :: l).
Proof.
  induction l as [|y rest IH]; cbn; [reflexivity|].
  destruct (compare key x y <=? 0); [reflexivity|].
  rewrite IH. apply perm_swap.
Qed.

Lemma sort_perm l : Permutation (sort key l) l.
Proof.
  induction l as [|x rest IH]; cbn; [reflexivity|].
  rewrite insert_perm. now constructor.
Qed.

(** Sorting a list that is already in descending order changes nothing. *)
Lemma sort_descending_id l : descending key l -> sort key l = l.
Proof.
  unfold descending.
  induction 1 as [|x rest Hsorted IH Hall]; [reflexivity|].
  cbn. rewrite IH. destruct Hall as [|y rest' Hy Hrest]; [reflexivity|].
  cbn. unfold compare.
  destruct (key y - key x <=? 0) eqn:Hc; [reflexivity | lia].
Qed.

Lemma sort_is_stable_ranking l : stable_ranking key l (sort key l).
Proof. split; [apply sort_descending | intros k; apply sort_stable]. Qed.

Lemma descending_classes_eq r1 :
  forall r2,
    descending key r1 -> descending key r2 ->
    (forall k, List.filter (fun a => key a =? k) r1
               = List.filter (fun a => key a =? k) r2) ->
    r1 = r2.
Proof.
  unfold descending.
  induction r1 as [|x t1 IH]; intros r2 H1 H2 Hcls.
  - destruct r2 as [|y t2]; [reflexivity|].
    specialize (Hcls (key y)). cbn in Hcls. rewrite Z.eqb_refl in Hcls. discriminate.
  - destruct r2 as [|y t2].
    { specialize (Hcls (key x)). cbn in Hcls. rewrite Z.eqb_refl in Hcls. discriminate. }
    inversion H1 as [|? ? Hs1 Hall1]; subst.
    inversion H2 as [|? ? Hs2 Hall2]; subst.
    assert (Hxy : key x <= key y).
    { assert (Hin : In x (List.filter (fun a => key a =? key x) (y :: t2))).
      { rewrite <- Hcls. cbn. rewrite Z.eqb_refl. now left. }
      apply List.filter_In in Hin. destruct Hin as [[->|Hin] _]; [lia|].
      rewrite List.Forall_forall in Hall2. now apply Hall2. }
    assert (Hyx : key y <= key x).
    { assert (Hin : In y (List.filter (fun a => key a =? key y) (x :: t1))).
      { rewrite Hcls. cbn. rewrite Z.eqb_refl. now left. }
      apply List.filter_In in Hin. destruct Hin as [[->|Hin] _]; [lia|].
      rewrite List.Forall_forall in Hall1. now apply Hall1. }
    assert (Hhead : x = y).
    { specialize (Hcls (key x)). cbn in Hcls. rewrite Z.eqb_refl in Hcls.
      replace (key y =? key x) with true in Hcls by (symmetry; apply Z.eqb_eq; lia).
      now injection Hcls. }
    subst y. f_equal. apply IH; [assumption | assumption |].
    intros k. specialize (Hcls k). cbn in Hcls.
    destruct (key x =? k); [now injection Hcls | exact Hcls].
Qed.

(** There is one stable ranking of a list, and [sort] computes it. *)
Lemma stable_ranking_unique l ranked :
  stable_ranking key l ranked -> ranked = sort key l.
Proof.
  intros [Hd Hc]. apply descending_classes_eq; [exact Hd | apply sort_descending |].
  intros k. rewrite Hc. symmetry. apply sort_stable.
Qed.

End SortProperties.

Section FilterProperties.
Import PostFilters.

Lemma filter_filter_andb {A} (f g : A -> bool) l :
  List.filter f (List.filter g l) = List.filter (fun x => g x && f x) l.
Proof.
  induction l as [|x rest IH]; [reflexivity|]. cbn.
  destruct (g x); cbn; [destruct (f x)|]; now rewrite IH.
Qed.

Lemma filter_all {A} (f : A -> bool) l :
  Forall (fun x => f x = true) l -> List.filter f l = l.
Proof.
  induction 1 as [|x rest Hx _ IH]; [reflexivity|]. cbn. now rewrite Hx, IH.
Qed.

Lemma filter_Forall {A} (f : A -> bool) l :
  Forall (fun x => f x = true) (List.filter f l).
Proof.
  induction l as [|x rest IH]; cbn; [constructor|].
  destruct (f x) eqn:Hx; [constructor|]; assumption.
Qed.

Lemma filterOutcome_Return {A} (f : A -> Outcome bool) l out :
  filterOutcome f l = Return out ->
  out = List.filter (fun x => match f x with Return b => b | Throw _ => false end) l.
Proof.
  revert out. induction l as [|x rest IH]; cbn; intros out H.
  - now injection H.
  - destruct (f x) as [keep|e]; [|discriminate].
    destruct (filterOutcome f rest) as [rest'|e]; [|discriminate].
    injection H as <-. rewrite (IH rest' eq_refl). now destruct keep.
Qed.

Lemma filterOutcome_all {A} (f : A -> Outcome bool) l :
  Forall (fun x => f x = Return true) l -> filterOutcome f l = Return l.
Proof.
  induction 1 as [|x rest Hx _ IH]; [reflexivity|]. cbn. now rewrite Hx, IH.
Qed.

Lemma filterOutcome_returns {A} (f : A -> Outcome bool) l :
  Forall (fun x => returned (f x) = true) l -> returned (filterOutcome f l) = true.
Proof.
  induction 1 as [|x rest Hx _ IH]; [reflexivity|]. cbn.
  destruct (f x); [|discriminate].
  destruct (filterOutcome f rest); [reflexivity | discriminate].
Qed.

(** [filterPosts] returns the posts that pass its filters, ranked. *)
Lemma filterPostsList_spec l options out :
  filterPostsList l options = Return out ->
  out = sort score (List.filter (survives options) l).
Proof.
  unfold filterPostsList. intros H.
  destruct (excludeJobPostsOf options) eqn:Hex.
  - destruct (filterOutcome notJobPost _) as [kept|e] eqn:Hkept; [|discriminate].
    injection H as <-. apply filterOutcome_Return in Hkept. subst kept.
    rewrite !filter_filter_andb. f_equal. apply List.filter_ext. intros p.
    unfold survives, notJobPost. rewrite Hex, andb_assoc. now destruct (body p).
  - injection H as <-. rewrite filter_filter_andb. f_equal.
    apply List.filter_ext. intros p. unfold survives. rewrite Hex.
    now rewrite andb_true_r.
Qed.

(** Unless a post without body makes it throw, [filterPosts] returns. *)
Lemma filterPostsList_returns l options :
  Forall (fun p => body p <> None) l ->
  returned (filterPostsList l options) = true.
Proof.
  intros Hbody. unfold filterPostsList.
  destruct (excludeJobPostsOf options); [|reflexivity].
  destruct (filterOutcome notJobPost _) as [kept|e] eqn:Hkept; [reflexivity|].
  assert (H : returned (filterOutcome notJobPost
               (List.filter (fun p => reactions p >=? minReactionsOf options) l)) = true).
  { apply filterOutcome_returns. apply List.Forall_forall. intros p Hin.
    apply List.filter_In in Hin. destruct Hin as [Hin _].
    rewrite List.Forall_forall in Hbody. specialize (Hbody p Hin).
    unfold notJobPost. now destruct (body p). }
  now rewrite Hkept in H.
Qed.

(** A ranked list of surviving posts is returned as it is. *)
Lemma filterPostsList_fixed l options :
  Forall (fun p => survives options p = true) l ->
  descending score l ->
  filterPostsList l options = Return l.
Proof.
  intros Hall Hdesc. unfold filterPostsList.
  assert (Hparts : Forall (fun p =>
            (reactions p >=? minReactionsOf options) = true
            /\ (excludeJobPostsOf options = true -> notJobPost p = Return true)
            /\ longEnough p = true) l).
  { eapply List.Forall_impl; [|exact Hall]. cbn. intros p Hp.
    unfold survives in Hp. apply andb_prop in Hp. destruct Hp as [Hp Hlong].
    apply andb_prop in Hp. destruct Hp as [Heng Hjob].
    split; [exact Heng|]. split; [|exact Hlong].
    intros Hex. rewrite Hex in Hjob. unfold notJobPost.
    destruct (body p); [|discriminate]. now rewrite Hjob. }
  rewrite (filter_all (fun p => reactions p >=? minReactionsOf options) l)
    by (eapply List.Forall_impl; [|exact Hparts]; cbn; tauto).
  assert (Hlong : List.filter longEnough l = l).
  { apply filter_all. eapply List.Forall_impl; [|exact Hparts]. cbn. tauto. }
  destruct (excludeJobPostsOf options) eqn:Hex.
  - rewrite filterOutcome_all.
    + now rewrite Hlong, sort_descending_id.
    + eapply List.Forall_impl; [|exact Hparts]. cbn. intros p (_ & Hjob & _). now apply Hjob.
  - now rewrite Hlong, sort_descending_id.
Qed.

(** [filterPosts] applied to its own result returns it unchanged. *)
Lemma filterPostsList_idempotent l options out :
  filterPostsList l options = Return out ->
  filterPostsList out options = Return out.
Proof.
  intros H. apply filterPostsList_spec in H. subst out.
  apply filterPostsList_fixed.
  - apply sort_Forall, filter_Forall.
  - apply sort_descending.
Qed.

Lemma alloc_spec v (h : gmap nat (list Post)) r h' :
  alloc v h = (r, h') ->
  h' !! r = Some v
  /\ h !! r = None
  /\ (forall p x, h !! p = Some x -> h' !! p = Some x).
Proof.
  unfold alloc. intros H. injection H as <- <-.
  assert (Hfresh : h !! fresh (dom h) = None).
  { apply not_elem_of_dom, is_fresh. }
  split; [apply lookup_insert_eq|]. split; [exact Hfresh|].
  intros p x Hp. rewrite lookup_insert_ne; [exact Hp|].
  intros Heq. rewrite Heq in Hfresh. congruence.
Qed.

(** [filterPosts] on the store: the arrays that existed keep their
    contents, and the result is a new array holding the value of
    [filterPostsList]. *)
Lemma filterPosts_store (h : gmap nat (list Post)) posts options l :
  h !! posts = Some l ->
  (forall p x, h !! p = Some x -> snd (filterPosts posts options h) !! p = Some x)
  /\ match filterPostsList l options with
     | Return ranked =>
         exists out, fst (filterPosts posts options h) = Return out
                     /\ snd (filterPosts posts options h) !! out = Some ranked
                     /\ h !! out = None
     | Throw e => fst (filterPosts posts options h) = Throw e
     end.
Proof.
  intros Hl. unfold filterPosts, filterPostsList. rewrite Hl.
  destruct (alloc l h) as [r0 h0] eqn:E0.
  apply alloc_spec in E0. destruct E0 as (_ & _ & Hext0).
  destruct (alloc (List.filter _ l) h0) as [r1 h1] eqn:E1.
  apply alloc_spec in E1. destruct E1 as (_ & _ & Hext1).
  assert (Hext01 : forall p x, h !! p = Some x -> h1 !! p = Some x) by auto.
  destruct (excludeJobPostsOf options).
  - destruct (filterOutcome notJobPost _) as [kept|e].
    + destruct (alloc kept h1) as [r2 h2] eqn:E2.
      apply alloc_spec in E2. destruct E2 as (_ & _ & Hext2).
      destruct (alloc (List.filter longEnough kept) h2) as [r3 h3] eqn:E3.
      apply alloc_spec in E3. destruct E3 as (_ & Hnew3 & Hext3).
      cbn [fst snd].
      assert (Hfresh : h !! r3 = None).
      { destruct (h !! r3) eqn:Hr3; [|reflexivity].
        apply Hext01, Hext2 in Hr3. congruence. }
      split.
      * intros p x Hp. rewrite lookup_insert_ne; [auto|]. congruence.
      * exists r3. split; [reflexivity|]. split; [apply lookup_insert_eq | exact Hfresh].
    + cbn [fst snd]. split; [exact Hext01 | reflexivity].
  - destruct (alloc (List.filter longEnough _) h1) as [r3 h3] eqn:E3.
    apply alloc_spec in E3. destruct E3 as (_ & Hnew3 & Hext3).
    cbn [fst snd].
    assert (Hfresh : h !! r3 = None).
    { destruct (h !! r3) eqn:Hr3; [|reflexivity].
      apply Hext01 in Hr3. congruence. }
    split.
    * intros p x Hp. rewrite lookup_insert_ne; [auto|]. congruence.
    * exists r3. split; [reflexivity|]. split; [apply lookup_insert_eq | exact Hfresh].
Qed.

(** [rankPosts] on its own sorts the array it is given. *)
Lemma rankPosts_in_place (h : gmap nat (list Post)) posts l :
  h !! posts = Some l ->
  fst (rankPosts posts h) = Return posts
  /\ snd (rankPosts posts h) !! posts = Some (sort rankScore l).
Proof.
  intros Hl. unfold rankPosts. rewrite Hl. cbn.
  split; [reflexivity | apply lookup_insert_eq].
Qed.

(** C8: [filterPosts] leaves the array it is given, and every other
    array of the store, as it was; it returns unless a post has no body;
    and applied to its own result it returns a list equal to that
    result, again without changing the array it was given. *)
Theorem filterPosts_pure_and_idempotent
    (h : gmap nat (list Post)) (posts : nat) (options : Options) (l : list Post) :
  h !! posts = Some l ->
  (forall p x, h !! p = Some x -> snd (filterPosts posts options h) !! p = Some x)
  /\ (Forall (fun p => body p <> None) l ->
      returned (fst (filterPosts posts options h)) = true)
  /\ (forall out,
        fst (filterPosts posts options h) = Return out ->
        exists ranked,
          snd (filterPosts posts options h) !! out = Some ranked
          /\ filterPostsList l options = Return ranked
          /\ filterPostsList ranked options = Return ranked
          /\ exists out2,
               fst (filterPosts out options (snd (filterPosts posts options h)))
               = Return out2
               /\ snd (filterPosts out options (snd (filterPosts posts options h))) !! out2
                  = Some ranked
               /\ snd (filterPosts out options (snd (filterPosts posts options h))) !! out
                  = Some ranked
               /\ snd (filterPosts out options (snd (filterPosts posts options h))) !! posts
                  = Some l).
Proof.
  intros Hl.
  destruct (filterPosts_store h posts options l Hl) as [Hkeep Hres].
  split; [exact Hkeep|]. split.
  - intros Hbody. apply (filterPostsList_returns l options) in Hbody.
    destruct (filterPostsList l options) as [ranked|e]; [|discriminate].
    destruct Hres as (out & -> & _). reflexivity.
  - intros out Hout.
    destruct (filterPostsList l options) as [ranked|e] eqn:Hlist;
      [|rewrite Hres in Hout; discriminate].
    destruct Hres as (out' & Hout' & Hlook & _).
    rewrite Hout' in Hout. injection Hout as ->.
    exists ranked. split; [exact Hlook|]. split; [reflexivity|].
    pose proof (filterPostsList_idempotent l options ranked Hlist) as Hidem.
    split; [exact Hidem|].
    destruct (filterPosts_store _ out options ranked Hlook) as [Hkeep2 Hres2].
    rewrite Hidem in Hres2. destruct Hres2 as (out2 & Hout2 & Hlook2 & _).
    exists out2. split; [exact Hout2|]. split; [exact Hlook2|].
    split; [apply Hkeep2, Hlook | apply Hkeep2, Hkeep, Hl].
Qed.

Lemma filterPosts_pure_and_idempotent_witness :
  Examples.arrays !! 0%nat = Some Examples.scraped
  /\ fst (filterPosts 0%nat Examples.defaults Examples.arrays) = Return 4%nat
  /\ exists ranked,
       snd (filterPosts 0%nat Examples.defaults Examples.arrays) !! 4%nat = Some ranked
       /\ filterPostsList ranked Examples.defaults = Return ranked.
Proof.
  assert (Hl : Examples.arrays !! 0%nat = Some Examples.scraped) by reflexivity.
  split; [exact Hl|].
  assert (Hout : fst (filterPosts 0%nat Examples.defaults Examples.arrays) = Return 4%nat)
    by (vm_compute; reflexivity).
  split; [exact Hout|].
  destruct (filterPosts_pure_and_idempotent Examples.arrays 0%nat Examples.defaults
              Examples.scraped Hl) as (_ & _ & Hidem).
  destruct (Hidem 4%nat Hout) as (ranked & Hlook & _ & Hfix & _).
  exists ranked. split; [exact Hlook | exact Hfix].
Defined.

End FilterProperties.

Section SelectionProperties.
Import PostFilters.

Lemma firstn_min_length {A} (l : list A) (n : Z) :
  0 <= n ->
  firstn (Z.to_nat (Z.min n (Z.of_nat (List.length l)))) l = firstn (Z.to_nat n) l.
Proof.
  intros Hn. destruct (Z.le_gt_cases n (Z.of_nat (List.length l))) as [Hle|Hgt].
  - now rewrite Z.min_l.
  - rewrite Z.min_r by lia. rewrite Nat2Z.id.
    rewrite List.firstn_all. symmetry. apply List.firstn_all2. lia.
Qed.

Lemma toInteger_nonneg (x : Q) : (0 <= x)%Q -> toInteger x = Qfloor x /\ 0 <= Qfloor x.
Proof.
  intros Hx. unfold toInteger.
  assert (Hb : Qle_bool 0 x = true) by now apply Qle_bool_iff.
  rewrite Hb. split; [reflexivity|].
  apply Qfloor_resp_le in Hx. exact Hx.
Qed.

(** [slice(0, end)] for a number that is not negative: its whole part
    counts. *)
Lemma slice0_floor {A} (l : list A) (x : Q) :
  (0 <= x)%Q -> slice0 l x = firstn (Z.to_nat (Qfloor x)) l.
Proof.
  intros Hx. destruct (toInteger_nonneg x Hx) as [Hint Hpos].
  unfold slice0. rewrite Hint.
  destruct (Qfloor x <? 0) eqn:Hneg; [lia|]. now apply firstn_min_length.
Qed.

Lemma slice0_firstn {A} (l : list A) (n : Z) :
  0 <= n -> slice0 l (inject_Z n) = firstn (Z.to_nat n) l.
Proof.
  intros Hn. rewrite slice0_floor.
  - now rewrite Qfloor_Z.
  - change 0%Q with (inject_Z 0). now rewrite <- Zle_Qle.
Qed.

Lemma actLoopPosts_firstn {A} (l : list A) (n : Z) :
  0 <= n -> actLoopPosts l (inject_Z n) = firstn (Z.to_nat n) l.
Proof.
  intros Hn. unfold actLoopPosts. rewrite Qceiling_Z, Z.min_comm.
  now apply firstn_min_length.
Qed.

Lemma or_zero_id (x : Z) : or_zero x = x.
Proof. unfold or_zero. destruct (x =? 0) eqn:E; [lia | reflexivity]. Qed.

Lemma score_engagement (p : Post) : score p = reactions p + comments p.
Proof. unfold score. now rewrite !or_zero_id. Qed.

Lemma insert_ext {A} (key1 key2 : A -> Z) (x : A) (l : list A) :
  (forall a, key1 a = key2 a) -> insert key1 x l = insert key2 x l.
Proof.
  intros Hk. induction l as [|y rest IH]; [reflexivity|]. cbn.
  unfold compare. now rewrite !Hk, IH.
Qed.

Lemma sort_ext {A} (key1 key2 : A -> Z) (l : list A) :
  (forall a, key1 a = key2 a) -> sort key1 l = sort key2 l.
Proof.
  intros Hk. induction l as [|x rest IH]; [reflexivity|]. cbn.
  rewrite IH. now apply insert_ext.
Qed.

(** C9: for a requested count [N >= 0], the posts the act loop of
    [commentWorker.js] visits are the first [N] of the posts that pass
    the filters of [filterPosts], and [postsForCommenting] of
    [linkedPostRefinementWorker.js] the first [N] of the scraped posts
    not yet commented, each taken in its one stable descending ranking:
    ordered by reactions plus comments, largest first, equal sums in
    discovery order. *)
Theorem selected_posts_are_top_ranked
    (scrapedPosts : list Post) (options : Options) (N : Z)
    (filtered : list Post) (commentedPostUrls : list string) :
  0 <= N ->
  filterPostsList scrapedPosts options = Return filtered ->
  let engagement := fun p : Post => reactions p + comments p in
  let bodyOf := fun p : Post => or_string (text p) (content p) in
  let surviving :=
    List.filter
      (fun p => (reactions p >=? default 10 (minReactions options))
                && (if default true (excludeJobPosts options)
                    then match bodyOf p with
                         | Some s => negb (isExcludedPost s)
                         | None => false
                         end
                    else true)
                && (30 <=? Z.of_nat (String.length
                                       (default "" (or_string (bodyOf p) (Some ""))))))
      scrapedPosts in
  let notCommented :=
    List.filter
      (fun p => match postUrl p with
                | Some u => negb (existsb (String.eqb u) commentedPostUrls)
                | None => true
                end)
      scrapedPosts in
  (exists ranked,
      stable_ranking engagement surviving ranked
      /\ (forall ranked', stable_ranking engagement surviving ranked' -> ranked' = ranked)
      /\ Permutation ranked surviving
      /\ actLoopPosts filtered (inject_Z N) = firstn (Z.to_nat N) ranked)
  /\ (exists ranked,
        stable_ranking engagement notCommented ranked
        /\ (forall ranked', stable_ranking engagement notCommented ranked' ->
                            ranked' = ranked)
        /\ Permutation ranked notCommented
        /\ postsForCommenting scrapedPosts commentedPostUrls (inject_Z N)
           = firstn (Z.to_nat N) ranked).
Proof.
  intros Hn Hfiltered engagement bodyOf surviving notCommented.
  apply filterPostsList_spec in Hfiltered.
  assert (Hsurviving : List.filter (survives options) scrapedPosts = surviving).
  { apply List.filter_ext. intros p. reflexivity. }
  assert (HnotCommented : availablePosts scrapedPosts commentedPostUrls = notCommented).
  { apply List.filter_ext. intros p. now destruct (postUrl p). }
  split.
  - exists (sort engagement surviving).
    split; [apply sort_is_stable_ranking|].
    split; [intros r Hr; now apply stable_ranking_unique|].
    split; [apply sort_perm|].
    rewrite Hfiltered, Hsurviving, (sort_ext score engagement) by apply score_engagement.
    now apply actLoopPosts_firstn.
  - exists (sort engagement notCommented).
    split; [apply sort_is_stable_ranking|].
    split; [intros r Hr; now apply stable_ranking_unique|].
    split; [apply sort_perm|].
    unfold postsForCommenting. rewrite HnotCommented.
    rewrite (sort_ext rankScore engagement) by reflexivity.
    now apply slice0_firstn.
Qed.

Lemma selected_posts_are_top_ranked_witness :
  0 <= 2
  /\ filterPostsList Examples.found Examples.defaults
     = Return [Examples.retrospective; Examples.startup; Examples.agents]
  /\ actLoopPosts [Examples.retrospective; Examples.startup; Examples.agents] (inject_Z 2)
     = [Examples.retrospective; Examples.startup]
  /\ exists ranked,
       stable_ranking (fun p => reactions p + comments p) Examples.found ranked
       /\ postsForCommenting Examples.found [] (inject_Z 2) = firstn (Z.to_nat 2) ranked.
Proof.
  assert (Hn : 0 <= 2) by lia.
  assert (Hf : filterPostsList Examples.found Examples.defaults
               = Return [Examples.retrospective; Examples.startup; Examples.agents])
    by (vm_compute; reflexivity).
  split; [exact Hn|]. split; [exact Hf|]. split; [reflexivity|].
  destruct (selected_posts_are_top_ranked Examples.found Examples.defaults 2
              [Examples.retrospective; Examples.startup; Examples.agents] [] Hn Hf)
    as [_ (ranked & Hrank & _ & _ & Hsel)].
  exists ranked. split; [exact Hrank | exact Hsel].
Defined.

End SelectionProperties.

(** ** JobProcessor *)

Section GuardProperties.
Import PostFilters Workers.

(** C1: when the persisted status of the job is [active], the handlers of
    [commentWorker.js] and [linkedPostRefinementWorker.js] return an
    object with [success: false] and the text "Job already being
    processed", and the job collection, the post collection, the session
    reports, the queue progress and the browser are as before. *)
Theorem active_job_is_skipped (env : Env) (d : JobData) (w : World) (j : CommentJob) :
  jobs w !! jobId d = Some j ->
  status j = active ->
  (exists r,
      CommentWorker.handler env d w = (Return r, w)
      /\ success r = false
      /\ ret_message r = Some "Job already being processed")
  /\ (exists r,
        LinkedPostRefinementWorker.handler env d w = (Return r, w)
        /\ success r = false
        /\ ret_reason r = Some "Job already being processed").
Proof.
  intros Hj Hactive. split.
  - exists (rejected (Some "Job already being processed") None).
    split; [|split; reflexivity].
    unfold CommentWorker.handler, CommentWorker.handlerM, findById, getWorld, bind, ret.
    cbn. rewrite Hj, Hactive. reflexivity.
  - exists (rejected None (Some "Job already being processed")).
    split; [|split; reflexivity].
    unfold LinkedPostRefinementWorker.handler, LinkedPostRefinementWorker.handlerM,
      findById, getWorld, bind, ret.
    cbn. rewrite Hj, Hactive. reflexivity.
Qed.

Lemma active_job_is_skipped_witness :
  let w := Examples.world (Examples.job active None None) [Examples.earlierReport] [] in
  jobs w !! jobId Examples.data = Some (Examples.job active None None)
  /\ fst (CommentWorker.handler Examples.allGood Examples.data w)
     = Return (rejected (Some "Job already being processed") None)
  /\ snd (CommentWorker.handler Examples.allGood Examples.data w) = w
  /\ snd (LinkedPostRefinementWorker.handler Examples.allGood Examples.data w) = w.
Proof.
  intros w.
  assert (Hj : jobs w !! jobId Examples.data = Some (Examples.job active None None))
    by (vm_compute; reflexivity).
  split; [exact Hj|].
  destruct (active_job_is_skipped Examples.allGood Examples.data w
              (Examples.job active None None) Hj eq_refl)
    as [(r1 & H1 & _ & _) (r2 & H2 & _ & _)].
  split; [vm_compute; reflexivity|].
  split; [now rewrite H1 | now rewrite H2].
Defined.

(** The handler of [commentWorker.js] has no other guard: a job in any
    status but [active] enters the [try] block, whose first statement sets
    it to [active]. *)
Lemma commentWorker_only_guards_active (env : Env) (d : JobData) (s : State)
    (j : CommentJob) :
  jobs (fst s) !! jobId d = Some j ->
  status j <> active ->
  CommentWorker.handlerM env d s
  = try_catch (CommentWorker.tryBlock env d) (CommentWorker.catchBlock env d) s.
Proof.
  intros Hj Hs.
  unfold CommentWorker.handlerM, findById, getWorld, bind, ret.
  cbn -[CommentWorker.tryBlock CommentWorker.catchBlock]. rewrite Hj.
  destruct (status j); try reflexivity. contradiction.
Qed.

(** The cooldown guard of [linkedPostRefinementWorker.js]: a job completed
    less than five minutes ago is skipped and nothing changes. *)
Lemma cooldown_guard (env : Env) (d : JobData) (w : World) (j : CommentJob) (t : Z) :
  jobs w !! jobId d = Some j ->
  status j = completed ->
  completedAt j = Some t ->
  now env - t < 5 * 60 * 1000 ->
  LinkedPostRefinementWorker.handler env d w
  = (Return (rejected None (Some "Job completed recently")), w).
Proof.
  intros Hj Hs Ht Hrecent.
  unfold LinkedPostRefinementWorker.handler, LinkedPostRefinementWorker.handlerM,
    findById, getWorld, bind, ret.
  cbn. rewrite Hj, Hs. cbn.
  unfold LinkedPostRefinementWorker.completedRecently. rewrite Hs, Ht.
  unfold LinkedPostRefinementWorker.minRestartInterval.
  destruct (now env - t <? 5 * 60 * 1000) eqn:E; [reflexivity | lia].
Qed.

(** The attempt-budget guard of [linkedPostRefinementWorker.js] reads
    [existingJob.failedAttempts], which no document has: it applies to no
    job. *)
Lemma attempt_budget_guard_never_applies (j : CommentJob) :
  LinkedPostRefinementWorker.failedAttemptsOf j = 0
  /\ LinkedPostRefinementWorker.failedTooOften j = false.
Proof.
  unfold LinkedPostRefinementWorker.failedTooOften,
    LinkedPostRefinementWorker.failedAttemptsOf. cbn.
  split; [reflexivity | apply andb_false_r].
Qed.

(** The status [permanently_failed] is not one the schema of
    [models/CommentJob.js] lists. *)
Lemma permanently_failed_not_in_schema : ~ In permanently_failed schemaStatusEnum.
Proof. cbn. intros [H|[H|[H|[H|[]]]]]; discriminate. Qed.

(** A failed job that is delivered again goes on to be processed. *)
Lemma failed_job_passes_guards (env : Env) (d : JobData) (s : State) (j : CommentJob) :
  jobs (fst s) !! jobId d = Some j ->
  status j = failed ->
  LinkedPostRefinementWorker.handlerM env d s
  = LinkedPostRefinementWorker.process env d (Some j) s.
Proof.
  intros Hj Hs.
  unfold LinkedPostRefinementWorker.handlerM, findById, getWorld, bind, ret.
  cbn -[LinkedPostRefinementWorker.process]. rewrite Hj.
  unfold LinkedPostRefinementWorker.completedRecently. rewrite Hs.
  destruct (attempt_budget_guard_never_applies j) as [_ ->]. reflexivity.
Qed.

(** No guard of [linkedPostRefinementWorker.js] looks for the status
    [permanently_failed]: such a job goes on to be processed. *)
Lemma permanently_failed_passes_guards (env : Env) (d : JobData) (s : State)
    (j : CommentJob) :
  jobs (fst s) !! jobId d = Some j ->
  status j = permanently_failed ->
  LinkedPostRefinementWorker.handlerM env d s
  = LinkedPostRefinementWorker.process env d (Some j) s.
Proof.
  intros Hj Hs.
  unfold LinkedPostRefinementWorker.handlerM, findById, getWorld, bind, ret.
  cbn -[LinkedPostRefinementWorker.process]. rewrite Hj.
  unfold LinkedPostRefinementWorker.completedRecently,
    LinkedPostRefinementWorker.failedTooOften.
  rewrite Hs. reflexivity.
Qed.

(** C2, at an input where the code departs from the claim: the session
    has expired, and the job is delivered four times to the handler of
    [linkedPostRefinementWorker.js].  The first three runs fail and leave
    the job [failed].  The fourth delivery launches the browser and runs
    the pipeline again; the job is [failed] once more, not
    [permanently_failed], and there are four session reports. *)
Theorem failed_job_is_rerun_without_bound :
  let e := Err "LinkedIn cookies are invalid or expired. Please update cookies." in
  let deliver := LinkedPostRefinementWorker.handler Examples.expiredSession Examples.data in
  let first := deliver (Examples.world (Examples.job waiting None None) [] []) in
  let second := deliver (snd first) in
  let third := deliver (snd second) in
  let fourth := deliver (snd third) in
  (fst first = Throw e /\ fst second = Throw e /\ fst third = Throw e)
  /\ (jobs (snd third) !! jobId Examples.data
      = Some {| status := failed; startedAt := Some 960000; completedAt := Some 1560000;
                result := None; error := Some (message e);
                progress := {| currentStep := Some "Failed"; stepProgress := Some 0 |} |})
  /\ fst fourth = Throw e
  /\ (status <$> jobs (snd fourth) !! jobId Examples.data) = Some failed
  /\ browserLog (snd fourth)
     = [Launched; CloseCalled; Launched; CloseCalled;
        Launched; CloseCalled; Launched; CloseCalled]
  /\ List.length (reports (snd fourth)) = 4%nat.
Proof. vm_compute. repeat split. Qed.

(** C4, at an input where the code departs from the claim: the handler
    of [commentWorker.js], given a job completed 60 s earlier, runs it
    again.  When the scrape finds nothing it returns [success: true];
    when it finds posts the run fails at [Post.insertMany]; either way the
    job was restarted and a second session report is added.  The handler
    of [linkedPostRefinementWorker.js] skips the same job. *)
Theorem commentWorker_reruns_recently_completed_job :
  let w0 := Examples.world (Examples.job completed (Some 900000) None)
              [Examples.earlierReport] [] in
  let quiet := CommentWorker.handler Examples.nothingFound Examples.data w0 in
  let busy := CommentWorker.handler Examples.allGood Examples.data w0 in
  now Examples.nothingFound - 900000 < LinkedPostRefinementWorker.minRestartInterval
  /\ fst quiet = Return (finished 0 0 1)
  /\ (startedAt <$> jobs (snd quiet) !! jobId Examples.data) = Some (Some 960000)
  /\ List.length (reports (snd quiet)) = 2%nat
  /\ fst busy = Throw (Err "Post validation failed: userId: Path `userId` is required.")
  /\ (startedAt <$> jobs (snd busy) !! jobId Examples.data) = Some (Some 960000)
  /\ List.length (reports (snd busy)) = 2%nat
  /\ fst (LinkedPostRefinementWorker.handler Examples.nothingFound Examples.data w0)
     = Return (rejected None (Some "Job completed recently")).
Proof. vm_compute. repeat split. Qed.

End GuardProperties.

Section PipelineProperties.
Import PostFilters Workers.

Lemma Status_eqb_eq (a b : Status) : Status_eqb a b = true <-> a = b.
Proof. destruct a, b; cbn; split; intros H; try reflexivity; discriminate. Qed.


Ltac handler_cbn :=
  cbn -[CommentWorker.actLoop actLoopPosts filterPostsList CommentWorker.mapOutcome
        insertOrdered existsb String.eqb].

End PipelineProperties.

Section StoreAndBrowserProperties.
Import PostFilters Workers.










(** The ordered insert returns only for a batch of documents the schema
    accepts. *)
Lemma insertOrdered_returns_valid (docs coll coll' : list PostDoc) :
  insertOrdered docs coll = (Return tt, coll') ->
  Forall (fun d => validPost d = true) docs.
Proof.
  unfold insertOrdered.
  destruct (List.find (fun d => negb (validPost d)) docs) as [d|] eqn:Hfind;
    [discriminate|].
  intros _. apply List.Forall_forall. intros d Hin.
  pose proof (List.find_none _ _ Hfind d Hin) as Hd. cbn in Hd.
  now destruct (validPost d).
Qed.






(** A document of [commentWorker.js] has no [userId]: the schema rejects
    it, and it has the key of no document the schema accepts. *)
Lemma postToSave_has_no_user (d : JobData) (post : Post) (doc : PostDoc) :
  CommentWorker.postToSave d post = Return doc ->
  validPost doc = false
  /\ forall stored, validPost stored = true -> sameKey doc stored = false.
Proof.
  unfold CommentWorker.postToSave. destruct (text post) as [t|]; [|discriminate].
  intros H. injection H as <-. split.
  - unfold validPost, missingPaths. cbn.
    now destruct (present (postUrl post)), (present (Some t)).
  - intros stored Hvalid. unfold sameKey. cbn.
    destruct (doc_userId stored) as [u|] eqn:Hu; [apply andb_false_r|].
    unfold validPost, missingPaths in Hvalid. rewrite Hu in Hvalid. cbn in Hvalid.
    now destruct (present (doc_postUrl stored)).
Qed.



(** [processJob] of [enhancedLinkedInWorker.js] closes the browser in a
    [finally] block: whatever fails, a launched browser has [close]
    called on it. *)
Lemma processJob_releases_browser (env : Env) (d : JobData) (w : World) :
  browserLog w = [] ->
  released (browserLog (snd (EnhancedLinkedInWorker.processJob env d w))) 0 = true.
Proof.
  intros Hlog.
  unfold EnhancedLinkedInWorker.processJob, EnhancedLinkedInWorker.processJobM,
    EnhancedLinkedInWorker.loginWithCookies, try_finally, try_catch, launchBrowser,
    browserClose, logBrowser, assert, findByIdAndUpdate, modifyWorld, modifyLocals,
    getWorld, getLocals, bind, ret, throw, lift.
  cbn. rewrite Hlog.
  destruct (launch env); cbn; [|reflexivity].
  destruct (openPage env); cbn.
  - destruct (loadLinkedInCookies env) as [cookies|e]; cbn.
    + destruct (negb (Nat.eqb (List.length cookies) 0)); cbn.
      * destruct (loggedIn env); cbn; destruct (closeBrowser env); reflexivity.
      * destruct (closeBrowser env); reflexivity.
    + destruct (closeBrowser env); reflexivity.
  - destruct (closeBrowser env); reflexivity.
Qed.

(** The act loop of [commentWorker.js] always returns, and touches the
    post collection only. *)
Lemma actLoop_returns (env : Env) (selected : list Post) :
  forall (c f : Z) (w : World) (l : Locals),
  exists c' f' ps,
    CommentWorker.actLoop env selected c f (w, l)
    = (Return (c', f'),
       ({| jobs := jobs w; reports := reports w; posts := ps;
           queueProgress := queueProgress w; browserLog := browserLog w |}, l)).
Proof.
  induction selected as [|p rest IH]; intros c f w l.
  - exists c, f, (posts w). destruct w. reflexivity.
  - cbn [CommentWorker.actLoop].
    unfold bind at 1, try_catch, CommentWorker.actOn, findOneAndUpdate, setPosts,
      modifyWorld, getWorld, bind, lift, ret.
    destruct (generateAIComment env p) as [comment|e]; cbn; [|apply IH].
    destruct (postCommentOnPost env p comment) as [[]|e]; cbn; [|apply IH].
    destruct (IH (c + 1) f
                {| jobs := jobs w; reports := reports w;
                   posts := updateFirst
                              (fun doc => option_string_eqb (doc_postUrl doc) (postUrl p))
                              (CommentWorker.markCommented comment (endTime env)) (posts w);
                   queueProgress := queueProgress w; browserLog := browserLog w |} l)
      as (c' & f' & ps & Hloop).
    exists c', f', ps. exact Hloop.
Qed.

Ltac next_outcome :=
  match goal with
  | |- context [match ?x with Return _ => _ | Throw _ => _ end] => destruct x eqn:?
  | |- context [if ?b then _ else _] => destruct b eqn:?
  | |- context [let (_, _) := insertOrdered ?a ?b in _] => destruct (insertOrdered a b) eqn:?
  end.

(** Every run of the handler of [commentWorker.js] that ends by throwing
    ends without a call of [browser.close]: the browser, if it was
    launched, is still open. *)
Lemma commentWorker_never_closes_when_it_throws (env : Env) (d : JobData) (w : World)
    (e : Error) :
  browserLog w = [] ->
  fst (CommentWorker.handler env d w) = Throw e ->
  browserLog (snd (CommentWorker.handler env d w)) = []
  \/ browserLog (snd (CommentWorker.handler env d w)) = [Launched].
Proof.
  intros Hlog. destruct w as [js rs ps0 qp bl]. cbn in Hlog. subst bl.
  unfold CommentWorker.handler, CommentWorker.handlerM, CommentWorker.tryBlock,
    CommentWorker.actAndFinish,
    CommentWorker.catchBlock, CommentWorker.browserInCatchBlock, step, assert,
    launchBrowser, browserClose, logBrowser, createReport, insertMany, setPosts,
    findById, findByIdAndUpdate, updateProgress, modifyWorld, modifyLocals, getWorld,
    getLocals, try_catch, bind, ret, throw, lift.
  cbn -[CommentWorker.actLoop actLoopPosts filterPostsList CommentWorker.mapOutcome
        insertOrdered existsb String.eqb].
  destruct (js !! jobId d) as [j|];
    [destruct (Status_eqb (status j) active); [cbn; discriminate|]|].
  all: repeat (next_outcome;
               cbn -[CommentWorker.actLoop actLoopPosts filterPostsList
                     CommentWorker.mapOutcome insertOrdered existsb String.eqb]).
  all: try (intros _; cbn; tauto).
  all: match goal with
       | |- context [CommentWorker.actLoop ?env ?sel ?c ?f (?w0, ?l0)] =>
           destruct (actLoop_returns env sel c f w0 l0) as (c' & f' & ps & ->)
       end.
  all: cbn; repeat (next_outcome; cbn); discriminate.
Qed.

(** X20: whatever the status of the job, unless it is [active], a run of the
    handler of [commentWorker.js] restarts it and adds one session report. *)
Lemma commentWorker_run_restarts_job (env : Env) (d : JobData) (w : World)
    (j : CommentJob) :
  jobs w !! jobId d = Some j ->
  status j <> active ->
  List.length (reports (snd (CommentWorker.handler env d w)))
  = S (List.length (reports w))
  /\ exists j',
       jobs (snd (CommentWorker.handler env d w)) !! jobId d = Some j'
       /\ startedAt j' = Some (now env)
       /\ (status j' = completed \/ status j' = failed).
Proof.
  intros Hj Hs. destruct w as [js rs ps0 qp bl]. cbn in Hj.
  assert (Hguard : Status_eqb (status j) active = false).
  { destruct (Status_eqb (status j) active) eqn:E; [|reflexivity].
    apply Status_eqb_eq in E. contradiction. }
  unfold CommentWorker.handler, CommentWorker.handlerM, CommentWorker.tryBlock,
    CommentWorker.actAndFinish,
    CommentWorker.catchBlock, CommentWorker.browserInCatchBlock, step, assert,
    launchBrowser, browserClose, logBrowser, createReport, insertMany, setPosts,
    findById, findByIdAndUpdate, updateProgress, modifyWorld, modifyLocals, getWorld,
    getLocals, try_catch, bind, ret, throw, lift.
  cbn -[CommentWorker.actLoop actLoopPosts filterPostsList CommentWorker.mapOutcome
        insertOrdered existsb String.eqb].
  rewrite Hj, Hguard.
  repeat (next_outcome;
          cbn -[CommentWorker.actLoop actLoopPosts filterPostsList
                CommentWorker.mapOutcome insertOrdered existsb String.eqb]).
  all: try match goal with
       | |- context [CommentWorker.actLoop ?env ?sel ?c ?f (?w0, ?l0)] =>
           destruct (actLoop_returns env sel c f w0 l0) as (c' & f' & ps & ->);
           cbn; repeat (next_outcome; cbn)
       end.
  all: (split; [rewrite length_app; cbn; lia|]).
  all: rewrite !lookup_alter_eq, Hj; cbn.
  all: eexists; (split; [reflexivity|]); split; [reflexivity | tauto].
Qed.

(** The act loop of [linkedPostRefinementWorker.js] always returns, and
    touches the post collection only. *)
Lemma linked_actLoop_returns (env : Env) (d : JobData) (selected : list Post) :
  forall (c : Z) (w : World) (l : Locals),
  exists c' ps,
    LinkedPostRefinementWorker.actLoop env d selected c (w, l)
    = (Return c',
       ({| jobs := jobs w; reports := reports w; posts := ps;
           queueProgress := queueProgress w; browserLog := browserLog w |}, l)).
Proof.
  induction selected as [|p rest IH]; intros c w l.
  - exists c, (posts w). destruct w. reflexivity.
  - cbn [LinkedPostRefinementWorker.actLoop].
    unfold bind at 1, try_catch, LinkedPostRefinementWorker.actOn, findOneAndUpdate,
      setPosts, modifyWorld, getWorld, bind, lift, ret, throw.
    assert (Hsame : forall c0, exists c' ps,
              LinkedPostRefinementWorker.actLoop env d rest c0 (w, l)
              = (Return c',
                 ({| jobs := jobs w; reports := reports w; posts := ps;
                     queueProgress := queueProgress w; browserLog := browserLog w |}, l)))
      by (intros c0; apply IH).
    destruct (or_string (postUrl p) None) as [url|]; cbn; [|apply Hsame].
    destruct (content p) as [text0|]; cbn; [|apply Hsame].
    destruct (submitComment env p _) as [[|]|e]; cbn; [|apply Hsame|apply Hsame].
    match goal with
    | |- context [LinkedPostRefinementWorker.actLoop env d rest ?c0 (?w0, l)] =>
        destruct (IH c0 w0 l) as (c' & ps & Hloop)
    end.
    exists c', ps. exact Hloop.
Qed.

Ltac next_linked_outcome :=
  match goal with
  | |- context [match ?x with Return _ => _ | Throw _ => _ end] => destruct x eqn:?
  | |- context [if ?b then _ else _] => destruct b eqn:?
  | |- context [let (_, _) := insertUnordered ?a ?b in _] =>
      destruct (insertUnordered a b) eqn:?
  | |- context [LinkedPostRefinementWorker.actLoop ?env ?d ?sel ?c (?w0, ?l0)] =>
      let c' := fresh "c'" in
      let ps := fresh "ps" in
      destruct (linked_actLoop_returns env d sel c w0 l0) as (c' & ps & ->)
  end.

(** A job in the status [permanently_failed] that is delivered again to
    the handler of [linkedPostRefinementWorker.js] is restarted: the run
    sets [startedAt], adds a session report and leaves the job
    [completed] or [failed]. *)
Lemma permanently_failed_job_is_restarted (env : Env) (d : JobData) (w : World)
    (j : CommentJob) :
  jobs w !! jobId d = Some j ->
  status j = permanently_failed ->
  List.length (reports (snd (LinkedPostRefinementWorker.handler env d w)))
  = S (List.length (reports w))
  /\ exists j',
       jobs (snd (LinkedPostRefinementWorker.handler env d w)) !! jobId d = Some j'
       /\ startedAt j' = Some (now env)
       /\ (status j' = completed \/ status j' = failed).
Proof.
  intros Hj Hs. destruct w as [js rs ps0 qp bl]. cbn in Hj.
  unfold LinkedPostRefinementWorker.handler.
  rewrite (permanently_failed_passes_guards env d
             (mkWorld js rs ps0 qp bl, mkLocals false false) j Hj Hs).
  unfold LinkedPostRefinementWorker.process, LinkedPostRefinementWorker.tryBlock,
    LinkedPostRefinementWorker.catchBlock, LinkedPostRefinementWorker.cleanupIfSet,
    LinkedPostRefinementWorker.runCleanup, findDistinctUrls, step, assert,
    launchBrowser, browserClose, logBrowser, createReport, insertMany, setPosts,
    findByIdAndUpdate, updateProgress, modifyWorld, modifyLocals, getWorld,
    getLocals, try_catch, bind, ret, throw, lift.
  cbn -[LinkedPostRefinementWorker.actLoop postsForCommenting
        LinkedPostRefinementWorker.keepNew insertUnordered distinct List.filter
        Z.of_nat Z.ltb Z.eqb].
  repeat (next_linked_outcome;
          cbn -[LinkedPostRefinementWorker.actLoop postsForCommenting
                LinkedPostRefinementWorker.keepNew insertUnordered distinct List.filter
                Z.of_nat Z.ltb Z.eqb]).
  all: (split; [rewrite length_app; cbn; lia|]).
  all: rewrite !lookup_alter_eq, Hj; cbn.
  all: eexists; (split; [reflexivity|]); split; [reflexivity | tauto].
Qed.

(** C3, at the input where the code departs from the claim: the session
    has expired, so the login check of [commentWorker.js] throws after the
    browser was launched; the handler rethrows and [browser.close] was
    never called.  [processJob] of [enhancedLinkedInWorker.js], given the
    same run, calls it. *)
Theorem commentWorker_leaks_browser_on_failure :
  let w0 := Examples.world (Examples.job waiting None None) [] [] in
  let run := CommentWorker.handler Examples.expiredSession Examples.data w0 in
  fst run = Throw (Err "LinkedIn cookies are invalid or expired. Please update cookies.")
  /\ browserLog (snd run) = [Launched]
  /\ released (browserLog (snd run)) 0 = false
  /\ browserLog (snd (EnhancedLinkedInWorker.processJob Examples.expiredSession
                        Examples.data w0))
     = [Launched; CloseCalled].
Proof. vm_compute. repeat split. Qed.

(** [linkedPostRefinementWorker.js] assigns [cleanup] after the page is
    set up: when opening the page throws, the launched browser stays
    open. *)
Lemma linkedPostRefinementWorker_leaks_when_page_fails :
  let w0 := Examples.world (Examples.job waiting None None) [] [] in
  let run := LinkedPostRefinementWorker.handler Examples.pageCrash Examples.data w0 in
  fst run = Throw (Err "Target closed")
  /\ browserLog (snd run) = [Launched].
Proof. vm_compute. repeat split. Qed.

End StoreAndBrowserProperties.


(** * Further properties *)

(** ** The rate limiter in use *)

Section RateLimiterUse.
Import RateGovernor ActionExecutor.

Lemma refresh_inside_windows now rc :
  now < resetTime (minute rc) -> now < resetTime (hour rc) -> refresh now rc = rc.
Proof.
  intros Hm Hh. unfold refresh. destruct rc as [m h]. cbn in *.
  destruct (now >? resetTime m) eqn:E1; [lia|].
  destruct (now >? resetTime h) eqn:E2; [lia|]. reflexivity.
Qed.

(** X1: among calls of [checkRateLimit] made strictly before the reset
    time of the minute window and of the hour window, at most as many
    return 0 as the per-minute and the per-hour budget have room left:
    five per minute and fifty per hour from empty counters.  The instant
    of the reset time itself is left out: a call made then at a full
    budget returns 0 as well. *)
Theorem grants_bounded_within_windows (times : list Z) (rc : RequestCount) :
  within_caps rc ->
  Forall (fun t => t < resetTime (minute rc) /\ t < resetTime (hour rc)) times ->
  Z.of_nat (zeroWaits times rc) <= MAX_REQUESTS_PER_MINUTE - count (minute rc)
  /\ Z.of_nat (zeroWaits times rc) <= MAX_REQUESTS_PER_HOUR - count (hour rc).
Proof.
  intros Hcaps Htimes. revert rc Hcaps Htimes.
  induction times as [|now rest IH]; intros rc Hcaps Htimes.
  - cbn. unfold within_caps in Hcaps. lia.
  - inversion Htimes as [|? ? [Hm Hh] Hrest]; subst.
    cbn [zeroWaits]. unfold checkRateLimit. cbv zeta.
    rewrite (refresh_inside_windows now rc Hm Hh).
    unfold within_caps, MAX_REQUESTS_PER_MINUTE, MAX_REQUESTS_PER_HOUR in *.
    destruct (count (minute rc) >=? 5) eqn:E1; cbn [fst snd].
    + replace (resetTime (minute rc) - now =? 0) with false
        by (symmetry; apply Z.eqb_neq; lia).
      exact (IH rc Hcaps Hrest).
    + destruct (count (hour rc) >=? 50) eqn:E2; cbn [fst snd].
      * replace (resetTime (hour rc) - now =? 0) with false
          by (symmetry; apply Z.eqb_neq; lia).
        exact (IH rc Hcaps Hrest).
      * assert (Hcaps' : (0 <= count (minute rc) + 1 <= 5)
                         /\ (0 <= count (hour rc) + 1 <= 50)) by lia.
        specialize (IH {| minute := bump (minute rc); hour := bump (hour rc) |} Hcaps' Hrest).
        cbn [minute hour bump count zeroWaits] in IH.
        rewrite Z.eqb_refl. cbn [Nat.add]. rewrite Nat2Z.inj_succ.
        destruct IH as [IHm IHh]. split; lia.
Qed.

Lemma grants_bounded_within_windows_witness :
  within_caps (initial 0)
  /\ zeroWaits [10; 20; 30; 40; 50; 60; 70; 59999] (initial 0) = 5%nat
  /\ Z.of_nat (zeroWaits [10; 20; 30; 40; 50; 60; 70; 59999] (initial 0))
     <= MAX_REQUESTS_PER_MINUTE - count (minute (initial 0)).
Proof.
  assert (Hcaps : within_caps (initial 0)) by (vm_compute; intuition discriminate).
  split; [exact Hcaps|]. split; [reflexivity|].
  apply (grants_bounded_within_windows [10; 20; 30; 40; 50; 60; 70; 59999] (initial 0) Hcaps).
  repeat constructor.
Defined.

Lemma totalSleep_attempts attempt n last :
  totalSleep (attempts attempt n last)
  = 15000 * Z.of_nat n * (2 * Z.of_nat attempt + Z.of_nat n + 1).
Proof.
  revert attempt. induction n as [|n IH]; intros attempt.
  - cbn. lia.
  - unfold totalSleep in *. cbn [attempts sleeps flat_map app fold_right].
    fold (sleeps (attempts (S attempt) n last)). rewrite IH. nia.
Qed.

(** X3: the recovery of [handleRateLimitError] makes at most [maxRetries]
    reloads, and with [n] reloads it has slept [15000 * n * (n + 1)] ms in
    all: 30 s, 90 s or 180 s under the default budget of three. *)
Theorem handleRateLimitError_total_sleep (reload : nat -> bool) (message : string)
    (maxRetries : nat) :
  let evs := snd (handleRateLimitError reload message maxRetries) in
  let n := List.length (reloads evs) in
  (n <= maxRetries)%nat
  /\ totalSleep evs = 15000 * Z.of_nat n * (Z.of_nat n + 1)
  /\ totalSleep evs <= 15000 * Z.of_nat maxRetries * (Z.of_nat maxRetries + 1).
Proof.
  cbv zeta. unfold handleRateLimitError.
  destruct (isRateLimitMessage message); [|cbn; lia].
  destruct maxRetries as [|m]; [cbn; lia|].
  destruct (retryLoop_spec reload (S m) (S m) 0%nat) as (n & Hn & Htrace & _); [lia|lia|].
  rewrite Htrace, reloads_attempts, totalSleep_attempts.
  split; [lia|]. split; [lia | nia].
Qed.

(** X4: [postCommentOnPost] returns only [true], and only after the page was
    reached, the comment button clicked, the text typed and the submit
    button clicked; it then slept at most the wait of the rate limiter and
    reloaded nothing. *)
Theorem postCommentOnPost_returns_after_submit (page : Page) (now : Z)
    (rc : RequestCount) (b : bool) :
  fst (fst (postCommentOnPost page now rc)) = Return b ->
  b = true
  /\ goto page = Return tt
  /\ openEditor page = Return true
  /\ typeComment page = Return tt
  /\ submit page = Return true
  /\ reloads (snd (fst (postCommentOnPost page now rc))) = []
  /\ totalSleep (snd (fst (postCommentOnPost page now rc)))
     = Z.max 0 (fst (checkRateLimit now rc)).
Proof.
  unfold postCommentOnPost, submitComment.
  destruct (checkRateLimit now rc) as [waitTime rc'] eqn:Hcheck. cbn [fst].
  destruct (goto page) as [[]|e0];
    [destruct (openEditor page) as [[|]|e1];
     [destruct (typeComment page) as [[]|e2];
      [destruct (submit page) as [[|]|e3]|]| |]|].
  all: try (destruct (handleRateLimitError (reload page) _ 3) as [[[|]|e'] evs];
            cbn; discriminate).
  cbn [fst snd]. intros H. injection H as <-.
  destruct (waitTime >? 0) eqn:E; unfold totalSleep;
    cbn [reloads sleeps flat_map app fold_right];
    repeat split; lia.
Qed.

Lemma postCommentOnPost_returns_after_submit_witness :
  fst (fst (postCommentOnPost MoreExamples.workingPage 70000 Examples.fiveRequests))
  = Return true
  /\ goto MoreExamples.workingPage = Return tt
  /\ submit MoreExamples.workingPage = Return true.
Proof.
  assert (H : fst (fst (postCommentOnPost MoreExamples.workingPage 70000
                          Examples.fiveRequests)) = Return true) by reflexivity.
  split; [exact H|].
  destruct (postCommentOnPost_returns_after_submit MoreExamples.workingPage 70000
              Examples.fiveRequests true H) as (_ & Hgoto & _ & _ & Hsubmit & _).
  split; [exact Hgoto | exact Hsubmit].
Defined.

(** X5: when a step of [postCommentOnPost] fails with a throttling error, the
    call throws whether or not the recovery succeeds: "Rate limit
    encountered while posting comment" after a reload that worked, the
    recovery's own error after three that did not.  The comment is not
    submitted again. *)
Theorem throttled_comment_is_not_retried (page : Page) (now : Z) (rc : RequestCount)
    (error : Error) :
  submitComment page = Throw error ->
  isRateLimitMessage (message error) = true ->
  let recovered := reload page 0%nat || reload page 1%nat || reload page 2%nat in
  fst (fst (postCommentOnPost page now rc))
  = Throw (Err (if recovered
                then "Rate limit encountered while posting comment"
                else "Rate limit recovery failed after 3 attempts"))
  /\ totalSleep (snd (fst (postCommentOnPost page now rc)))
     <= Z.max 0 (fst (checkRateLimit now rc)) + 180000.
Proof.
  intros Hfail Hthrottle. cbv zeta.
  unfold postCommentOnPost, handleRateLimitError.
  destruct (checkRateLimit now rc) as [waitTime rc'] eqn:Hcheck. cbn [fst].
  rewrite Hfail, Hthrottle. cbn [retryLoop].
  assert (Hw : totalSleep (if waitTime >? 0 then [Sleep waitTime] else [])
               = Z.max 0 waitTime).
  { destruct (waitTime >? 0) eqn:E; unfold totalSleep;
      cbn [sleeps flat_map app fold_right]; lia. }
  assert (Happ : forall a b, totalSleep (a ++ b)%list = totalSleep a + totalSleep b).
  { intros a b0. unfold totalSleep, sleeps. rewrite List.flat_map_app.
    induction (flat_map _ a) as [|x xs IH]; cbn; lia. }
  destruct (reload page 0%nat); cbn [fst snd orb].
  { split; [reflexivity|]. rewrite Happ, Hw. unfold totalSleep. cbn. lia. }
  destruct (reload page 1%nat); cbn [fst snd orb Nat.eqb Nat.sub].
  { split; [reflexivity|]. rewrite Happ, Hw. unfold totalSleep. cbn. lia. }
  destruct (reload page 2%nat); cbn [fst snd orb Nat.eqb Nat.sub].
  { split; [reflexivity|]. rewrite Happ, Hw. unfold totalSleep. cbn. lia. }
  split; [reflexivity|]. rewrite Happ, Hw. unfold totalSleep. cbn. lia.
Qed.

Lemma throttled_comment_is_not_retried_witness :
  submitComment MoreExamples.throttledPage
  = Throw (Err "net::ERR_HTTP_RESPONSE_CODE_FAILURE 429")
  /\ fst (fst (postCommentOnPost MoreExamples.throttledPage 100 (initial 0)))
     = Throw (Err "Rate limit encountered while posting comment").
Proof.
  assert (H : submitComment MoreExamples.throttledPage
              = Throw (Err "net::ERR_HTTP_RESPONSE_CODE_FAILURE 429")) by reflexivity.
  split; [exact H|].
  destruct (throttled_comment_is_not_retried MoreExamples.throttledPage 100 (initial 0)
              (Err "net::ERR_HTTP_RESPONSE_CODE_FAILURE 429") H eq_refl) as [Hres _].
  exact Hres.
Defined.

End RateLimiterUse.

(** ** Credentials *)

Section CookieProperties.
Import CookieLoader.

Lemma mostRecent_from (cookies : list Cookie) (b : Cookie) :
  exists c,
    fold_left
      (fun best c =>
         match best with
         | None => Some c
         | Some b => if updatedAt c >? updatedAt b then Some c else Some b
         end)
      cookies (Some b) = Some c
    /\ (c = b \/ In c cookies)
    /\ updatedAt b <= updatedAt c
    /\ (forall c', In c' cookies -> updatedAt c' <= updatedAt c).
Proof.
  revert b. induction cookies as [|x rest IH]; intros b.
  - exists b. cbn. repeat split; [now left | lia | intros c' []].
  - cbn [fold_left]. destruct (updatedAt x >? updatedAt b) eqn:E.
    + destruct (IH x) as (c & Hc & Hin & Hge & Hmax).
      exists c. split; [exact Hc|]. split.
      * right. destruct Hin as [->|Hin]; [now left | now right].
      * split; [lia|]. intros c' [<-|Hc']; [exact Hge | now apply Hmax].
    + destruct (IH b) as (c & Hc & Hin & Hge & Hmax).
      exists c. split; [exact Hc|]. split.
      * destruct Hin as [->|Hin]; [now left | right; now right].
      * split; [exact Hge|]. intros c' [<-|Hc']; [lia | now apply Hmax].
Qed.

(** [mostRecent] picks a cookie of the list that none of the list beats. *)
Lemma mostRecent_spec (cookies : list Cookie) :
  match mostRecent cookies with
  | None => cookies = []
  | Some c => In c cookies /\ forall c', In c' cookies -> updatedAt c' <= updatedAt c
  end.
Proof.
  unfold mostRecent. destruct cookies as [|x rest]; [reflexivity|].
  cbn [fold_left]. destruct (mostRecent_from rest x) as (c & -> & Hin & Hge & Hmax).
  split.
  - destruct Hin as [->|Hin]; [now left | now right].
  - intros c' [<-|Hc']; [exact Hge | now apply Hmax].
Qed.

(** X6: [loadCookiesFromDB] answers a known user with at most one cookie.  The
    cookie it returns carries the value of a stored cookie named [li_at],
    of a LinkedIn domain and not expired, which no other such cookie of
    the user was updated after; its domain and path are rewritten.  It
    returns none exactly when the user has no such cookie. *)
Theorem loadCookiesFromDB_returns_newest (users : gmap string (list Cookie))
    (currentTime : Z) (userId : string) (cookies : list Cookie) :
  users !! userId = Some cookies ->
  let eligible c := isLiAt c && notExpired currentTime c in
  exists result,
    loadCookiesFromDB users currentTime userId = Return result
    /\ (List.length result <= 1)%nat
    /\ (result = [] <-> forall c, In c cookies -> eligible c = false)
    /\ forall pc, In pc result ->
         exists c,
           In c cookies /\ eligible c = true
           /\ pc = {| pc_name := "li_at"; pc_value := value c;
                      pc_domain := ".www.linkedin.com"; pc_path := "/";
                      pc_httpOnly := true; pc_secure := true |}
           /\ forall c', In c' cookies -> eligible c' = true ->
                         updatedAt c' <= updatedAt c.
Proof.
  intros Hu eligible. unfold loadCookiesFromDB. rewrite Hu.
  pose proof (mostRecent_spec (List.filter (notExpired currentTime)
                                 (List.filter isLiAt cookies))) as Hspec.
  assert (Hmem : forall c, In c (List.filter (notExpired currentTime)
                                   (List.filter isLiAt cookies))
                           <-> In c cookies /\ eligible c = true).
  { intros c. rewrite !List.filter_In. unfold eligible. rewrite andb_true_iff. tauto. }
  destruct (mostRecent _) as [c|].
  - destruct Hspec as [Hin Hmax]. apply Hmem in Hin. destruct Hin as [Hin Hel].
    exists [toPuppeteer c]. split; [reflexivity|]. split; [cbn; lia|]. split.
    + split; [discriminate|]. intros Hnone. rewrite (Hnone c Hin) in Hel. discriminate.
    + intros pc [<-|[]]. exists c. split; [exact Hin|]. split; [exact Hel|]. split.
      * unfold toPuppeteer. f_equal.
        unfold eligible, isLiAt in Hel. apply andb_prop in Hel. destruct Hel as [Hel _].
        apply andb_prop in Hel. destruct Hel as [Hname _].
        now apply String.eqb_eq in Hname.
      * intros c' Hin' Hel'. apply Hmax, Hmem. now split.
  - exists []. split; [reflexivity|]. split; [cbn; lia|]. split.
    + split; [|reflexivity]. intros _ c Hin.
      destruct (eligible c) eqn:Hel; [|reflexivity].
      assert (Hc : In c []) by (rewrite <- Hspec; apply Hmem; now split).
      destruct Hc.
    + intros pc [].
Qed.

Lemma loadCookiesFromDB_returns_newest_witness :
  MoreExamples.users !! Workers.userId Examples.data = Some MoreExamples.cookies
  /\ loadCookiesFromDB MoreExamples.users 1000 (Workers.userId Examples.data)
     = Return [ {| pc_name := "li_at"; pc_value := "value-phone";
                   pc_domain := ".www.linkedin.com"; pc_path := "/";
                   pc_httpOnly := true; pc_secure := true |} ]
  /\ exists result,
       loadCookiesFromDB MoreExamples.users 1000 (Workers.userId Examples.data)
       = Return result
       /\ (List.length result <= 1)%nat.
Proof.
  assert (Hu : MoreExamples.users !! Workers.userId Examples.data
               = Some MoreExamples.cookies) by (vm_compute; reflexivity).
  split; [exact Hu|]. split; [vm_compute; reflexivity|].
  destruct (loadCookiesFromDB_returns_newest MoreExamples.users 1000
              (Workers.userId Examples.data) MoreExamples.cookies Hu)
    as (result & Hload & Hlen & _).
  exists result. split; [exact Hload | exact Hlen].
Defined.

(** X7: [hasValidLinkedInCookies] is [true] exactly for a known user with a
    cookie named [li_at], of a LinkedIn domain, that has not expired; for
    an unknown user it is [false]. *)
Theorem hasValidLinkedInCookies_iff (users : gmap string (list Cookie))
    (currentTime : Z) (userId : string) :
  hasValidLinkedInCookies users currentTime userId = true
  <-> exists cookies c,
        users !! userId = Some cookies /\ In c cookies
        /\ isLiAt c = true /\ notExpired currentTime c = true.
Proof.
  unfold hasValidLinkedInCookies, loadCookiesFromDB.
  destruct (users !! userId) as [cookies|] eqn:Hu.
  - pose proof (mostRecent_spec (List.filter (notExpired currentTime)
                                   (List.filter isLiAt cookies))) as Hspec.
    destruct (mostRecent _) as [c|].
    + split; [|reflexivity]. intros _. destruct Hspec as [Hin _].
      rewrite !List.filter_In in Hin. exists cookies, c. tauto.
    + split; [discriminate|]. intros (cookies' & c & Heq & Hin & Hli & Hne).
      injection Heq as <-.
      assert (Hc : In c []).
      { rewrite <- Hspec. rewrite !List.filter_In. tauto. }
      destruct Hc.
  - split; [discriminate|]. intros (cookies & c & Heq & _). discriminate.
Qed.

(** X8: without a device, [loadCookiesFromDBByDevice] is [loadCookiesFromDB];
    with one, the cookie it returns is stored for that device. *)
Theorem loadCookiesFromDBByDevice_scopes (users : gmap string (list Cookie))
    (currentTime : Z) (userId : string) :
  loadCookiesFromDBByDevice users currentTime userId None
  = loadCookiesFromDB users currentTime userId
  /\ forall dev pc result,
       dev <> EmptyString ->
       loadCookiesFromDBByDevice users currentTime userId (Some dev) = Return result ->
       In pc result ->
       exists cookies c,
         users !! userId = Some cookies /\ In c cookies
         /\ deviceId c = dev /\ isLiAt c = true /\ notExpired currentTime c = true
         /\ pc = toPuppeteer c.
Proof.
  split; [reflexivity|].
  intros dev pc result Hdev. unfold loadCookiesFromDBByDevice.
  destruct (users !! userId) as [cookies|]; [|discriminate].
  destruct dev as [|a dev']; [contradiction|].
  pose proof (mostRecent_spec
                (List.filter (notExpired currentTime)
                   (List.filter (fun c => String.eqb (deviceId c) (String a dev'))
                      (List.filter isLiAt cookies)))) as Hspec.
  destruct (mostRecent _) as [c|]; intros Hres Hin; injection Hres as <-; [|destruct Hin].
  destruct Hin as [<-|[]]. destruct Hspec as [Hc _].
  rewrite !List.filter_In in Hc. destruct Hc as [[[Hc Hli] Hd] Hne].
  exists cookies, c. apply String.eqb_eq in Hd. tauto.
Qed.

Lemma loadCookiesFromDBByDevice_scopes_witness :
  loadCookiesFromDBByDevice MoreExamples.users 1000 (Workers.userId Examples.data)
    (Some "laptop")
  = Return [ {| pc_name := "li_at"; pc_value := "value-laptop";
                pc_domain := ".www.linkedin.com"; pc_path := "/";
                pc_httpOnly := true; pc_secure := true |} ]
  /\ exists cookies c,
       MoreExamples.users !! Workers.userId Examples.data = Some cookies
       /\ In c cookies /\ deviceId c = "laptop".
Proof.
  assert (Hload : loadCookiesFromDBByDevice MoreExamples.users 1000
                    (Workers.userId Examples.data) (Some "laptop")
                  = Return [ {| pc_name := "li_at"; pc_value := "value-laptop";
                                pc_domain := ".www.linkedin.com"; pc_path := "/";
                                pc_httpOnly := true; pc_secure := true |} ])
    by (vm_compute; reflexivity).
  split; [exact Hload|].
  destruct (proj2 (loadCookiesFromDBByDevice_scopes MoreExamples.users 1000
                     (Workers.userId Examples.data))
              "laptop" _ _ ltac:(discriminate) Hload (or_introl eq_refl))
    as (cookies & c & Hu & Hin & Hdev & _).
  exists cookies, c. split; [exact Hu|]. split; [exact Hin | exact Hdev].
Defined.

(** X9: when [hasValidLinkedInCookies] answers [true], [loadLinkedInCookies]
    at the same time returns a list in which [commentWorker.js] finds the
    [li_at] cookie it looks for. *)
Theorem valid_cookies_include_li_at (users : gmap string (list Cookie))
    (currentTime : Z) (userId : string) :
  hasValidLinkedInCookies users currentTime userId = true ->
  exists cookies pc,
    loadLinkedInCookies users currentTime userId = Return cookies
    /\ findLiAt cookies = Some pc
    /\ pc_domain pc = ".www.linkedin.com".
Proof.
  unfold hasValidLinkedInCookies, loadLinkedInCookies, loadCookiesFromDB.
  destruct (users !! userId) as [cookies|]; [|discriminate].
  pose proof (mostRecent_spec (List.filter (notExpired currentTime)
                                 (List.filter isLiAt cookies))) as Hspec.
  destruct (mostRecent _) as [c|]; [|discriminate]. intros _.
  destruct Hspec as [Hin _]. rewrite !List.filter_In in Hin.
  destruct Hin as [[_ Hli] _]. unfold isLiAt in Hli. apply andb_prop in Hli.
  destruct Hli as [Hname _].
  exists [toPuppeteer c], (toPuppeteer c). split; [reflexivity|].
  split; [|reflexivity]. unfold findLiAt. cbn. now rewrite Hname.
Qed.

Lemma valid_cookies_include_li_at_witness :
  hasValidLinkedInCookies MoreExamples.users 1000 (Workers.userId Examples.data) = true
  /\ hasValidLinkedInCookies MoreExamples.users 1000 "unknown" = false
  /\ exists cookies pc,
       loadLinkedInCookies MoreExamples.users 1000 (Workers.userId Examples.data)
       = Return cookies
       /\ findLiAt cookies = Some pc.
Proof.
  assert (H : hasValidLinkedInCookies MoreExamples.users 1000
                (Workers.userId Examples.data) = true) by (vm_compute; reflexivity).
  split; [exact H|]. split; [vm_compute; reflexivity|].
  destruct (valid_cookies_include_li_at MoreExamples.users 1000
              (Workers.userId Examples.data) H) as (cookies & pc & Hload & Hfind & _).
  exists cookies, pc. split; [exact Hload | exact Hfind].
Defined.

End CookieProperties.

(** ** The other filters *)

Section RankingProperties.
Import PostFilters PostRanking.

Lemma append_cons (c : ascii) (a b : string) :
  (String c a ++ b)%string = String c (a ++ b).
Proof. reflexivity. Qed.

Lemma toLowerCase_app (a b : string) :
  toLowerCase (a ++ b) = (toLowerCase a ++ toLowerCase b)%string.
Proof.
  induction a as [|c a IH]; [reflexivity|].
  rewrite append_cons. cbn [toLowerCase]. now rewrite append_cons, IH.
Qed.

Lemma prefix_app (w b : string) : String.prefix w (w ++ b) = true.
Proof.
  induction w as [|c w IH]; [now destruct b|].
  rewrite append_cons. cbn [String.prefix].
  destruct (Ascii.ascii_dec c c); [exact IH | contradiction].
Qed.

Lemma includes_eq (needle hay : string) :
  includes needle hay
  = String.prefix needle hay
    || match hay with
       | EmptyString => false
       | String _ rest => includes needle rest
       end.
Proof. now destruct hay. Qed.

Lemma includes_app (w a b : string) : includes w (a ++ w ++ b) = true.
Proof.
  induction a as [|c a IH].
  - change ("" ++ w ++ b)%string with (w ++ b)%string.
    rewrite includes_eq, prefix_app. reflexivity.
  - rewrite append_cons, includes_eq, IH. apply orb_true_r.
Qed.

(** X10: a text that contains a stop word, in any capitalisation and
    anywhere, also inside a longer word, is excluded. *)
Theorem isExcludedPost_any_case (word s before after : string) :
  In word STOP_WORDS ->
  toLowerCase s = word ->
  isExcludedPost (before ++ s ++ after) = true.
Proof.
  intros Hin Hs. unfold isExcludedPost. apply existsb_exists.
  exists word. split; [exact Hin|].
  rewrite !toLowerCase_app, Hs. apply includes_app.
Qed.

Lemma isExcludedPost_any_case_witness :
  In "hiring" STOP_WORDS
  /\ toLowerCase "HIRING" = "hiring"
  /\ isExcludedPost ("We are " ++ "HIRING" ++ " engineers") = true.
Proof.
  assert (Hin : In "hiring" STOP_WORDS) by (now left).
  assert (Hs : toLowerCase "HIRING" = "hiring") by reflexivity.
  split; [exact Hin|]. split; [exact Hs|].
  exact (isExcludedPost_any_case "hiring" "HIRING" "We are " " engineers" Hin Hs).
Defined.

(** What a post needs to pass the filters of [filterAndRankPosts], given
    the cut-off time of the age filter. *)
Lemma filterAndRankPostsList_spec cutoffDate l options out :
  filterAndRankPostsList cutoffDate l options = Return out ->
  out = sort rankScore
          (List.filter
             (fun p =>
                (reactions p >=? default 5 (ro_minReactions options))
                && match content p with
                   | Some c =>
                       negb (isExcludedPost c)
                       && (50 <=? Z.of_nat (String.length c))
                       && (default 50 (ro_minContentLength options)
                           <=? Z.of_nat (String.length c))
                   | None => false
                   end
                && (if default 30 (ro_maxAgeDays options) =? 0 then true
                    else match timestamp p with
                         | None => true
                         | Some t =>
                             (t =? 0)
                             || (cutoffDate (default 30 (ro_maxAgeDays options)) <=? t)
                         end))
             l).
Proof.
  unfold filterAndRankPostsList, filterByContentQuality, filterByEngagement.
  destruct (filterOutcome goodQuality _) as [good|e] eqn:Hgood; [|discriminate].
  destruct (filterOutcome (hasLength _) good) as [long|e] eqn:Hlong; [|discriminate].
  intros H. injection H as <-.
  apply filterOutcome_Return in Hgood, Hlong. subst long good.
  unfold PostRanking.minReactionsOf, minContentLengthOf, maxAgeDaysOf. f_equal.
  destruct (default 30 (ro_maxAgeDays options) =? 0).
  all: rewrite !filter_filter_andb; apply List.filter_ext; intros p;
    unfold goodQuality, hasLength, withinAge.
  all: destruct (reactions p >=? default 5 (ro_minReactions options));
    destruct (content p) as [c|]; cbn [andb negb]; try reflexivity.
  all: destruct (isExcludedPost c); cbn [andb negb]; try reflexivity.
  all: destruct (Z.of_nat (String.length c) <? 50) eqn:E1;
    destruct (50 <=? Z.of_nat (String.length c)) eqn:E2;
    destruct (Z.of_nat (String.length c) >=? default 50 (ro_minContentLength options))
      eqn:E3;
    destruct (default 50 (ro_minContentLength options) <=? Z.of_nat (String.length c))
      eqn:E4;
    cbn [andb negb]; try reflexivity; try lia.
  destruct (timestamp p) as [t|]; [|reflexivity].
  destruct (t =? 0); cbn [orb]; [reflexivity|].
  destruct (t >=? cutoffDate (default 30 (ro_maxAgeDays options))) eqn:E5;
    destruct (cutoffDate (default 30 (ro_maxAgeDays options)) <=? t) eqn:E6;
    try reflexivity; lia.
Qed.

Lemma goodQuality_kept engaged good :
  filterOutcome goodQuality engaged = Return good ->
  Forall (fun p => exists c, content p = Some c /\ 50 <= Z.of_nat (String.length c)) good.
Proof.
  intros H. apply filterOutcome_Return in H. subst good.
  eapply List.Forall_impl; [|apply filter_Forall]. cbn. intros p Hp.
  unfold goodQuality in Hp. destruct (content p) as [c|]; [|discriminate].
  exists c. split; [reflexivity|].
  destruct (isExcludedPost c); [discriminate|].
  destruct (Z.of_nat (String.length c) <? 50) eqn:E; [discriminate | lia].
Qed.

Lemma filterAndRankPostsList_returns cutoffDate l options :
  Forall (fun p => PostRanking.minReactionsOf options <= reactions p -> content p <> None) l ->
  returned (filterAndRankPostsList cutoffDate l options) = true.
Proof.
  intros Hl. unfold filterAndRankPostsList, filterByContentQuality, filterByEngagement.
  destruct (filterOutcome goodQuality _) as [good|e] eqn:Hgood.
  - pose proof (goodQuality_kept _ _ Hgood) as Hkept.
    assert (H : returned (filterOutcome (hasLength (minContentLengthOf options)) good) = true).
    { apply filterOutcome_returns. eapply List.Forall_impl; [|exact Hkept].
      cbn. intros p (c & Hc & _). unfold hasLength. now rewrite Hc. }
    destruct (filterOutcome (hasLength _) good); [reflexivity | discriminate].
  - assert (H : returned (filterOutcome goodQuality
                 (List.filter (fun p => reactions p >=? PostRanking.minReactionsOf options) l))
                = true).
    { apply filterOutcome_returns, List.Forall_forall. intros p Hin.
      apply List.filter_In in Hin. destruct Hin as [Hin Hr].
      rewrite List.Forall_forall in Hl. specialize (Hl p Hin).
      unfold goodQuality. destruct (content p); [reflexivity|].
      exfalso. apply Hl; [lia | reflexivity]. }
    rewrite Hgood in H. discriminate.
Qed.

Lemma filterAndRankPosts_store cutoffDate (h : gmap nat (list Post)) posts options l :
  h !! posts = Some l ->
  (forall p x, h !! p = Some x ->
               snd (filterAndRankPosts cutoffDate posts options h) !! p = Some x)
  /\ match filterAndRankPostsList cutoffDate l options with
     | Return ranked =>
         exists out, fst (filterAndRankPosts cutoffDate posts options h) = Return out
                     /\ snd (filterAndRankPosts cutoffDate posts options h) !! out
                        = Some ranked
                     /\ h !! out = None
     | Throw e => fst (filterAndRankPosts cutoffDate posts options h) = Throw e
     end.
Proof.
  intros Hl. unfold filterAndRankPosts, filterAndRankPostsList. rewrite Hl.
  destruct (alloc l h) as [r0 h0] eqn:E0.
  apply alloc_spec in E0. destruct E0 as (_ & _ & Hext0).
  destruct (alloc (filterByEngagement l _) h0) as [r1 h1] eqn:E1.
  apply alloc_spec in E1. destruct E1 as (_ & _ & Hext1).
  assert (Hext01 : forall p x, h !! p = Some x -> h1 !! p = Some x) by auto.
  destruct (filterByContentQuality _) as [good|e];
    [|cbn [fst snd]; split; [exact Hext01 | reflexivity]].
  destruct (alloc good h1) as [r2 h2] eqn:E2.
  apply alloc_spec in E2. destruct E2 as (_ & _ & Hext2).
  assert (Hext02 : forall p x, h !! p = Some x -> h2 !! p = Some x) by auto.
  destruct (filterOutcome (hasLength _) good) as [long|e];
    [|cbn [fst snd]; split; [exact Hext02 | reflexivity]].
  destruct (alloc long h2) as [r3 h3] eqn:E3.
  apply alloc_spec in E3. destruct E3 as (Hat3 & Hnew3 & Hext3).
  assert (Hext03 : forall p x, h !! p = Some x -> h3 !! p = Some x) by auto.
  assert (Hfresh3 : h !! r3 = None).
  { destruct (h !! r3) eqn:Hr3; [|reflexivity]. apply Hext02 in Hr3. congruence. }
  destruct (maxAgeDaysOf options =? 0).
  - unfold rankPosts. rewrite Hat3. cbn [fst snd]. split.
    + intros p x Hp. rewrite lookup_insert_ne; [auto|]. congruence.
    + exists r3. split; [reflexivity|]. split; [apply lookup_insert_eq | exact Hfresh3].
  - destruct (alloc (List.filter _ long) h3) as [r4 h4] eqn:E4.
    apply alloc_spec in E4. destruct E4 as (Hat4 & Hnew4 & Hext4).
    assert (Hfresh4 : h !! r4 = None).
    { destruct (h !! r4) eqn:Hr4; [|reflexivity]. apply Hext03 in Hr4. congruence. }
    unfold rankPosts. rewrite Hat4. cbn [fst snd]. split.
    + intros p x Hp. rewrite lookup_insert_ne; [auto|]. congruence.
    + exists r4. split; [reflexivity|]. split; [apply lookup_insert_eq | exact Hfresh4].
Qed.

(** X11: [filterAndRankPosts] leaves the array it is given and every
    other array as it was, although it ends in [rankPosts], which sorts in
    place: what is sorted is an array of its own.  It returns when every
    post with enough reactions has a [content], and the array it returns
    is new and holds the posts that pass the filters: enough reactions
    (5 by default), a content of 50 characters or more, and of
    [minContentLength] or more, with no stop word, and, unless
    [maxAgeDays] is 0, no timestamp before the cut-off ([maxAgeDays] days
    back, 30 by default).  They come in their one stable descending
    ranking by reactions plus comments. *)
Theorem filterAndRankPosts_ranks_a_copy
    (cutoffDate : Z -> Z) (h : gmap nat (list Post)) (posts : nat)
    (options : RankOptions) (l : list Post) :
  h !! posts = Some l ->
  let run := filterAndRankPosts cutoffDate posts options h in
  let days := default 30 (ro_maxAgeDays options) in
  let passing :=
    List.filter
      (fun p =>
         (reactions p >=? default 5 (ro_minReactions options))
         && match content p with
            | Some c =>
                negb (isExcludedPost c)
                && (50 <=? Z.of_nat (String.length c))
                && (default 50 (ro_minContentLength options) <=? Z.of_nat (String.length c))
            | None => false
            end
         && (if days =? 0 then true
             else match timestamp p with
                  | None => true
                  | Some t => (t =? 0) || (cutoffDate days <=? t)
                  end))
      l in
  let engagement := fun p : Post => reactions p + comments p in
  (forall p x, h !! p = Some x -> snd run !! p = Some x)
  /\ (Forall (fun p => default 5 (ro_minReactions options) <= reactions p
                       -> content p <> None) l ->
      returned (fst run) = true)
  /\ (forall out,
        fst run = Return out ->
        h !! out = None
        /\ exists ranked,
             snd run !! out = Some ranked
             /\ stable_ranking engagement passing ranked
             /\ (forall ranked', stable_ranking engagement passing ranked' ->
                                 ranked' = ranked)
             /\ Permutation ranked passing).
Proof.
  intros Hl run days passing engagement. subst run.
  destruct (filterAndRankPosts_store cutoffDate h posts options l Hl) as [Hkeep Hres].
  split; [exact Hkeep|]. split.
  - intros Hc. apply (filterAndRankPostsList_returns cutoffDate l options) in Hc.
    destruct (filterAndRankPostsList cutoffDate l options) as [ranked|e]; [|discriminate].
    destruct Hres as (out & -> & _). reflexivity.
  - intros out Hout.
    destruct (filterAndRankPostsList cutoffDate l options) as [ranked|e] eqn:Hlist;
      [|rewrite Hres in Hout; discriminate].
    destruct Hres as (out' & Hout' & Hlook & Hfresh).
    rewrite Hout' in Hout. injection Hout as ->.
    split; [exact Hfresh|]. exists ranked. split; [exact Hlook|].
    apply filterAndRankPostsList_spec in Hlist. fold days in Hlist. fold passing in Hlist.
    rewrite (sort_ext rankScore engagement) in Hlist by reflexivity. subst ranked.
    split; [apply sort_is_stable_ranking|].
    split; [intros r Hr; now apply stable_ranking_unique | apply sort_perm].
Qed.

Lemma filterAndRankPosts_ranks_a_copy_witness :
  let cutoffDate := fun days => 2000000000000 - days * 86400000 in
  let h : gmap nat (list Post) := {[ 0%nat := MoreExamples.dated ]} in
  h !! 0%nat = Some MoreExamples.dated
  /\ fst (filterAndRankPosts cutoffDate 0%nat MoreExamples.rankDefaults h) = Return 5%nat
  /\ snd (filterAndRankPosts cutoffDate 0%nat MoreExamples.rankDefaults h) !! 5%nat
     = Some [MoreExamples.undated; MoreExamples.recent]
  /\ snd (filterAndRankPosts cutoffDate 0%nat MoreExamples.rankDefaults h) !! 0%nat
     = Some MoreExamples.dated.
Proof.
  intros cutoffDate h.
  assert (Hl : h !! 0%nat = Some MoreExamples.dated) by reflexivity.
  split; [exact Hl|]. split; [vm_compute; reflexivity|].
  split; [vm_compute; reflexivity|].
  destruct (filterAndRankPosts_ranks_a_copy cutoffDate h 0%nat
              MoreExamples.rankDefaults MoreExamples.dated Hl) as (Hkeep & _).
  exact (Hkeep 0%nat MoreExamples.dated Hl).
Defined.

(** X12: the option [minContentLength] can raise the length a post must
    have but not lower it: [filterByContentQuality] has dropped the posts
    under 50 characters before the option is read, so any value up to 50
    gives the result of the default. *)
Theorem minContentLength_has_a_floor (cutoffDate : Z -> Z) (l : list Post)
    (options : RankOptions) (m : Z) :
  ro_minContentLength options = Some m ->
  m <= 50 ->
  filterAndRankPostsList cutoffDate l options
  = filterAndRankPostsList cutoffDate l
      {| ro_minReactions := ro_minReactions options;
         ro_minContentLength := None;
         ro_maxAgeDays := ro_maxAgeDays options |}.
Proof.
  intros Hm Hle. unfold filterAndRankPostsList, filterByContentQuality.
  unfold PostRanking.minReactionsOf, minContentLengthOf, maxAgeDaysOf.
  cbn [ro_minReactions ro_minContentLength ro_maxAgeDays]. rewrite Hm. cbn [default].
  destruct (filterOutcome goodQuality _) as [good|e] eqn:Hgood; [|reflexivity].
  pose proof (goodQuality_kept _ _ Hgood) as Hkept.
  rewrite !filterOutcome_all; [reflexivity | |].
  all: eapply List.Forall_impl; [|exact Hkept]; cbn; intros p (c & Hc & Hlen);
    unfold hasLength; rewrite Hc; f_equal; lia.
Qed.

Lemma minContentLength_has_a_floor_witness :
  filterAndRankPostsList (fun days => 2000000000000 - days * 86400000)
    MoreExamples.articles
    {| ro_minReactions := None; ro_minContentLength := Some 10; ro_maxAgeDays := None |}
  = filterAndRankPostsList (fun days => 2000000000000 - days * 86400000)
      MoreExamples.articles MoreExamples.rankDefaults.
Proof.
  apply (minContentLength_has_a_floor (fun days => 2000000000000 - days * 86400000)
           MoreExamples.articles
           {| ro_minReactions := None; ro_minContentLength := Some 10;
              ro_maxAgeDays := None |} 10); [reflexivity | lia].
Defined.

(** X13: [getPostEngagementScore] separates the two engagement classes:
    a post of low engagement scores at most 13, a post of high
    engagement with counts that are not negative scores at least 22, and
    no post is in both classes. *)
Theorem engagement_classes_are_apart (p : Post) :
  (hasLowEngagement p = true -> getPostEngagementScore p <= 13)
  /\ (hasHighEngagement p = true -> 0 <= reactions p -> 0 <= comments p ->
      22 <= getPostEngagementScore p)
  /\ (hasHighEngagement p && hasLowEngagement p = false).
Proof.
  unfold hasLowEngagement, hasHighEngagement, getPostEngagementScore.
  destruct (reactions p >? 50) eqn:E1, (comments p >? 10) eqn:E2,
           (reactions p <? 10) eqn:E3, (comments p <? 3) eqn:E4;
    cbn; repeat split; intros; try discriminate; lia.
Qed.

Lemma engagement_classes_are_apart_witness :
  hasHighEngagement Examples.agents = true
  /\ 22 <= getPostEngagementScore Examples.agents
  /\ hasLowEngagement Examples.quiet = true
  /\ getPostEngagementScore Examples.quiet <= 13.
Proof.
  destruct (engagement_classes_are_apart Examples.agents) as (_ & Hhigh & _).
  destruct (engagement_classes_are_apart Examples.quiet) as (Hlow & _ & _).
  split; [reflexivity|]. split; [apply Hhigh; [reflexivity | cbn; lia | cbn; lia]|].
  split; [reflexivity | apply Hlow; reflexivity].
Defined.

End RankingProperties.

(** ** The AI configuration *)

Section AIConfigProperties.
Import AIConfig.

Lemma updateAll_field {V} (get : Config -> V) (given : Update -> option V) :
  (forall u c, get (updateAIConfig u c) = default (get c) (given u)) ->
  forall updates cfg,
    (Forall (fun u => given u = None) updates ->
     get (updateAll updates cfg) = get cfg)
    /\ (forall before u after v,
          updates = (before ++ u :: after)%list ->
          given u = Some v ->
          Forall (fun u' => given u' = None) after ->
          get (updateAll updates cfg) = v).
Proof.
  intros Hget.
  assert (Hnone : forall updates cfg,
            Forall (fun u => given u = None) updates ->
            get (updateAll updates cfg) = get cfg).
  { induction updates as [|u rest IH]; intros cfg Hall; [reflexivity|].
    inversion Hall as [|? ? Hu Hrest]; subst. cbn.
    fold (updateAll rest (updateAIConfig u cfg)).
    rewrite (IH _ Hrest), Hget, Hu. reflexivity. }
  intros updates cfg. split; [apply Hnone|].
  intros before u after v -> Hu Hafter. unfold updateAll.
  rewrite List.fold_left_app. cbn [fold_left].
  fold (updateAll before cfg).
  fold (updateAll after (updateAIConfig u (updateAll before cfg))).
  rewrite (Hnone _ _ Hafter), Hget, Hu. reflexivity.
Qed.

(** X14: calls of [updateAIConfig] accumulate: after any sequence of
    calls, the tone and the word limit of [AI_CONFIG], and the emoji and
    hashtag switches, are each what the last call that gave the field a
    defined value set, and what they were before when no call did; a call
    made twice in a row changes nothing the second time. *)
Theorem updateAIConfig_accumulates (updates : list Update) (cfg : Config) :
  let final := updateAll updates cfg in
  (forall before u after,
      updates = (before ++ u :: after)%list ->
      (forall v, u_messageTone u = Some v ->
                 Forall (fun u' => u_messageTone u' = None) after ->
                 messageTone final = v)
      /\ (forall v, u_maxLength u = Some v ->
                    Forall (fun u' => u_maxLength u' = None) after ->
                    maxLength final = v)
      /\ (forall v, u_wantEmoji u = Some v ->
                    Forall (fun u' => u_wantEmoji u' = None) after ->
                    wantEmoji final = v)
      /\ (forall v, u_wantHashtags u = Some v ->
                    Forall (fun u' => u_wantHashtags u' = None) after ->
                    wantHashtags final = v))
  /\ (Forall (fun u => u_messageTone u = None) updates ->
      messageTone final = messageTone cfg)
  /\ (Forall (fun u => u_maxLength u = None) updates -> maxLength final = maxLength cfg)
  /\ (Forall (fun u => u_wantEmoji u = None) updates -> wantEmoji final = wantEmoji cfg)
  /\ (Forall (fun u => u_wantHashtags u = None) updates ->
      wantHashtags final = wantHashtags cfg)
  /\ (forall u, updateAIConfig u (updateAIConfig u cfg) = updateAIConfig u cfg).
Proof.
  intros final. subst final.
  pose proof (updateAll_field messageTone u_messageTone (fun u c => eq_refl) updates cfg)
    as [Htone0 Htone].
  pose proof (updateAll_field maxLength u_maxLength (fun u c => eq_refl) updates cfg)
    as [Hlen0 Hlen].
  pose proof (updateAll_field wantEmoji u_wantEmoji (fun u c => eq_refl) updates cfg)
    as [Hemoji0 Hemoji].
  pose proof (updateAll_field wantHashtags u_wantHashtags (fun u c => eq_refl) updates cfg)
    as [Htags0 Htags].
  split.
  { intros before u after Hsplit.
    split; [intros v Hv Ha; exact (Htone before u after v Hsplit Hv Ha)|].
    split; [intros v Hv Ha; exact (Hlen before u after v Hsplit Hv Ha)|].
    split; [intros v Hv Ha; exact (Hemoji before u after v Hsplit Hv Ha)
           |intros v Hv Ha; exact (Htags before u after v Hsplit Hv Ha)]. }
  split; [exact Htone0|]. split; [exact Hlen0|]. split; [exact Hemoji0|].
  split; [exact Htags0|].
  intros u. unfold updateAIConfig. cbn.
  destruct (u_wantEmoji u), (u_wantHashtags u), (u_messageTone u), (u_maxLength u);
    reflexivity.
Qed.

Lemma updateAIConfig_accumulates_witness :
  let casual := {| u_wantEmoji := None; u_wantHashtags := None;
                   u_messageTone := Some "casual"; u_maxLength := None |} in
  let emoji := {| u_wantEmoji := Some true; u_wantHashtags := None;
                  u_messageTone := None; u_maxLength := None |} in
  messageTone (updateAll [casual; emoji] initial) = "casual"
  /\ maxLength (updateAll [casual; emoji] initial) = 25
  /\ instructions (updateAll [casual; emoji] initial)
     = [ "Include 1-2 relevant emojis"; "Do not include hashtags";
         "Use a casual tone"; "Keep the comment to maximum 25 words" ].
Proof.
  intros casual emoji.
  destruct (updateAIConfig_accumulates [casual; emoji] initial)
    as (Hlast & _ & Hlength & _).
  split.
  - destruct (Hlast [] casual [emoji] eq_refl) as (Htone & _).
    apply Htone; [reflexivity | repeat constructor].
  - split; [apply Hlength; repeat constructor | vm_compute; reflexivity].
Defined.

End AIConfigProperties.

(** ** The route that starts a job *)

Section RouteProperties.
Import PostFilters Workers CommentQueue.

Lemma Qltb_spec (x y : Q) : if Qltb x y then (x < y)%Q else (y <= x)%Q.
Proof.
  unfold Qltb. destruct (Qle_bool y x) eqn:E; cbn.
  - now apply Qle_bool_iff.
  - apply Qnot_le_lt. intros H. apply Qle_bool_iff in H. congruence.
Qed.

(** X15: [POST /start-comment-job] answers 400 exactly when the user has
    no valid cookie, the keywords are missing or empty, or [maxComments]
    (5 when absent) is outside 1..20; a request answered with 400 creates
    no job and queues nothing. *)
Theorem rejected_request_changes_nothing (hasCookies : bool) (newId : string)
    (enqueue : Outcome unit) (req : StartRequest) (b : Backend) :
  (httpStatus (fst (startCommentJob hasCookies newId enqueue req b)) = 400
   <-> hasCookies = false
       \/ req_keywords req = None
       \/ req_keywords req = Some []
       \/ (default 5 (req_maxComments req) < 1)%Q
       \/ (20 < default 5 (req_maxComments req))%Q)
  /\ (httpStatus (fst (startCommentJob hasCookies newId enqueue req b)) = 400 ->
      snd (startCommentJob hasCookies newId enqueue req b) = b).
Proof.
  unfold startCommentJob.
  destruct hasCookies; cbn [negb];
    [|split; [split; [intros _; now left | reflexivity] | reflexivity]].
  destruct (req_keywords req) as [[|k ks]|];
    [split; [split; [intros _; right; right; now left | reflexivity] | reflexivity]
    | | split; [split; [intros _; right; now left | reflexivity] | reflexivity]].
  pose proof (Qltb_spec (default 5%Q (req_maxComments req)) 1) as Hlow.
  pose proof (Qltb_spec 20 (default 5%Q (req_maxComments req))) as Hhigh.
  destruct (Qltb (default 5%Q (req_maxComments req)) 1) eqn:E1;
    [split; [split; [intros _; right; right; right; left; exact Hlow | reflexivity]
            | reflexivity]|].
  destruct (Qltb 20 (default 5%Q (req_maxComments req))) eqn:E2; cbn [orb];
    [split; [split; [intros _; right; right; right; right; exact Hhigh | reflexivity]
            | reflexivity]|].
  assert (Hno : ~ (true = false \/ Some (k :: ks) = None \/ Some (k :: ks) = Some []
                   \/ (default 5 (req_maxComments req) < 1)%Q
                   \/ (20 < default 5 (req_maxComments req))%Q)).
  { intros [H|[H|[H|[H|H]]]]; try discriminate; lra. }
  destruct (validTone _); cbn [negb];
    [destruct enqueue|]; cbn [fst snd httpStatus];
    (split; [split; [discriminate | intros H; now apply Hno in H] | discriminate]).
Qed.

(** X16: a request answered with 201 came from a user with a valid
    cookie, with keywords and with [maxComments] within 1..20; it has
    created one job document, in the status [waiting] at the step
    [Queued], and touched no other; and the job data is in the queue
    with the same keywords and count: appended at the end, unless the
    queue already held a job of that id. *)
Theorem accepted_request_is_queued (hasCookies : bool) (newId : string)
    (enqueue : Outcome unit) (req : StartRequest) (b : Backend) :
  httpStatus (fst (startCommentJob hasCookies newId enqueue req b)) = 201 ->
  let b' := snd (startCommentJob hasCookies newId enqueue req b) in
  hasCookies = true
  /\ exists kws data job,
       req_keywords req = Some kws /\ kws <> []
       /\ data = {| jobId := newId; userId := req_userId req; keywords := kws;
                    maxComments := default 5%Q (req_maxComments req);
                    options := default emptyOptions (req_options req) |}
       /\ (1 <= maxComments data <= 20)%Q
       /\ jobDocs b' !! newId = Some job
       /\ status job = waiting
       /\ progress job = {| currentStep := Some "Queued"; stepProgress := Some 0 |}
       /\ (forall id, id <> newId -> jobDocs b' !! id = jobDocs b !! id)
       /\ (Forall (fun q => jobId q <> newId) (queued b) ->
           queued b' = (queued b ++ [data])%list)
       /\ (Exists (fun q => jobId q = newId) (queued b) -> queued b' = queued b).
Proof.
  unfold startCommentJob.
  destruct hasCookies; cbn [negb]; [|discriminate].
  destruct (req_keywords req) as [[|k ks]|]; [discriminate| |discriminate].
  pose proof (Qltb_spec (default 5%Q (req_maxComments req)) 1) as Hlow.
  pose proof (Qltb_spec 20 (default 5%Q (req_maxComments req))) as Hhigh.
  destruct (Qltb (default 5%Q (req_maxComments req)) 1) eqn:E1; [discriminate|].
  destruct (Qltb 20 (default 5%Q (req_maxComments req))) eqn:E2; cbn [orb];
    [discriminate|].
  destruct (validTone _); cbn [negb]; [|discriminate].
  destruct enqueue as [[]|e]; cbn [fst snd httpStatus jobDocs queued]; [|discriminate].
  intros _. split; [reflexivity|].
  eexists; eexists; exists (setStep "Queued" 0 newJob).
  split; [reflexivity|]. split; [discriminate|]. split; [reflexivity|].
  split; [cbn [maxComments]; split; assumption|].
  split; [now rewrite lookup_alter_eq, lookup_insert_eq|].
  split; [reflexivity|]. split; [reflexivity|].
  split; [intros id Hid; rewrite lookup_alter_ne, lookup_insert_ne; congruence|].
  unfold addCommentJob. cbn [jobId]. split.
  - intros Hall.
    assert (Hno : existsb (fun q => String.eqb (jobId q) newId) (queued b) = false).
    { apply not_true_is_false. intros Hex. apply existsb_exists in Hex.
      destruct Hex as (q & Hin & Hq). apply String.eqb_eq in Hq.
      rewrite List.Forall_forall in Hall. now apply (Hall q Hin). }
    now rewrite Hno.
  - intros Hex. apply List.Exists_exists in Hex. destruct Hex as (q & Hin & Hq).
    assert (Hyes : existsb (fun q => String.eqb (jobId q) newId) (queued b) = true).
    { apply existsb_exists. exists q. split; [exact Hin | now apply String.eqb_eq]. }
    now rewrite Hyes.
Qed.

Lemma accepted_request_is_queued_witness :
  let run := startCommentJob true "64f0c0ffee0000000000000a" (Return tt)
               MoreExamples.request MoreExamples.backend in
  httpStatus (fst run) = 201
  /\ List.map maxComments (queued (snd run)) = [20%Q]
  /\ exists job, jobDocs (snd run) !! "64f0c0ffee0000000000000a" = Some job
                 /\ status job = waiting.
Proof.
  intros run.
  assert (H : httpStatus (fst run) = 201) by reflexivity.
  split; [exact H|]. split; [reflexivity|].
  destruct (accepted_request_is_queued true "64f0c0ffee0000000000000a" (Return tt)
              MoreExamples.request MoreExamples.backend H)
    as (_ & kws & data & job & _ & _ & _ & _ & Hjob & Hstatus & _).
  exists job. split; [exact Hjob | exact Hstatus].
Defined.

(** X17: when the queue refuses a job that passed the validation, the
    route answers 500, but the job document is already created: it stays
    in the status [waiting] and no job data reaches the queue. *)
Theorem refused_job_stays_waiting (newId : string) (e : Error) (req : StartRequest)
    (b : Backend) (k : string) (ks : list string) :
  req_keywords req = Some (k :: ks) ->
  (1 <= default 5 (req_maxComments req) <= 20)%Q ->
  validTone (default emptyOptions (req_options req)) = true ->
  let run := startCommentJob true newId (Throw e) req b in
  httpStatus (fst run) = 500
  /\ ok (fst run) = false
  /\ (status <$> jobDocs (snd run) !! newId) = Some waiting
  /\ (currentStep ∘ progress <$> jobDocs (snd run) !! newId) = Some None
  /\ queued (snd run) = queued b.
Proof.
  intros Hk Hm Ht. unfold startCommentJob. cbn [negb]. rewrite Hk, Ht.
  pose proof (Qltb_spec (default 5%Q (req_maxComments req)) 1) as Hlow.
  pose proof (Qltb_spec 20 (default 5%Q (req_maxComments req))) as Hhigh.
  destruct (Qltb (default 5%Q (req_maxComments req)) 1) eqn:E1; [lra|].
  destruct (Qltb 20 (default 5%Q (req_maxComments req))) eqn:E2; [lra|].
  cbn. rewrite lookup_insert_eq. repeat split.
Qed.

Lemma refused_job_stays_waiting_witness :
  let run := startCommentJob true "64f0c0ffee0000000000000a"
               (Throw (Err "connect ECONNREFUSED 127.0.0.1:6379"))
               MoreExamples.request MoreExamples.backend in
  httpStatus (fst run) = 500
  /\ (status <$> jobDocs (snd run) !! "64f0c0ffee0000000000000a") = Some waiting
  /\ queued (snd run) = [].
Proof.
  destruct (refused_job_stays_waiting "64f0c0ffee0000000000000a"
              (Err "connect ECONNREFUSED 127.0.0.1:6379") MoreExamples.request
              MoreExamples.backend "AI" ["Startup"])
    as (H500 & _ & Hstatus & _ & Hqueue); [reflexivity | cbn; lra | reflexivity |].
  cbn zeta. split; [exact H500|]. split; [exact Hstatus | exact Hqueue].
Defined.

End RouteProperties.

(** ** The contract of a run *)

Section RunContracts.
Import PostFilters Workers.

Lemma actLoopPosts_length {A} (l : list A) (n : Q) :
  Z.of_nat (List.length (actLoopPosts l n))
  = Z.max 0 (Z.min (Z.of_nat (List.length l)) (Qceiling n)).
Proof. unfold actLoopPosts. rewrite List.length_firstn. lia. Qed.

Lemma actLoopPosts_nil {A} (n : Q) : actLoopPosts (@nil A) n = [].
Proof. unfold actLoopPosts. apply List.firstn_nil. Qed.

Lemma updateFirst_urls (matches : PostDoc -> bool) (update : PostDoc -> PostDoc)
    (coll : list PostDoc) :
  (forall doc, doc_postUrl (update doc) = doc_postUrl doc) ->
  List.map doc_postUrl (updateFirst matches update coll) = List.map doc_postUrl coll.
Proof.
  intros Hu. induction coll as [|x rest IH]; [reflexivity|]. cbn.
  destruct (matches x); cbn; [now rewrite Hu | now rewrite IH].
Qed.

(** The act loop of [commentWorker.js] counts every post it visits once,
    as commented or as failed, and neither adds nor removes a document. *)
Lemma actLoop_accounts (env : Env) (selected : list Post) :
  forall (c f : Z) (w : World) (l : Locals),
  exists c' f' ps,
    CommentWorker.actLoop env selected c f (w, l)
    = (Return (c', f'),
       ({| jobs := jobs w; reports := reports w; posts := ps;
           queueProgress := queueProgress w; browserLog := browserLog w |}, l))
    /\ c <= c' /\ f <= f'
    /\ c' + f' = c + f + Z.of_nat (List.length selected)
    /\ List.map doc_postUrl ps = List.map doc_postUrl (posts w)
    /\ (selected = [] -> ps = posts w).
Proof.
  induction selected as [|p rest IH]; intros c f w l.
  - exists c, f, (posts w). destruct w. cbn. repeat split; try lia; reflexivity.
  - cbn [CommentWorker.actLoop].
    unfold bind at 1, try_catch, CommentWorker.actOn, findOneAndUpdate, setPosts,
      modifyWorld, getWorld, bind, lift, ret.
    assert (Hskip : exists c' f' ps,
              CommentWorker.actLoop env rest c (f + 1) (w, l)
              = (Return (c', f'),
                 ({| jobs := jobs w; reports := reports w; posts := ps;
                     queueProgress := queueProgress w; browserLog := browserLog w |}, l))
              /\ c <= c' /\ f <= f'
              /\ c' + f' = c + f + Z.of_nat (List.length (p :: rest))
              /\ List.map doc_postUrl ps = List.map doc_postUrl (posts w)
              /\ (p :: rest = [] -> ps = posts w)).
    { destruct (IH c (f + 1) w l) as (c' & f' & ps & Hloop & Hc & Hf & Hsum & Hurls & _).
      exists c', f', ps. cbn [List.length].
      repeat split; try assumption; try discriminate; lia. }
    destruct (generateAIComment env p) as [comment|e]; cbn; [|exact Hskip].
    destruct (postCommentOnPost env p comment) as [[]|e]; cbn; [|exact Hskip].
    destruct (IH (c + 1) f
                {| jobs := jobs w; reports := reports w;
                   posts := updateFirst
                              (fun doc => option_string_eqb (doc_postUrl doc) (postUrl p))
                              (CommentWorker.markCommented comment (endTime env)) (posts w);
                   queueProgress := queueProgress w; browserLog := browserLog w |} l)
      as (c' & f' & ps & Hloop & Hc & Hf & Hsum & Hurls & _).
    exists c', f', ps. cbn in Hloop, Hurls. cbn [List.length].
    split; [exact Hloop|]. split; [lia|]. split; [lia|]. split; [lia|].
    split; [|discriminate].
    rewrite Hurls. now apply updateFirst_urls.
Qed.

(** The batch [postsToSave] passes [Post.insertMany] only when it is
    empty: its documents have no [userId], which the schema requires. *)
Lemma commentWorker_saves_only_nothing (d : JobData) (scrapedPosts : list Post)
    (docs coll coll' : list PostDoc) (u : unit) :
  CommentWorker.mapOutcome (CommentWorker.postToSave d) scrapedPosts = Return docs ->
  insertOrdered docs coll = (Return u, coll') ->
  scrapedPosts = [] /\ coll' = coll.
Proof.
  intros Hmap Hins. destruct u.
  pose proof (insertOrdered_returns_valid _ _ _ Hins) as Hvalid.
  destruct scrapedPosts as [|p rest].
  - cbn in Hmap. injection Hmap as <-. cbn in Hins. injection Hins as <-. now split.
  - cbn in Hmap.
    destruct (CommentWorker.postToSave d p) as [y|e] eqn:Hy; [|discriminate].
    destruct (CommentWorker.mapOutcome (CommentWorker.postToSave d) rest) as [ys|e];
      [|discriminate].
    injection Hmap as <-. inversion Hvalid as [|? ? Hyv _]; subst.
    apply postToSave_has_no_user in Hy. destruct Hy as [Hno _]. congruence.
Qed.

Lemma filterPostsList_nil (options : Options) (filtered : list Post) :
  filterPostsList [] options = Return filtered -> filtered = [].
Proof.
  unfold filterPostsList. cbn.
  destruct (excludeJobPostsOf options); cbn; intros H; now injection H as <-.
Qed.

Ltac run_cbn :=
  cbn -[CommentWorker.actLoop actLoopPosts filterPostsList CommentWorker.mapOutcome
        insertOrdered existsb String.eqb Z.add Z.sub Z.of_nat Z.max Z.min].

Ltac next_step :=
  match goal with
  | |- context [match ?x with Return _ => _ | Throw _ => _ end] => destruct x eqn:?
  | |- context [if ?b then _ else _] => destruct b eqn:?
  | |- context [let (_, _) := insertOrdered ?a ?b in _] => destruct (insertOrdered a b) eqn:?
  | |- context [CommentWorker.actLoop ?env ?sel ?c ?f (?w0, ?l0)] =>
      let c' := fresh "c'" in
      let f' := fresh "f'" in
      let ps := fresh "ps" in
      let Hc := fresh "Hc" in
      let Hf := fresh "Hf" in
      let Hsum := fresh "Hsum" in
      let Hurls := fresh "Hurls" in
      let Hsame := fresh "Hsame" in
      destruct (actLoop_accounts env sel c f w0 l0)
        as (c' & f' & ps & -> & Hc & Hf & Hsum & Hurls & Hsame)
  end.

Ltac commentWorker_unfold :=
  unfold CommentWorker.handler, CommentWorker.handlerM, CommentWorker.tryBlock,
    CommentWorker.actAndFinish,
    CommentWorker.catchBlock, CommentWorker.browserInCatchBlock, step, assert,
    launchBrowser, browserClose, logBrowser, createReport, insertMany, setPosts,
    findById, findByIdAndUpdate, updateProgress, modifyWorld, modifyLocals, getWorld,
    getLocals, try_catch, bind, ret, throw, lift.

(** In a run that got past [Post.insertMany], nothing was scraped, so
    nothing was filtered or visited. *)
Ltac nothing_scraped :=
  match goal with
  | Hmap : CommentWorker.mapOutcome _ ?sp = Return ?docs,
    Hins : insertOrdered ?docs ?coll = (Return ?u, ?coll'),
    Hfil : filterPostsList ?sp _ = Return ?filtered |- _ =>
      let Hsp := fresh "Hsp" in
      let Hcoll := fresh "Hcoll" in
      destruct (commentWorker_saves_only_nothing _ _ _ _ _ _ Hmap Hins) as [Hsp Hcoll];
      rewrite Hsp in Hfil; apply filterPostsList_nil in Hfil;
      subst filtered; subst coll'
  end.

(** X18: the handler of [commentWorker.js] returns [success: true] only
    when the scrape found no post, for [Post.insertMany] rejects every
    document of [postsToSave], which has no [userId].  Such a run reports
    no comment and no failure, in the returned object, in the job result
    and in the session report alike; the job is [completed] at 100, no
    [Post] document is written, and the browser that was launched had
    [close] called on it. *)
Theorem commentWorker_success_contract (env : Env) (d : JobData) (w : World)
    (j : CommentJob) (r : JobReturn) :
  jobs w !! jobId d = Some j ->
  browserLog w = [] ->
  fst (CommentWorker.handler env d w) = Return r ->
  success r = true ->
  let w' := snd (CommentWorker.handler env d w) in
  exists scraped report j',
    scrape env = Return scraped
    /\ fst scraped = []
    /\ r = finished 0 (snd scraped) (List.length (reports w))
    /\ jobs w' !! jobId d = Some j'
    /\ status j' = completed
    /\ result j' = Some {| res_success := true; res_commentedCount := 0;
                           res_totalPostsScraped := snd scraped;
                           res_sessionReport :=
                             {| sum_totalPostsScraped := snd scraped;
                                sum_filteredPosts := 0;
                                sum_commentsPosted := 0; sum_failed := 0 |} |}
    /\ progress j' = {| currentStep := Some "Completed"; stepProgress := Some 100 |}
    /\ reports w' = (reports w ++ [report])%list
    /\ rep_commentsPosted report = 0
    /\ rep_failed report = 0
    /\ rep_filteredPosts report = 0
    /\ rep_errors report = []
    /\ posts w' = posts w
    /\ queueProgress w' = Some 100
    /\ browserLog w' = [Launched; CloseCalled].
Proof.
  intros Hj Hlog. destruct w as [js rs ps0 qp bl]. cbn in Hj, Hlog. subst bl.
  commentWorker_unfold.
  run_cbn. rewrite Hj.
  destruct (Status_eqb (status j) active);
    [cbn; intros Hr; injection Hr as <-; discriminate|].
  repeat (next_step; run_cbn).
  all: try discriminate.
  all: intros Hr _; injection Hr as <-.
  all: nothing_scraped.
  all: rewrite actLoopPosts_nil in Hsum, Hsame; cbn in Hsum, Hsame.
  all: specialize (Hsame eq_refl); subst.
  all: assert (c' = 0) by lia; assert (f' = 0) by lia; subst.
  all: match goal with Hs : scrape _ = Return ?a |- _ => exists a end.
  all: eexists; eexists.
  all: rewrite !lookup_alter_eq, Hj.
  all: cbn.
  all: repeat split; try reflexivity; assumption.
Qed.

Lemma commentWorker_success_contract_witness :
  let w := Examples.world (Examples.job waiting None None) [] [] in
  fst (CommentWorker.handler Examples.nothingFound Examples.data w)
  = Return (finished 0 0 0)
  /\ exists scraped,
       scrape Examples.nothingFound = Return scraped
       /\ fst scraped = []
       /\ browserLog (snd (CommentWorker.handler Examples.nothingFound Examples.data w))
          = [Launched; CloseCalled].
Proof.
  intros w.
  assert (Hr : fst (CommentWorker.handler Examples.nothingFound Examples.data w)
               = Return (finished 0 0 0)) by (vm_compute; reflexivity).
  split; [exact Hr|].
  destruct (commentWorker_success_contract Examples.nothingFound Examples.data w
              (Examples.job waiting None None) (finished 0 0 0)
              eq_refl eq_refl Hr eq_refl)
    as (scraped & report & j' & Hscrape & Hnone & Hrest).
  exists scraped. split; [exact Hscrape|]. split; [exact Hnone|]. apply Hrest.
Defined.

(** X19: when the handler of [commentWorker.js] throws, it has recorded
    the failure first: the job is [failed] with the message of the error
    and progress 0, its earlier [result] is kept, one session report with
    one failure and that message is added, the queue progress never
    reached 100, and [browser.close] was not called. *)
Theorem commentWorker_failure_contract (env : Env) (d : JobData) (w : World)
    (j : CommentJob) (e : Error) :
  jobs w !! jobId d = Some j ->
  browserLog w = [] ->
  queueProgress w <> Some 100 ->
  fst (CommentWorker.handler env d w) = Throw e ->
  let w' := snd (CommentWorker.handler env d w) in
  exists j' report,
    jobs w' !! jobId d = Some j'
    /\ status j' = failed
    /\ error j' = Some (message e)
    /\ progress j' = {| currentStep := Some "Failed"; stepProgress := Some 0 |}
    /\ result j' = result j
    /\ reports w' = (reports w ++ [report])%list
    /\ rep_commentsPosted report = 0
    /\ rep_failed report = 1
    /\ List.map err_message (rep_errors report) = [message e]
    /\ queueProgress w' <> Some 100
    /\ (browserLog w' = [] \/ browserLog w' = [Launched]).
Proof.
  intros Hj Hlog Hqp. destruct w as [js rs ps0 qp bl]. cbn in Hj, Hlog, Hqp. subst bl.
  commentWorker_unfold.
  run_cbn. rewrite Hj.
  destruct (Status_eqb (status j) active); [cbn; discriminate|].
  repeat (next_step; run_cbn).
  all: try discriminate.
  all: intros He; injection He as <-.
  all: eexists; eexists.
  all: rewrite !lookup_alter_eq, Hj.
  all: cbn -[Z.add Z.sub].
  all: repeat split; try reflexivity; try discriminate; try exact Hqp; tauto.
Qed.

Lemma commentWorker_failure_contract_witness :
  let w := Examples.world (Examples.job waiting None None) [] [] in
  let e := Err "LinkedIn cookies are invalid or expired. Please update cookies." in
  fst (CommentWorker.handler Examples.expiredSession Examples.data w) = Throw e
  /\ exists j',
       jobs (snd (CommentWorker.handler Examples.expiredSession Examples.data w))
         !! jobId Examples.data = Some j'
       /\ status j' = failed
       /\ error j' = Some (message e).
Proof.
  intros w e.
  assert (He : fst (CommentWorker.handler Examples.expiredSession Examples.data w)
               = Throw e) by (vm_compute; reflexivity).
  split; [exact He|].
  destruct (commentWorker_failure_contract Examples.expiredSession Examples.data w
              (Examples.job waiting None None) e eq_refl eq_refl)
    as (j' & report & Hj' & Hstatus & Herror & _); [discriminate | exact He |].
  exists j'. split; [exact Hj'|]. split; [exact Hstatus | exact Herror].
Defined.

Lemma slice0_length {A} (l : list A) (n : Q) :
  (0 <= n)%Q -> (inject_Z (Z.of_nat (List.length (slice0 l n))) <= n)%Q.
Proof.
  intros Hn. rewrite slice0_floor by exact Hn. rewrite List.length_firstn.
  destruct (toInteger_nonneg n Hn) as [_ Hpos].
  apply Qle_trans with (inject_Z (Qfloor n)); [|apply Qfloor_le].
  rewrite <- Zle_Qle. lia.
Qed.

Lemma postsForCommenting_length (scrapedPosts : list Post) (urls : list string) (n : Q) :
  Z.of_nat (List.length (postsForCommenting scrapedPosts urls n))
  <= Z.of_nat (List.length scrapedPosts)
  /\ ((0 <= n)%Q ->
      (inject_Z (Z.of_nat (List.length (postsForCommenting scrapedPosts urls n))) <= n)%Q).
Proof.
  unfold postsForCommenting. split; [|apply slice0_length].
  unfold slice0. rewrite List.length_firstn.
  rewrite (Permutation_length (sort_perm rankScore (availablePosts scrapedPosts urls))).
  pose proof (List.filter_length_le
                (fun p => negb (match postUrl p with
                                | Some u => existsb (String.eqb u) urls
                                | None => false
                                end)) scrapedPosts) as Hle.
  unfold availablePosts. lia.
Qed.


Lemma updateFirst_others (keep matches : PostDoc -> bool) (update : PostDoc -> PostDoc)
    (coll : list PostDoc) :
  (forall doc, matches doc = true -> keep doc = false) ->
  (forall doc, keep (update doc) = keep doc) ->
  List.filter keep (updateFirst matches update coll) = List.filter keep coll.
Proof.
  intros Hm Hu. induction coll as [|x rest IH]; [reflexivity|]. cbn [updateFirst].
  destruct (matches x) eqn:E.
  - cbn [List.filter]. rewrite Hu, (Hm x E). reflexivity.
  - cbn [List.filter]. now rewrite IH.
Qed.

(** The act loop of [linkedPostRefinementWorker.js] counts at most one
    comment per post it visits, and changes no document of another job
    or user. *)
Lemma linked_actLoop_spec (env : Env) (d : JobData) (selected : list Post) :
  forall (c : Z) (w : World) (l : Locals),
  exists c' ps,
    LinkedPostRefinementWorker.actLoop env d selected c (w, l)
    = (Return c',
       ({| jobs := jobs w; reports := reports w; posts := ps;
           queueProgress := queueProgress w; browserLog := browserLog w |}, l))
    /\ c <= c' <= c + Z.of_nat (List.length selected)
    /\ List.filter (fun doc => negb (LinkedPostRefinementWorker.ofJobAndUser d doc)) ps
       = List.filter (fun doc => negb (LinkedPostRefinementWorker.ofJobAndUser d doc))
           (posts w).
Proof.
  induction selected as [|p rest IH]; intros c w l.
  - exists c, (posts w). destruct w. cbn. repeat split; lia.
  - cbn [LinkedPostRefinementWorker.actLoop].
    unfold bind at 1, try_catch, LinkedPostRefinementWorker.actOn, findOneAndUpdate,
      setPosts, modifyWorld, getWorld, bind, lift, ret, throw.
    assert (Hskip : exists c' ps,
              LinkedPostRefinementWorker.actLoop env d rest c (w, l)
              = (Return c',
                 ({| jobs := jobs w; reports := reports w; posts := ps;
                     queueProgress := queueProgress w; browserLog := browserLog w |}, l))
              /\ c <= c' <= c + Z.of_nat (List.length (p :: rest))
              /\ List.filter (fun doc => negb (LinkedPostRefinementWorker.ofJobAndUser d doc)) ps
                 = List.filter
                     (fun doc => negb (LinkedPostRefinementWorker.ofJobAndUser d doc))
                     (posts w)).
    { destruct (IH c w l) as (c' & ps & Hloop & Hc & Hothers).
      exists c', ps. cbn [List.length]. repeat split; try assumption; lia. }
    destruct (or_string (postUrl p) None) as [url|]; cbn; [|exact Hskip].
    destruct (content p) as [text0|]; cbn; [|exact Hskip].
    destruct (submitComment env p _) as [[|]|e]; cbn; [|exact Hskip|exact Hskip].
    match goal with
    | |- context [LinkedPostRefinementWorker.actLoop env d rest ?c0 (?w0, l)] =>
        destruct (IH c0 w0 l) as (c' & ps & Hloop & Hc & Hothers)
    end.
    exists c', ps. cbn in Hloop, Hothers. cbn [List.length].
    split; [exact Hloop|]. split; [lia|].
    rewrite Hothers. apply updateFirst_others.
    + intros doc Hdoc. apply andb_prop in Hdoc. destruct Hdoc as [_ ->]. reflexivity.
    + intros doc. reflexivity.
Qed.


Lemma writeUnordered_others (keep : PostDoc -> bool) (docs coll : list PostDoc) :
  Forall (fun doc => keep doc = false) docs ->
  List.filter keep (snd (writeUnordered docs coll)) = List.filter keep coll.
Proof.
  intros Hdocs. revert coll.
  induction Hdocs as [|x rest Hx _ IH]; intros coll; [reflexivity|]. cbn.
  destruct (existsb (sameKey x) coll); [apply IH|].
  specialize (IH (coll ++ [x])%list).
  destruct (writeUnordered rest (coll ++ [x])%list) as [n coll']. cbn in *.
  rewrite IH, List.filter_app. cbn. rewrite Hx. apply List.app_nil_r.
Qed.

Lemma insertUnordered_others (keep : PostDoc -> bool) (docs coll : list PostDoc) :
  Forall (fun doc => keep doc = false) docs ->
  List.filter keep (snd (insertUnordered docs coll)) = List.filter keep coll.
Proof.
  intros Hdocs. unfold insertUnordered. apply writeUnordered_others.
  apply List.Forall_forall. intros doc Hin. apply List.filter_In in Hin.
  rewrite List.Forall_forall in Hdocs. now apply Hdocs.
Qed.

Lemma postToInsert_ofJobAndUser (d : JobData) (l : list Post) :
  Forall (fun doc => negb (LinkedPostRefinementWorker.ofJobAndUser d doc) = false)
         (List.map (LinkedPostRefinementWorker.postToInsert d) l).
Proof.
  apply List.Forall_forall. intros doc Hin. apply List.in_map_iff in Hin.
  destruct Hin as (p & <- & _).
  unfold LinkedPostRefinementWorker.ofJobAndUser, LinkedPostRefinementWorker.postToInsert.
  cbn. now rewrite !String.eqb_refl.
Qed.

Ltac linked_cbn :=
  cbn -[LinkedPostRefinementWorker.actLoop postsForCommenting
        LinkedPostRefinementWorker.keepNew insertUnordered distinct List.filter
        Z.of_nat Z.ltb Z.eqb Z.add Z.sub].

Ltac next_linked_step :=
  match goal with
  | |- context [match ?x with Return _ => _ | Throw _ => _ end] => destruct x eqn:?
  | |- context [if ?b then _ else _] => destruct b eqn:?
  | |- context [let (_, _) :=
                  insertUnordered
                    (List.map (LinkedPostRefinementWorker.postToInsert ?d) ?l) ?b in _] =>
      let Hins := fresh "Hins" in
      pose proof (insertUnordered_others
                    (fun doc => negb (LinkedPostRefinementWorker.ofJobAndUser d doc))
                    _ b (postToInsert_ofJobAndUser d l)) as Hins;
      destruct (insertUnordered (List.map (LinkedPostRefinementWorker.postToInsert d) l) b)
        eqn:?
  | |- context [LinkedPostRefinementWorker.actLoop ?env ?d ?sel ?c (?w0, ?l0)] =>
      let c' := fresh "c'" in
      let ps := fresh "ps" in
      let Hc := fresh "Hc" in
      let Hothers := fresh "Hothers" in
      destruct (linked_actLoop_spec env d sel c w0 l0) as (c' & ps & -> & Hc & Hothers)
  end.

Ltac linked_unfold :=
  unfold LinkedPostRefinementWorker.handler, LinkedPostRefinementWorker.handlerM,
    LinkedPostRefinementWorker.process, LinkedPostRefinementWorker.tryBlock,
    LinkedPostRefinementWorker.catchBlock, LinkedPostRefinementWorker.cleanupIfSet,
    LinkedPostRefinementWorker.runCleanup, findDistinctUrls, step, assert,
    launchBrowser, browserClose, logBrowser, createReport, insertMany, setPosts,
    findById, findByIdAndUpdate, updateProgress, modifyWorld, modifyLocals, getWorld,
    getLocals, try_catch, bind, ret, throw, lift.

(** X21: when the handler of [linkedPostRefinementWorker.js] returns
    [success: true], the comments counted are at most the posts selected,
    which are at most the posts scraped and, for [maxComments >= 0], at
    most [maxComments]; the failures reported are the selected posts
    without a comment; the job is [completed], the queue progress is 100
    and the browser was closed. *)
Theorem linked_success_contract (env : Env) (d : JobData) (w : World)
    (j : CommentJob) (r : JobReturn) :
  jobs w !! jobId d = Some j ->
  browserLog w = [] ->
  fst (LinkedPostRefinementWorker.handler env d w) = Return r ->
  success r = true ->
  let w' := snd (LinkedPostRefinementWorker.handler env d w) in
  exists c total nSelected report j',
    r = finished c total (List.length (reports w))
    /\ 0 <= c <= nSelected
    /\ nSelected <= total
    /\ ((0 <= maxComments d)%Q -> (inject_Z nSelected <= maxComments d)%Q)
    /\ jobs w' !! jobId d = Some j'
    /\ status j' = completed
    /\ result j' = Some {| res_success := true; res_commentedCount := c;
                           res_totalPostsScraped := total;
                           res_sessionReport :=
                             {| sum_totalPostsScraped := total;
                                sum_filteredPosts := nSelected;
                                sum_commentsPosted := c;
                                sum_failed := nSelected - c |} |}
    /\ reports w' = (reports w ++ [report])%list
    /\ rep_commentsPosted report = c
    /\ rep_failed report = nSelected - c
    /\ rep_errors report = []
    /\ queueProgress w' = Some 100
    /\ browserLog w' = [Launched; CloseCalled].
Proof.
  intros Hj Hlog. destruct w as [js rs ps0 qp bl]. cbn in Hj, Hlog. subst bl.
  linked_unfold. linked_cbn. rewrite Hj.
  repeat (next_linked_step; linked_cbn).
  all: try discriminate.
  all: try (intros Hr; injection Hr as <-; discriminate).
  all: intros Hr _; injection Hr as <-.
  all: match goal with
       | |- context [mkReportSummary ?t ?n ?c _] => exists c, t, n
       end.
  all: eexists; eexists.
  all: rewrite !lookup_alter_eq, Hj.
  all: match goal with
       | |- context [postsForCommenting ?l ?u ?n] =>
           pose proof (postsForCommenting_length l u n) as [Hlen Hmax]
       end.
  all: cbn -[Z.add Z.sub Z.of_nat postsForCommenting LinkedPostRefinementWorker.keepNew].
  all: repeat split; try reflexivity; try exact Hmax; try lia.
Qed.

Lemma linked_success_contract_witness :
  let w := Examples.world (Examples.job waiting None None) [] [] in
  fst (LinkedPostRefinementWorker.handler MoreExamples.articlesFound Examples.data w)
  = Return (finished 2 3 0)
  /\ exists c nSelected,
       0 <= c <= nSelected
       /\ ((0 <= maxComments Examples.data)%Q ->
           (inject_Z nSelected <= maxComments Examples.data)%Q).
Proof.
  intros w.
  assert (Hr : fst (LinkedPostRefinementWorker.handler MoreExamples.articlesFound
                      Examples.data w) = Return (finished 2 3 0))
    by (vm_compute; reflexivity).
  split; [exact Hr|].
  destruct (linked_success_contract MoreExamples.articlesFound Examples.data w
              (Examples.job waiting None None) (finished 2 3 0)
              eq_refl eq_refl Hr eq_refl)
    as (c & total & nSelected & report & j' & _ & Hc & _ & Hmax & _).
  exists c, nSelected. split; [exact Hc | exact Hmax].
Defined.

(** X22: when the handler of [linkedPostRefinementWorker.js] throws, the
    job is [failed] with the message of the error and progress 0, its
    earlier [result] is kept, and one session report of duration 0 with
    one failure and that message is added; the queue progress never
    reached 100. *)
Theorem linked_failure_contract (env : Env) (d : JobData) (w : World)
    (j : CommentJob) (e : Error) :
  jobs w !! jobId d = Some j ->
  queueProgress w <> Some 100 ->
  fst (LinkedPostRefinementWorker.handler env d w) = Throw e ->
  let w' := snd (LinkedPostRefinementWorker.handler env d w) in
  exists j' report,
    jobs w' !! jobId d = Some j'
    /\ status j' = failed
    /\ error j' = Some (message e)
    /\ progress j' = {| currentStep := Some "Failed"; stepProgress := Some 0 |}
    /\ result j' = result j
    /\ reports w' = (reports w ++ [report])%list
    /\ rep_commentsPosted report = 0
    /\ rep_failed report = 1
    /\ rep_duration report = 0
    /\ List.map err_message (rep_errors report) = [message e]
    /\ queueProgress w' <> Some 100.
Proof.
  intros Hj Hqp. destruct w as [js rs ps0 qp bl]. cbn in Hj, Hqp.
  linked_unfold. linked_cbn. rewrite Hj.
  repeat (next_linked_step; linked_cbn).
  all: try discriminate.
  all: intros He; injection He as <-.
  all: eexists; eexists.
  all: rewrite !lookup_alter_eq, Hj.
  all: cbn -[Z.add Z.sub].
  all: repeat split; try reflexivity; try discriminate; exact Hqp.
Qed.

Lemma linked_failure_contract_witness :
  let w := Examples.world (Examples.job waiting None None) [] [] in
  let e := Err "LinkedIn cookies are invalid or expired. Please update cookies." in
  fst (LinkedPostRefinementWorker.handler Examples.expiredSession Examples.data w)
  = Throw e
  /\ exists j',
       jobs (snd (LinkedPostRefinementWorker.handler Examples.expiredSession
                    Examples.data w)) !! jobId Examples.data = Some j'
       /\ status j' = failed
       /\ error j' = Some (message e).
Proof.
  intros w e.
  assert (He : fst (LinkedPostRefinementWorker.handler Examples.expiredSession
                      Examples.data w) = Throw e) by (vm_compute; reflexivity).
  split; [exact He|].
  destruct (linked_failure_contract Examples.expiredSession Examples.data w
              (Examples.job waiting None None) e eq_refl)
    as (j' & report & Hj' & Hstatus & Herror & _); [discriminate | exact He |].
  exists j'. split; [exact Hj'|]. split; [exact Hstatus | exact Herror].
Defined.

(** X23: a run of the handler of [linkedPostRefinementWorker.js] ends
    with no browser launched, or with the launched browser closed, in
    every case but one: the browser was launched and setting up the page
    threw, before [cleanup] was assigned. *)
Theorem linked_browser_stays_open_only_when_page_fails (env : Env) (d : JobData)
    (w : World) :
  browserLog w = [] ->
  let log := browserLog (snd (LinkedPostRefinementWorker.handler env d w)) in
  log = []
  \/ log = [Launched; CloseCalled]
  \/ (log = [Launched] /\ returned (launch env) = true /\ returned (openPage env) = false).
Proof.
  intros Hlog. destruct w as [js rs ps0 qp bl]. cbn in Hlog. subst bl.
  linked_unfold. linked_cbn.
  destruct (js !! jobId d) as [j|]; linked_cbn.
  all: repeat (next_linked_step; linked_cbn).
  all: tauto.
Qed.

Lemma linked_browser_stays_open_only_when_page_fails_witness :
  let w := Examples.world (Examples.job waiting None None) [] [] in
  let log := browserLog (snd (LinkedPostRefinementWorker.handler Examples.pageCrash
                                Examples.data w)) in
  browserLog w = []
  /\ (log = [] \/ log = [Launched; CloseCalled]
      \/ (log = [Launched] /\ returned (launch Examples.pageCrash) = true
          /\ returned (openPage Examples.pageCrash) = false)).
Proof.
  intros w log. split; [reflexivity|].
  exact (linked_browser_stays_open_only_when_page_fails Examples.pageCrash
           Examples.data w eq_refl).
Defined.

(** X24: whatever happens in a run of the handler of
    [linkedPostRefinementWorker.js], the [Post] documents of other jobs
    and other users are afterwards what they were before, in the same
    order. *)
Theorem linked_run_leaves_other_jobs_posts (env : Env) (d : JobData) (w : World) :
  let others doc := negb (LinkedPostRefinementWorker.ofJobAndUser d doc) in
  List.filter others (posts (snd (LinkedPostRefinementWorker.handler env d w)))
  = List.filter others (posts w).
Proof.
  destruct w as [js rs ps0 qp bl].
  linked_unfold. linked_cbn.
  destruct (js !! jobId d) as [j|]; linked_cbn.
  all: repeat (next_linked_step; linked_cbn).
  all: try reflexivity.
  all: cbn in *; congruence.
Qed.

Lemma commentWorker_count_bound (env : Env) (d : JobData) (w : World) (r : JobReturn)
    (c : Z) :
  fst (CommentWorker.handler env d w) = Return r ->
  ret_commentedCount r = Some c ->
  c = 0.
Proof.
  destruct w as [js rs ps0 qp bl].
  commentWorker_unfold.
  run_cbn.
  destruct (js !! jobId d) as [j|]; run_cbn.
  all: repeat (next_step; run_cbn).
  all: try discriminate.
  all: intros Hr; injection Hr as <-; cbn; intros Hc'.
  all: try discriminate.
  all: injection Hc' as <-.
  all: nothing_scraped.
  all: rewrite actLoopPosts_nil in Hsum; cbn in Hsum; lia.
Qed.

Lemma linked_count_bound (env : Env) (d : JobData) (w : World) (r : JobReturn) (c : Z) :
  fst (LinkedPostRefinementWorker.handler env d w) = Return r ->
  ret_commentedCount r = Some c ->
  (0 <= maxComments d)%Q ->
  0 <= c /\ (inject_Z c <= maxComments d)%Q.
Proof.
  destruct w as [js rs ps0 qp bl].
  linked_unfold. linked_cbn.
  destruct (js !! jobId d) as [j|]; linked_cbn.
  all: repeat (next_linked_step; linked_cbn).
  all: try discriminate.
  all: intros Hr; injection Hr as <-; cbn -[postsForCommenting]; intros Hc'.
  all: try discriminate.
  all: injection Hc' as <-; intros Hmax.
  all: match goal with
       | _ : context [postsForCommenting ?l ?u ?n] |- _ =>
           pose proof (postsForCommenting_length l u n) as [_ Hlen]
       end.
  all: split; [lia|].
  all: eapply Qle_trans; [|exact (Hlen Hmax)].
  all: rewrite <- Zle_Qle; lia.
Qed.

(** X25: [processJob] of [enhancedLinkedInWorker.js] always ends with
    the launched browser closed.  When it returns, the login succeeded and
    the job is left in the status [active], with [completedAt] untouched;
    when it throws, either the job is [failed] with the message of the
    error, or the error is the one [browser.close] threw in the [finally]
    block. *)
Theorem processJob_contract (env : Env) (d : JobData) (w : World) (j : CommentJob) :
  jobs w !! jobId d = Some j ->
  browserLog w = [] ->
  let run := EnhancedLinkedInWorker.processJob env d w in
  released (browserLog (snd run)) 0 = true
  /\ (forall r, fst run = Return r ->
        r = EnhancedLinkedInWorker.succeeded
        /\ loggedIn env = true
        /\ (status <$> jobs (snd run) !! jobId d) = Some active
        /\ (completedAt <$> jobs (snd run) !! jobId d) = Some (completedAt j))
  /\ (forall e, fst run = Throw e ->
        (closeBrowser env = Throw e /\ browserLog (snd run) = [Launched; CloseCalled])
        \/ ((status <$> jobs (snd run) !! jobId d) = Some failed
            /\ (error <$> jobs (snd run) !! jobId d) = Some (Some (message e)))).
Proof.
  intros Hj Hlog. destruct w as [js rs ps0 qp bl]. cbn in Hj, Hlog. subst bl.
  unfold EnhancedLinkedInWorker.processJob, EnhancedLinkedInWorker.processJobM,
    EnhancedLinkedInWorker.loginWithCookies, try_finally, try_catch, launchBrowser,
    browserClose, logBrowser, assert, findByIdAndUpdate, modifyWorld, modifyLocals,
    getWorld, getLocals, bind, ret, throw, lift.
  cbn.
  repeat (match goal with
          | |- context [match ?x with Return _ => _ | Throw _ => _ end] => destruct x eqn:?
          | |- context [if ?b then _ else _] => destruct b eqn:?
          end; cbn).
  all: rewrite ?lookup_alter_eq, Hj; cbn.
  all: split; [reflexivity|].
  all: split; [intros r Hr; try discriminate; injection Hr as <-; repeat split
              |intros e' He'; try discriminate; injection He' as <-; tauto].
Qed.

Lemma processJob_contract_witness :
  let w := Examples.world (Examples.job waiting None None) [] [] in
  let run := EnhancedLinkedInWorker.processJob MoreExamples.undeclaredName
               Examples.data w in
  fst run = Throw (Err "liAtCookies is not defined")
  /\ released (browserLog (snd run)) 0 = true
  /\ (status <$> jobs (snd run) !! jobId Examples.data) = Some failed.
Proof.
  intros w run.
  assert (Hj : jobs w !! jobId Examples.data = Some (Examples.job waiting None None))
    by (vm_compute; reflexivity).
  assert (He : fst run = Throw (Err "liAtCookies is not defined"))
    by (vm_compute; reflexivity).
  split; [exact He|].
  destruct (processJob_contract MoreExamples.undeclaredName Examples.data w
              (Examples.job waiting None None) Hj eq_refl) as (Hreleased & _ & Hthrow).
  split; [exact Hreleased|].
  destruct (Hthrow _ He) as [[Hclose _]|[Hstatus _]]; [discriminate | exact Hstatus].
Defined.

(** X26: the cooldown of [linkedPostRefinementWorker.js] covers the five
    minutes after [completedAt]: inside them the handler answers "Job
    completed recently" and changes nothing; from five minutes on the job
    is started again and a session report is added. *)
Theorem cooldown_window_is_five_minutes (env : Env) (d : JobData) (w : World)
    (j : CommentJob) (t : Z) :
  jobs w !! jobId d = Some j ->
  status j = completed ->
  completedAt j = Some t ->
  let run := LinkedPostRefinementWorker.handler env d w in
  (now env - t < 300000 ->
   run = (Return (rejected None (Some "Job completed recently")), w))
  /\ (300000 <= now env - t ->
      (startedAt <$> jobs (snd run) !! jobId d) = Some (Some (now env))
      /\ List.length (reports (snd run)) = S (List.length (reports w))).
Proof.
  intros Hj Hs Ht. destruct w as [js rs ps0 qp bl]. cbn in Hj.
  linked_unfold.
  unfold LinkedPostRefinementWorker.completedRecently,
    LinkedPostRefinementWorker.failedTooOften,
    LinkedPostRefinementWorker.minRestartInterval.
  linked_cbn. rewrite Hj, Hs, Ht. linked_cbn.
  change (5 * 60 * 1000) with 300000.
  destruct (now env - t <? 300000) eqn:E; linked_cbn.
  - split; [reflexivity | lia].
  - split; [lia|]. intros _.
    repeat (next_linked_step; linked_cbn).
    all: rewrite !lookup_alter_eq, Hj; cbn.
    all: split; [reflexivity | rewrite length_app; cbn; lia].
Qed.

Lemma cooldown_window_is_five_minutes_witness :
  let w := Examples.world (Examples.job completed (Some 900000) None)
             [Examples.earlierReport] [] in
  now Examples.allGood - 900000 < 300000
  /\ LinkedPostRefinementWorker.handler Examples.allGood Examples.data w
     = (Return (rejected None (Some "Job completed recently")), w).
Proof.
  intros w.
  assert (Hrecent : now Examples.allGood - 900000 < 300000) by (cbn; lia).
  split; [exact Hrecent|].
  destruct (cooldown_window_is_five_minutes Examples.allGood Examples.data w
              (Examples.job completed (Some 900000) None) 900000)
    as [Hskip _]; [vm_compute; reflexivity | reflexivity | reflexivity |].
  exact (Hskip Hrecent).
Defined.

Lemma commentWorker_run_restarts_job_witness :
  let w := Examples.world (Examples.job completed (Some 900000) None)
             [Examples.earlierReport] [] in
  jobs w !! jobId Examples.data = Some (Examples.job completed (Some 900000) None)
  /\ List.length (reports (snd (CommentWorker.handler Examples.allGood Examples.data w)))
     = 2%nat.
Proof.
  intros w.
  assert (Hj : jobs w !! jobId Examples.data
               = Some (Examples.job completed (Some 900000) None))
    by (vm_compute; reflexivity).
  split; [exact Hj|].
  destruct (commentWorker_run_restarts_job Examples.allGood Examples.data w
              (Examples.job completed (Some 900000) None) Hj) as [Hreports _];
    [discriminate | exact Hreports].
Defined.



End RunContracts.

(** ** From the request to the run *)

Section FromRequestToRun.
Import PostFilters Workers CommentQueue.

(** X27: the bound of the route holds for the run: whatever the
    collaborators do, a job queued by a request that was answered with 201
    reports from the handler of [linkedPostRefinementWorker.js] a
    [commentedCount] between 0 and the [maxComments] of the request,
    which is at most 20, and from the handler of [commentWorker.js],
    which returns only when nothing was scraped, a [commentedCount]
    of 0. *)
Theorem accepted_job_comments_at_most_20 (hasCookies : bool) (newId : string)
    (enqueue : Outcome unit) (req : StartRequest) (b : Backend) :
  httpStatus (fst (startCommentJob hasCookies newId enqueue req b)) = 201 ->
  Forall (fun q => jobId q <> newId) (queued b) ->
  exists data,
    queued (snd (startCommentJob hasCookies newId enqueue req b))
    = (queued b ++ [data])%list
    /\ jobId data = newId
    /\ forall env w r c,
         ret_commentedCount r = Some c ->
         (fst (CommentWorker.handler env data w) = Return r -> c = 0)
         /\ (fst (LinkedPostRefinementWorker.handler env data w) = Return r ->
             0 <= c <= 20
             /\ (inject_Z c <= default 5 (req_maxComments req))%Q).
Proof.
  unfold startCommentJob.
  destruct hasCookies; cbn [negb]; [|discriminate].
  destruct (req_keywords req) as [[|k ks]|]; [discriminate| |discriminate].
  pose proof (Qltb_spec (default 5%Q (req_maxComments req)) 1) as Hlow.
  pose proof (Qltb_spec 20 (default 5%Q (req_maxComments req))) as Hhigh.
  destruct (Qltb (default 5%Q (req_maxComments req)) 1) eqn:E1; [discriminate|].
  destruct (Qltb 20 (default 5%Q (req_maxComments req))) eqn:E2; cbn [orb];
    [discriminate|].
  destruct (validTone _); cbn [negb]; [|discriminate].
  destruct enqueue as [[]|e]; cbn [fst snd httpStatus jobDocs queued]; [|discriminate].
  intros _ Hall.
  exists {| jobId := newId; userId := req_userId req; keywords := k :: ks;
            maxComments := default 5%Q (req_maxComments req);
            options := default emptyOptions (req_options req) |}.
  split; [|split; [reflexivity|]].
  - unfold addCommentJob. cbn [jobId].
    assert (Hno : existsb (fun q => String.eqb (jobId q) newId) (queued b) = false).
    { apply not_true_is_false. intros Hex. apply existsb_exists in Hex.
      destruct Hex as (q & Hin & Hq). apply String.eqb_eq in Hq.
      rewrite List.Forall_forall in Hall. now apply (Hall q Hin). }
    rewrite Hno. reflexivity.
  - intros env w r c Hc. split; intros Hr.
    + exact (commentWorker_count_bound env _ w r c Hr Hc).
    + destruct (linked_count_bound env _ w r c Hr Hc) as [Hpos Hmax];
        [cbn [maxComments]; lra|].
      cbn [maxComments] in Hmax. split; [|exact Hmax].
      split; [exact Hpos|].
      assert (Hq : (inject_Z c <= inject_Z 20)%Q) by (change (inject_Z 20) with 20%Q; lra).
      now rewrite <- Zle_Qle in Hq.
Qed.

Lemma accepted_job_comments_at_most_20_witness :
  let run := startCommentJob true "64f0c0ffee0000000000000a" (Return tt)
               MoreExamples.request MoreExamples.backend in
  httpStatus (fst run) = 201
  /\ exists data,
       queued (snd run) = [data]
       /\ forall env w r c,
            fst (LinkedPostRefinementWorker.handler env data w) = Return r ->
            ret_commentedCount r = Some c -> 0 <= c <= 20.
Proof.
  intros run.
  assert (H : httpStatus (fst run) = 201) by reflexivity.
  split; [exact H|].
  destruct (accepted_job_comments_at_most_20 true "64f0c0ffee0000000000000a" (Return tt)
              MoreExamples.request MoreExamples.backend H (List.Forall_nil _))
    as (data & Hqueue & _ & Hbound).
  exists data. split; [exact Hqueue|].
  intros env w r c Hr Hc. exact (proj1 (proj2 (Hbound env w r c Hc) Hr)).
Defined.

(** X28: the document the ['active'] listener of [commentQueue.js]
    writes is one both handlers refuse: once the listener has run for a
    job, a handler that then reads the job answers "Job already being
    processed" and does nothing. *)
Theorem active_listener_makes_handlers_skip (t : Z) (env : Env) (d : JobData)
    (w : World) (j : CommentJob) :
  jobs w !! jobId d = Some j ->
  let w1 := listen (jobId d) (onActive t) w in
  CommentWorker.handler env d w1
  = (Return (rejected (Some "Job already being processed") None), w1)
  /\ LinkedPostRefinementWorker.handler env d w1
     = (Return (rejected None (Some "Job already being processed")), w1).
Proof.
  intros Hj. split.
  - unfold CommentWorker.handler, CommentWorker.handlerM, findById, getWorld, bind, ret,
      listen.
    cbn. rewrite lookup_alter_eq, Hj. reflexivity.
  - unfold LinkedPostRefinementWorker.handler, LinkedPostRefinementWorker.handlerM,
      findById, getWorld, bind, ret, listen.
    cbn. rewrite lookup_alter_eq, Hj. reflexivity.
Qed.

Lemma active_listener_makes_handlers_skip_witness :
  let w := Examples.world (Examples.job waiting None None) [] [] in
  let w1 := listen (jobId Examples.data) (onActive 950000) w in
  jobs w !! jobId Examples.data = Some (Examples.job waiting None None)
  /\ CommentWorker.handler Examples.allGood Examples.data w1
     = (Return (rejected (Some "Job already being processed") None), w1).
Proof.
  intros w w1.
  assert (Hj : jobs w !! jobId Examples.data = Some (Examples.job waiting None None))
    by (vm_compute; reflexivity).
  split; [exact Hj|].
  exact (proj1 (active_listener_makes_handlers_skip 950000 Examples.allGood
                  Examples.data w (Examples.job waiting None None) Hj)).
Defined.

End FromRequestToRun.
